(** * aashvi-automation: content posting, run lock, retry and repository

    A shallow embedding of the parts of the repository that decide the
    posting pipeline ([post_on_instagram.py]), the run-lock guarded
    generation entry points ([automation.py],
    [application/workflows/content_workflow.py]), the OpenAI retry wrapper
    ([infrastructure/apis/openai_client.py]) and the sheet-backed content
    repository ([core/repositories/content_repository.py]).

    Python text is modelled as [string] (a sequence of characters), sheet
    cells as text except the [index] column (an integer or the empty cell),
    and every effect (sheet, files, notifications, external capabilities) as
    explicit state threaded through a small state-and-exception monad in
    which, as in Python, the state written before an exception is kept. *)

From Stdlib Require Import String Ascii List ListSet ZArith Lia Bool QArith DecimalString Lqa.
Import ListNotations.
Local Open Scope string_scope.
Local Open Scope Z_scope.

(* ================================================================== *)
(** ** Python string and list primitives used by the scripts *)
(* ================================================================== *)

Module PyStr.

Definition chr (n : nat) : string := String (ascii_of_nat n) EmptyString.

(** The line feed and the double quote, by character code. *)
Definition nl : string := chr 10.
Definition dq : string := chr 34.

Definition len (s : string) : Z := Z.of_nat (String.length s).

Fixpoint drop (n : nat) (s : string) : string :=
  match n, s with
  | O, _ => s
  | S _, EmptyString => EmptyString
  | S k, String _ s' => drop k s'
  end.

Fixpoint take (n : nat) (s : string) : string :=
  match n, s with
  | O, _ => EmptyString
  | S _, EmptyString => EmptyString
  | S k, String c s' => String c (take k s')
  end.

(** Python's normalisation of a slice bound: a negative bound counts from
    the end, and every bound is clamped to [0, length]. *)
Definition norm_bound (length k : Z) : nat :=
  Z.to_nat (if k <? 0 then Z.max 0 (length + k) else Z.min k length).

(** [s[k:]] and [s[:k]]. *)
Definition slice_from (s : string) (k : Z) : string :=
  drop (norm_bound (len s) k) s.

Definition slice_to (s : string) (k : Z) : string :=
  take (norm_bound (len s) k) s.

(** [l[a:b]] on a list. *)
Definition list_slice {A} (l : list A) (a b : Z) : list A :=
  let n := Z.of_nat (List.length l) in
  skipn (norm_bound n a) (firstn (norm_bound n b) l).

(** [s.find(sub)]: the lowest index of [sub] in [s], or -1. *)
Fixpoint find_from (sub s : string) (i : Z) : Z :=
  if String.prefix sub s then i
  else match s with
       | EmptyString => -1
       | String _ s' => find_from sub s' (i + 1)
       end.

Definition find (sub s : string) : Z := find_from sub s 0.

(** The scanners below walk the text once; [skip] counts the characters of
    a separator occurrence that was matched and is still to be passed, so
    occurrences are taken left to right without overlap, as Python does.
    The separator is never empty at the call sites. *)

(** [s.count(sub)]. *)
Fixpoint count_go (sub s : string) (skip : nat) : nat :=
  match s with
  | EmptyString => O
  | String _ s' =>
      match skip with
      | S k => count_go sub s' k
      | O => if String.prefix sub s
             then S (count_go sub s' (String.length sub - 1))
             else count_go sub s' 0
      end
  end.

Definition count (sub s : string) : Z := Z.of_nat (count_go sub s 0).

(** [s.replace(old, new)]. *)
Fixpoint replace_go (old new s : string) (skip : nat) : string :=
  match s with
  | EmptyString => EmptyString
  | String c s' =>
      match skip with
      | S k => replace_go old new s' k
      | O => if String.prefix old s
             then new ++ replace_go old new s' (String.length old - 1)
             else String c (replace_go old new s' 0)
      end
  end.

Definition replace (old new s : string) : string := replace_go old new s 0.

(** [s.split(sep)]; [cur] is the piece being read. *)
Fixpoint split_go (sep s : string) (skip : nat) (cur : string) : list string :=
  match s with
  | EmptyString => [cur]
  | String c s' =>
      match skip with
      | S k => split_go sep s' k cur
      | O => if String.prefix sep s
             then cur :: split_go sep s' (String.length sep - 1) EmptyString
             else split_go sep s' 0 (cur ++ String c EmptyString)
      end
  end.

Definition split (sep s : string) : list string := split_go sep s 0 EmptyString.

(** [sep.join(l)]. *)
Definition join (sep : string) (l : list string) : string := String.concat sep l.

(** Characters removed by [s.strip()]: tab, line feed, vertical tab, form
    feed, carriage return, the four separators 28..31 and the space. *)
Definition is_space (c : ascii) : bool :=
  let n := nat_of_ascii c in
  ((9 <=? n) && (n <=? 13) || (28 <=? n) && (n <=? 32))%nat.

Fixpoint lstrip (s : string) : string :=
  match s with
  | EmptyString => EmptyString
  | String c s' => if is_space c then lstrip s' else s
  end.

Fixpoint rstrip (s : string) : string :=
  match s with
  | EmptyString => EmptyString
  | String c s' =>
      match rstrip s' with
      | EmptyString => if is_space c then EmptyString else String c EmptyString
      | r => String c r
      end
  end.

Definition strip (s : string) : string := rstrip (lstrip s).

Definition is_empty (s : string) : bool := String.eqb s EmptyString.

(** [s[a:b]]. *)
Definition slice (s : string) (a b : Z) : string :=
  let i := norm_bound (len s) a in
  let j := norm_bound (len s) b in
  take (j - i) (drop i s).

(** [s.find(sub, start)] for [start >= 0]. *)
Definition find_at (sub s : string) (start : Z) : Z :=
  find_from sub (drop (Z.to_nat start) s) start.

(** [s.split(sep, 1)]. *)
Definition split_once (sep s : string) : list string :=
  let k := find sep s in
  if k <? 0 then [s]
  else [take (Z.to_nat k) s; drop (Z.to_nat k + String.length sep) s].

(** [s.lower()] on the letters A..Z. *)
Definition lower_char (c : ascii) : ascii :=
  let n := nat_of_ascii c in
  if ((65 <=? n) && (n <=? 90))%nat then ascii_of_nat (n + 32) else c.

Fixpoint lower (s : string) : string :=
  match s with
  | EmptyString => EmptyString
  | String c s' => String (lower_char c) (lower s')
  end.

End PyStr.

(* ================================================================== *)
(** ** Effects: state passing with Python-style exceptions *)
(* ================================================================== *)

Module Exec.

(** A computation reads and writes a world [W] and either returns a value
    or raises an exception of type [E]; the world reached when the
    exception was raised is kept, as for Python side effects. *)
Inductive outcome (E A : Type) : Type :=
| Ret (a : A)
| Raise (e : E).

Arguments Ret {E A} a.
Arguments Raise {E A} e.

Definition M (E W A : Type) : Type := W -> outcome E A * W.

Definition ret {E W A} (a : A) : M E W A := fun w => (Ret a, w).

Definition raise {E W A} (e : E) : M E W A := fun w => (Raise e, w).

Definition bind {E W A B} (m : M E W A) (k : A -> M E W B) : M E W B :=
  fun w =>
    match m w with
    | (Ret a, w') => k a w'
    | (Raise e, w') => (Raise e, w')
    end.

Definition gets {E W A} (f : W -> A) : M E W A := fun w => (Ret (f w), w).

Definition modify {E W} (f : W -> W) : M E W unit := fun w => (Ret tt, f w).

(** [try: body / except ...: handler]. [handler e] is [None] for an
    exception that no [except] clause matches (it propagates). *)
Definition try_except {E W A} (body : M E W A) (handler : E -> option (M E W A))
  : M E W A :=
  fun w =>
    match body w with
    | (Raise e, w') =>
        match handler e with
        | Some h => h w'
        | None => (Raise e, w')
        end
    | r => r
    end.

(** [try: body / finally: fin]: [fin] runs on every exit of [body]; an
    exception raised by [fin] replaces the pending outcome. *)
Definition try_finally {E W A} (body : M E W A) (fin : M E W unit) : M E W A :=
  fun w =>
    match body w with
    | (r, w') =>
        match fin w' with
        | (Ret _, w'') => (r, w'')
        | (Raise e, w'') => (Raise e, w'')
        end
    end.

(** [for x in l: body x], stopping at the first exception. *)
Fixpoint for_each {E W A} (l : list A) (body : A -> M E W unit) : M E W unit :=
  match l with
  | [] => ret tt
  | x :: l' => bind (body x) (fun _ => for_each l' body)
  end.

End Exec.

Declare Scope exec_scope.
Delimit Scope exec_scope with exec.
Notation "x <- m ;; k" := (Exec.bind m (fun x => k))
  (at level 61, m at next level, right associativity) : exec_scope.
Notation "m ;;; k" := (Exec.bind m (fun _ => k))
  (at level 61, right associativity) : exec_scope.

(** Exceptions of the scripts: an [Exception] with its message, or the
    [SystemExit] raised by [exit()], which [except Exception] does not
    catch. *)
Inductive pyexn : Type :=
| Exception (msg : string)
| SystemExit (code : Z).

(** [except Exception as e: handler e]. *)
Definition except_Exception {W A} (handler : string -> Exec.M pyexn W A)
  : pyexn -> option (Exec.M pyexn W A) :=
  fun e => match e with
           | Exception msg => Some (handler msg)
           | SystemExit _ => None
           end.

(* ================================================================== *)
(** ** The worksheet shared by the scripts *)
(* ================================================================== *)

Module Gsheet.

(** The text columns of the sheet ([columns] in [automation.py]); the
    [index] and [seed] columns hold numbers and are fields of [Row] only. *)
Inductive Column : Type :=
| Type_ | Prompt | Location | Group_id | Image | Generated_on
| Caption | Approved | Posted_on_instagram | Hyperlink_image.

Definition column_name (c : Column) : string :=
  match c with
  | Type_ => "type" | Prompt => "prompt" | Location => "location"
  | Group_id => "group_id" | Image => "image" | Generated_on => "generated_on"
  | Caption => "caption" | Approved => "approved"
  | Posted_on_instagram => "posted_on_instagram"
  | Hyperlink_image => "hyperlink_image"
  end.

(** One record of [get_all_records]. A numeric cell is an integer, or
    [None] for the empty cell (['']); the other cells are text. *)
Record Row : Type := mkRow {
  r_index : option Z;
  r_type : string;
  r_prompt : string;
  r_location : string;
  r_group_id : string;
  r_seed : option Z;
  r_image : string;
  r_generated_on : string;
  r_caption : string;
  r_approved : string;
  r_posted_on_instagram : string;
  r_hyperlink_image : string
}.

Definition blank_row : Row := mkRow None "" "" "" "" None "" "" "" "" "" "".

Definition set_cell (c : Column) (v : string) (r : Row) : Row :=
  match r with
  | mkRow i ty pr lo gr se im ge ca ap po hy =>
      match c with
      | Type_ => mkRow i v pr lo gr se im ge ca ap po hy
      | Prompt => mkRow i ty v lo gr se im ge ca ap po hy
      | Location => mkRow i ty pr v gr se im ge ca ap po hy
      | Group_id => mkRow i ty pr lo v se im ge ca ap po hy
      | Image => mkRow i ty pr lo gr se v ge ca ap po hy
      | Generated_on => mkRow i ty pr lo gr se im v ca ap po hy
      | Caption => mkRow i ty pr lo gr se im ge v ap po hy
      | Approved => mkRow i ty pr lo gr se im ge ca v po hy
      | Posted_on_instagram => mkRow i ty pr lo gr se im ge ca ap v hy
      | Hyperlink_image => mkRow i ty pr lo gr se im ge ca ap po v
      end
  end.

(** The worksheet: row 1 is the header row (the cells [gsheet.find]
    returns for a column name); the record at position [j] (from 0) of
    [get_all_records] is sheet row [j + 2]. *)
Record Sheet : Type := mkSheet {
  header : Row;
  records : list Row
}.

Definition header_cells : Row :=
  mkRow None "type" "prompt" "location" "group_id" None "image" "generated_on"
        "caption" "approved" "posted_on_instagram" "hyperlink_image".

(** Writing cell [c] of the record at position [j]; the rows up to it are
    created blank when the sheet is shorter. *)
Fixpoint set_record_cell (j : nat) (c : Column) (v : string) (rows : list Row)
  : list Row :=
  match j, rows with
  | O, [] => [set_cell c v blank_row]
  | O, r :: rest => set_cell c v r :: rest
  | S k, [] => blank_row :: set_record_cell k c v []
  | S k, r :: rest => r :: set_record_cell k c v rest
  end.

(** [cell.row] of a header cell. *)
Definition header_row : Z := 1.

(** The effect of [update_cell(row, col, value)] on the sheet, for a row
    number the service accepts ([row >= 1]). *)
Definition write_cell (row : Z) (c : Column) (v : string) (s : Sheet) : Sheet :=
  if row =? 1 then mkSheet (set_cell c v (header s)) (records s)
  else mkSheet (header s) (set_record_cell (Z.to_nat (row - 2)) c v (records s)).

(** The effect of [update_row(row_index, values)] on the sheet, for a row
    number the service accepts: the whole row is replaced. *)
Fixpoint set_record (j : nat) (r' : Row) (rows : list Row) : list Row :=
  match j, rows with
  | O, [] => [r']
  | O, _ :: rest => r' :: rest
  | S k, [] => blank_row :: set_record k r' []
  | S k, r :: rest => r :: set_record k r' rest
  end.

Definition write_row (row : Z) (r' : Row) (s : Sheet) : Sheet :=
  if row =? 1 then mkSheet r' (records s)
  else mkSheet (header s) (set_record (Z.to_nat (row - 2)) r' (records s)).

End Gsheet.

(* ================================================================== *)
(** ** The posting pipeline: [post_on_instagram.py] *)
(* ================================================================== *)

Module Posting.

Import PyStr Gsheet.
Local Open Scope exec_scope.

(** What the run can observe and change. Reading location.txt and
    sending a notification are taken to succeed. *)
Record World : Type := mkWorld {
  sheet : Sheet;
  location_txt : string;                           (* location.txt *)
  notifications : list string;                     (* send_messages *)
  poster_calls : list (list string * string * string)
}.

(** What the run cannot decide: whether the Poster capability raises (and
    with which message) for given arguments, and the clock reading. *)
Record Env : Type := mkEnv {
  poster : list string -> string -> string -> option string;
  now : string
}.

Definition Run (A : Type) : Type := Exec.M pyexn World A.

Definition with_sheet (f : Sheet -> Sheet) (w : World) : World :=
  mkWorld (f (sheet w)) (location_txt w) (notifications w) (poster_calls w).

(** [gsheet.update_cell(row, col, value)]. Row numbers start at 1; the
    service rejects others. *)
Definition update_cell (row : Z) (c : Column) (value : string) : Run unit :=
  if row <? 1 then Exec.raise (Exception "APIError")
  else Exec.modify (with_sheet (write_cell row c value)).

(** [send_messages(message)]. *)
Definition send_messages (message : string) : Run unit :=
  Exec.modify (fun w =>
    mkWorld (sheet w) (location_txt w) (notifications w ++ [message]) (poster_calls w)).

(** [get_location()]. *)
Definition get_location (w : World) : string := strip (location_txt w).

(** [post_on_instagram(image_urls, caption, location)]: the browser
    session that publishes the post; it either returns or raises. *)
Definition post_on_instagram (env : Env) (image_urls : list string)
    (caption location : string) : Run unit :=
  fun w =>
    let w' := mkWorld (sheet w) (location_txt w) (notifications w)
                      (poster_calls w ++ [(image_urls, caption, location)]) in
    match poster env image_urls caption location with
    | None => (Exec.Ret tt, w')
    | Some msg => (Exec.Raise (Exception msg), w')
    end.

(** *** The caption (lines 108-129) *)

(** The three source lines of the generic hashtag block. *)
Definition raw_caption_literal : string :=
  " #digitalmodel #fashionista #fashiongram #styleblogger #fashionblogger #fashionmodel #modelling"
  ++ nl ++
  "                #modelswanted #modelsearch #modelphotography #modelpose #modelstatus #modelsofinstagram #modelife "
  ++ nl ++
  "                #digitalinfluencer #VirtualModel #DigitalFashion".

Definition max_hashtags : Z := 30.

Definition mentions : string := "@thevarunmayya @acknowledge.ai @eluna.ai".

(** Lines 122-126: what becomes of the generic block [raw_caption] when
    [caption_to_remove_from_raw] is the excess over the cap. *)
Definition trim_raw_caption (raw_caption : string) (caption_to_remove_from_raw : Z)
  : string :=
  let raw_caption :=
    if 0 <? caption_to_remove_from_raw
    then "#" ++ join " #" (list_slice (split " #" raw_caption) 1 caption_to_remove_from_raw)
    else raw_caption in
  if String.eqb raw_caption "#" then "" else raw_caption.

(** Line 116: the part of the caption from its first hashtag on. *)
Definition extract_hashtags (row_caption : string) : string :=
  strip (slice_from row_caption (find "#" row_caption)).

(** Lines 109-129 for a generic block, a cap and a mentions line. *)
Definition assemble_caption (raw_literal : string) (cap : Z) (mentions_line : string)
    (row_caption : string) : string :=
  let raw_caption := strip (replace nl "" raw_literal) in
  let extracted_caption := extract_hashtags row_caption in
  let raw_caption_count := count "#" raw_caption in
  let extracted_caption_count := count "#" extracted_caption in
  let caption_to_remove_from_raw := extracted_caption_count + raw_caption_count - cap in
  let raw_caption := trim_raw_caption raw_caption caption_to_remove_from_raw in
  slice_to row_caption (find "#" row_caption)
  ++ nl ++ nl ++ nl ++ extracted_caption ++ raw_caption ++ nl ++ nl ++ nl ++ mentions_line.

(** The caption the script builds. *)
Definition build_caption (row_caption : string) : string :=
  assemble_caption raw_caption_literal max_hashtags mentions row_caption.

(** *** The location tag (lines 131-132) *)

Definition normalize_location (main_location stored : string) : string :=
  strip (replace ("," ++ main_location) "" stored).

(** *** The scan (lines 84-132) *)

Record ScanState : Type := mkScan {
  group_id : string;
  image_urls : list string;
  caption : string;
  location : string;
  start_index : option Z;
  indexes : list Z
}.

Definition scan_init : ScanState := mkScan "" [] "" "" None [].

Definition image_url_of (image_cell : string) : string :=
  replace (dq ++ ", 4, 120, 120)") "" (replace ("=IMAGE(" ++ dq) "" image_cell).

(** The guard of lines 94-95. *)
Definition selected (group : string) (row : Row) : bool :=
  String.eqb (r_approved row) "y"
  && String.eqb (r_posted_on_instagram row) ""
  && String.eqb (r_type row) "posts"
  && (String.eqb (r_group_id row) group || String.eqb group "").

(** The guard of line 96. *)
Definition missing_values (row : Row) : bool :=
  String.eqb (r_image row) "" || String.eqb (r_caption row) ""
  || String.eqb (r_location row) "" || String.eqb (r_group_id row) "".

(** Lines 100-132: the row is taken into the post. *)
Definition accumulate (main_location : string) (i : Z) (row : Row) (st : ScanState)
  : ScanState :=
  let st1 := if String.eqb (group_id st) ""
             then mkScan (r_group_id row) (image_urls st) (caption st) (location st)
                         (Some i) (indexes st)
             else st in
  mkScan (group_id st1)
         (image_urls st1 ++ [image_url_of (r_image row)])
         (if negb (String.eqb (r_caption row) "-")
          then build_caption (r_caption row) else caption st1)
         (normalize_location main_location (r_location row))
         (start_index st1)
         (indexes st1 ++ [i]).

(** The [for row in content] loop: [break] at the first empty index,
    [continue] on a row with missing values. *)
Fixpoint scan (main_location : string) (content : list Row) (st : ScanState)
  : ScanState :=
  match content with
  | [] => st
  | row :: rest =>
      match r_index row with
      | None => st
      | Some i =>
          if selected (group_id st) row then
            if missing_values row then scan main_location rest st
            else scan main_location rest (accumulate main_location i row st)
          else scan main_location rest st
      end
  end.

(** [scheduled_posts_on_instagram()]. *)
Definition scheduled_posts_on_instagram (env : Env) : Run unit :=
  content <- Exec.gets (fun w => records (sheet w)) ;;
  main_location <- Exec.gets get_location ;;
  let st := scan main_location content scan_init in
  if (0 <? Z.of_nat (List.length (image_urls st))) then
    post_on_instagram env (firstn 6 (image_urls st)) (caption st) (location st) ;;;
    Exec.for_each (firstn 6 (indexes st))
      (fun i => update_cell (header_row + i) Posted_on_instagram (now env)) ;;;
    send_messages
      "Successfully posted on instagram, checkout https://www.instagram.com/aashvithemodel"
  else
    send_messages "No posts to post on instagram, please check the sheet".

(** The text of the error notification of [__main__] (line 151);
    [traceback.print_exc()] returns [None], which the f-string renders. *)
Definition posting_error_message (e : string) : string :=
  "Error while posting on instagram" ++ nl ++ " " ++ e ++ " " ++ nl ++ " None".

(** The posting block of [__main__] (lines 146-151). *)
Definition main_posting (env : Env) : Run unit :=
  Exec.try_except (scheduled_posts_on_instagram env)
    (except_Exception (fun e => send_messages (posting_error_message e))).

(** *** A notification that cannot be delivered *)

(** [send_messages(message)] posts the message to the Telegram webhook
    and prints the outcome; neither the request nor the decoding of an
    error answer is guarded. [webhook message] is the text of the
    exception with which the call ends, or [None] when it returns; a
    message is recorded once its call returned. With a webhook that
    answers every request, the definitions below are those above. *)
Definition send_messages_via (webhook : string -> option string) (message : string)
  : Run unit :=
  fun w =>
    match webhook message with
    | None =>
        (Exec.Ret tt,
         mkWorld (sheet w) (location_txt w) (notifications w ++ [message])
                 (poster_calls w))
    | Some error => (Exec.Raise (Exception error), w)
    end.

Definition scheduled_posts_on_instagram_via (webhook : string -> option string)
    (env : Env) : Run unit :=
  content <- Exec.gets (fun w => records (sheet w)) ;;
  main_location <- Exec.gets get_location ;;
  let st := scan main_location content scan_init in
  if (0 <? Z.of_nat (List.length (image_urls st))) then
    post_on_instagram env (firstn 6 (image_urls st)) (caption st) (location st) ;;;
    Exec.for_each (firstn 6 (indexes st))
      (fun i => update_cell (header_row + i) Posted_on_instagram (now env)) ;;;
    send_messages_via webhook
      "Successfully posted on instagram, checkout https://www.instagram.com/aashvithemodel"
  else
    send_messages_via webhook "No posts to post on instagram, please check the sheet".

Definition main_posting_via (webhook : string -> option string) (env : Env) : Run unit :=
  Exec.try_except (scheduled_posts_on_instagram_via webhook env)
    (except_Exception (fun e => send_messages_via webhook (posting_error_message e))).

End Posting.

(* ================================================================== *)
(** ** The generator script: [automation.py] *)
(* ================================================================== *)

Module Automation.

Import PyStr Gsheet.
Local Open Scope exec_scope.

(** An invocation of an AI capability. *)
Inductive AiCall : Type :=
| Txt2img (prompt : string)              (* POST sdapi/v1/txt2img *)
| ChatCompletion (prompt : string).      (* openai.ChatCompletion.create *)

(** What a run can observe and change. The local files can always be read
    and written, and sending a notification is taken to succeed. *)
Record World : Type := mkWorld {
  sheet : Sheet;
  is_running_txt : string;                 (* is_running.txt *)
  location_txt : string;                   (* location.txt *)
  notifications : list string;             (* send_messages *)
  ai_calls : list AiCall;
  uploads : list string                    (* files sent to the drive *)
}.

(** What a run cannot decide: the behaviour of the services it calls. A
    result [inl msg] stands for the call raising an exception with that
    message. *)
Record Env : Type := mkEnv {
  sheet_read_error : option string;            (* get_all_records / find *)
  connect : option pyexn;                      (* connect_to_automatic1111_api *)
  txt2img : string -> string + (Z * string);   (* status code and image *)
  upload_image_to_drive : string -> string + string;
  chat_completion : string -> string + string;
  now : string
}.

Definition Run (A : Type) : Type := Exec.M pyexn World A.

Definition with_sheet (f : Sheet -> Sheet) (w : World) : World :=
  mkWorld (f (sheet w)) (is_running_txt w) (location_txt w) (notifications w)
          (ai_calls w) (uploads w).

Definition update_cell (row : Z) (c : Column) (value : string) : Run unit :=
  if row <? 1 then Exec.raise (Exception "APIError")
  else Exec.modify (with_sheet (write_cell row c value)).

Definition send_messages (message : string) : Run unit :=
  Exec.modify (fun w =>
    mkWorld (sheet w) (is_running_txt w) (location_txt w)
            (notifications w ++ [message]) (ai_calls w) (uploads w)).

Definition write_is_running (v : string) : Run unit :=
  Exec.modify (fun w =>
    mkWorld (sheet w) v (location_txt w) (notifications w) (ai_calls w) (uploads w)).

Definition log_ai_call (c : AiCall) : Run unit :=
  Exec.modify (fun w =>
    mkWorld (sheet w) (is_running_txt w) (location_txt w) (notifications w)
            (ai_calls w ++ [c]) (uploads w)).

Definition log_upload (filename : string) : Run unit :=
  Exec.modify (fun w =>
    mkWorld (sheet w) (is_running_txt w) (location_txt w) (notifications w)
            (ai_calls w) (uploads w ++ [filename])).

(** A service result as a computation. *)
Definition of_result {A} (r : string + A) : Run A :=
  match r with
  | inl msg => Exec.raise (Exception msg)
  | inr a => Exec.ret a
  end.

(** [exit()]: raises [SystemExit]; the process ends with status 0. *)
Definition exit {A} : Run A := Exec.raise (SystemExit 0).

(** Decimal text of an integer, for f-strings. *)
Definition str_of_Z (z : Z) : string :=
  NilZero.string_of_int (Z.to_int z).

(** The texts of the exceptions of [row["index"] + 1] and of
    [int(row["index"])] on an empty index cell, the empty text. *)
Definition str_plus_int : string :=
  "can only concatenate str (not " ++ dq ++ "int" ++ dq ++ ") to str".

Definition int_of_empty : string := "invalid literal for int() with base 10: ''".

(** [generate_caption(background)] (lines 60-70). *)
Definition caption_prompt (background : string) : string :=
  "generate a instagram caption for this prompt 'a beautiful woman at a "
  ++ background
  ++ " background.' it should be creative, cute and funny. Feel Good. Use Emojis. In first person. Also add relevant hashtags.".

Definition generate_caption (env : Env) (background : string) : Run string :=
  log_ai_call (ChatCompletion (caption_prompt background)) ;;;
  content <- of_result (chat_completion env (caption_prompt background)) ;;
  Exec.ret (strip (replace dq "" content)).

(** Lines 414-440: the image of one row. *)
Definition generate_image (env : Env) (row : Row) : Run unit :=
  match connect env with Some e => Exec.raise e | None => Exec.ret tt end ;;;
  log_ai_call (Txt2img (r_prompt row)) ;;;
  response <- of_result (txt2img env (r_prompt row)) ;;
  (if negb (fst response =? 200) then exit else Exec.ret tt) ;;;
  index <- match r_index row with
           | Some i => Exec.ret (i + 1)
           | None => Exec.raise (Exception str_plus_int)
           end ;;
  log_upload (str_of_Z index ++ "-aashvi.png") ;;;
  image_url <- of_result (upload_image_to_drive env (str_of_Z index ++ "-aashvi.png")) ;;
  update_cell (header_row + index) Image
    ("=IMAGE(" ++ dq ++ image_url ++ dq ++ ", 4, 120, 120)") ;;;
  update_cell (header_row + index) Generated_on (now env) ;;;
  update_cell (header_row + index) Hyperlink_image
    ("=HYPERLINK(" ++ dq ++ image_url ++ dq ++ ", " ++ dq ++ "Link" ++ dq ++ ")").

(** Lines 442-452: the caption of one row; a failure is printed and the
    loop goes on to the next row. *)
Definition generate_row_caption (env : Env) (row : Row) : Run unit :=
  if String.eqb (r_caption row) "" && String.eqb (r_type row) "posts" then
    Exec.try_except
      (caption <- generate_caption env (r_location row) ;;
       match r_index row with
       | Some i => update_cell (header_row + i + 1) Caption caption
       | None => Exec.raise (Exception int_of_empty)
       end)
      (except_Exception (fun _ => Exec.ret tt))
  else Exec.ret tt.

(** Lines 411-456: the body of the loop for one row, in its [try]. *)
Definition generate_row (env : Env) (row : Row) : Run unit :=
  Exec.try_except
    (if negb (String.eqb (r_prompt row) "") then
       (if String.eqb (r_image row) "" then generate_image env row else Exec.ret tt) ;;;
       generate_row_caption env row
     else Exec.ret tt)
    (except_Exception (fun e =>
       send_messages ("Something went wrong while generating image " ++ e))).

(** [generate_posts_and_caption(sheet)] (lines 400-457). *)
Definition generate_posts_and_caption (env : Env) : Run unit :=
  match sheet_read_error env with
  | Some msg => Exec.raise (Exception msg)
  | None => Exec.ret tt
  end ;;;
  content <- Exec.gets (fun w => records (sheet w)) ;;
  Exec.for_each content (generate_row env).

(** [__main__] (lines 573-586). *)
Definition main (env : Env) : Run unit :=
  is_running <- Exec.gets (fun w => strip (is_running_txt w)) ;;
  (if String.eqb is_running "yep" then exit else Exec.ret tt) ;;;
  send_messages "Running image and caption generation..." ;;;
  write_is_running "yep" ;;;
  generate_posts_and_caption env ;;;
  send_messages "Stopping image and caption generation" ;;;
  write_is_running "nope".

(** *** New rows ([v1_generate_prompts], lines 516-536) *)

(** The location cell written for a place of the current location. *)
Definition stored_location (place location : string) : string :=
  place ++ "," ++ location.

(** The rows for [prompts] (pairs of a place and a prompt text, the result
    of [generate_multiple_prompts]); the first row has the empty caption
    cell, the others ["-"]. *)
Fixpoint new_rows (offset : Z) (location group_id caption : string)
    (prompts : list (string * string)) : list Row :=
  match prompts with
  | [] => []
  | (place, text) :: rest =>
      mkRow (Some offset) "posts" text (stored_location place location) group_id
            (Some (-1)) "" "" caption "" "" ""
      :: new_rows (offset + 1) location group_id "-" rest
  end.

(** [get_last_index()] on a sheet that has its header row. *)
Definition get_last_index (s : Sheet) : Z := Z.of_nat (List.length (records s)).

(** [gsheet.insert_rows(values, row=last_index + 2)]. *)
Definition insert_rows (values : list Row) (row : Z) (s : Sheet) : Sheet :=
  let j := Z.to_nat (row - 2) in
  mkSheet (header s) (firstn j (records s) ++ values ++ skipn j (records s)).

Definition v1_generate_prompts (location group_id : string)
    (prompts : list (string * string)) (s : Sheet) : Sheet :=
  let last_index := get_last_index s in
  insert_rows (new_rows last_index location group_id "" prompts) (last_index + 2) s.

(** *** Backlog counters (lines 474-508) *)

(** [non_posted_instagram_posts()]: the number of distinct groups with an
    unposted post row. *)
Definition non_posted_instagram_posts (values : list Row) : Z :=
  Z.of_nat (List.length
    (fold_left (fun group_ids row =>
       if String.eqb (r_type row) "posts" && String.eqb (r_posted_on_instagram row) ""
       then set_add string_dec (r_group_id row) group_ids else group_ids)
     values [])).

(** [approved_non_posted_instagram_posts()]: as the source has it, the
    groups with an unposted post row that has its image and an empty
    [approved] cell. *)
Definition approved_non_posted_instagram_posts (values : list Row) : Z :=
  Z.of_nat (List.length
    (fold_left (fun group_ids row =>
       if String.eqb (r_type row) "posts" && String.eqb (r_posted_on_instagram row) ""
          && String.eqb (r_approved row) "" && negb (String.eqb (r_image row) "")
       then set_add string_dec (r_group_id row) group_ids else group_ids)
     values [])).

(** [non_posted_story()]. *)
Definition non_posted_story (values : list Row) : Z :=
  fold_left (fun total row =>
     if String.eqb (r_type row) "story" && String.eqb (r_posted_on_instagram row) ""
     then total + 1 else total)
   values 0.

(** [approved_non_posted_story()]. *)
Definition approved_non_posted_story (values : list Row) : Z :=
  fold_left (fun total row =>
     if String.eqb (r_type row) "story" && String.eqb (r_posted_on_instagram row) ""
        && negb (String.eqb (r_image row) "") && String.eqb (r_approved row) ""
     then total + 1 else total)
   values 0.

(** [approve_process.py], [__main__]: the two reminders. *)
Definition approve_process : Run unit :=
  values <- Exec.gets (fun w => records (sheet w)) ;;
  let story := approved_non_posted_story values in
  (if 2 <=? story
   then send_messages ("Hey! You have " ++ str_of_Z story ++ " non approved stories.")
   else Exec.ret tt) ;;;
  let posts := approved_non_posted_instagram_posts values in
  (if 2 <=? posts
   then send_messages ("Hey! You have " ++ str_of_Z posts ++ " non approved posts.")
   else Exec.ret tt).

(** *** Story ideas (lines 150-171 and 549-565) *)

(** The parsing loop of [generate_multiple_story_prompts]: every non-empty
    line, from the character after its first full stop, stripped. *)
Fixpoint story_prompts_of_lines (lines : list string) : list string :=
  match lines with
  | [] => []
  | prompt :: rest =>
      if String.eqb prompt "" then story_prompts_of_lines rest
      else strip (slice_from prompt (find "." prompt + 1)) :: story_prompts_of_lines rest
  end.

Definition parse_story_prompts (text : string) : list string :=
  story_prompts_of_lines (split nl text).

(** The rows of [v1_generate_story_idea] for the prompts. *)
Fixpoint story_rows (offset : Z) (prompts : list string) : list Row :=
  match prompts with
  | [] => []
  | prompt :: rest =>
      mkRow (Some offset) "story" prompt "" "" (Some (-1)) "" "" "" "y" "" ""
      :: story_rows (offset + 1) rest
  end.

(** [v1_generate_story_idea()] for the prompts that
    [generate_multiple_story_prompts] returned: the first two rows are
    inserted. *)
Definition v1_generate_story_idea (prompts : list string) (s : Sheet) : Sheet :=
  let last_index := get_last_index s in
  insert_rows (firstn 2 (story_rows last_index prompts)) (last_index + 2) s.

(** *** Post prompts (lines 108-147) *)

Definition starting_prompt : string := "a beautiful and cute aashvi-500, single girl,".

Definition ending_prompt : string :=
  "long haircut, light skin, (high detailed skin:1.3), 8k UHD DSLR, bokeh effect, soft lighting, high quality".

(** [sub in s]. *)
Definition contains (sub s : string) : bool := 0 <=? find sub s.

(** The state of the parsing loop: the place read last and the prompts
    found so far. *)
Record ParseState : Type := mkParse {
  parse_location : string;
  final_prompts : list (string * string)
}.

(** One iteration of the loop over the lines of the answer. The unpacking
    of [prompt.split(":")] raises unless there are exactly two parts; the
    exception is printed and the line is skipped. *)
Definition parse_prompt_line (st : ParseState) (prompt : string) : ParseState :=
  if String.eqb prompt "" then st
  else if negb (contains "Place Name" prompt || contains "Description" prompt) then st
  else
    match split ":" prompt with
    | [_; value] =>
        if contains "Place Name" prompt then mkParse value (final_prompts st)
        else mkParse (parse_location st)
               (final_prompts st
                ++ [(parse_location st,
                     starting_prompt ++ " at " ++ parse_location st ++ ", " ++ value
                     ++ ", " ++ ending_prompt)])
    | _ => st
    end.

(** The pairs of a place and a prompt that [generate_multiple_prompts]
    reads off the answer [text]. *)
Definition parse_multiple_prompts (text : string) : list (string * string) :=
  final_prompts (fold_left parse_prompt_line (split nl text) (mkParse "" [])).

End Automation.

(* ================================================================== *)
(** ** The retry wrapper: [infrastructure/apis/openai_client.py] *)
(* ================================================================== *)

Module OpenAI.

Import PyStr.
Local Open Scope exec_scope.

(** The exception classes the client meets: those of the [openai.error]
    module (any other failure of the call is [OtherError]), the
    [OpenAIError] of [core.exceptions] it raises itself, and the
    interpreter's [TypeError]. The client also names
    [OpenAIRateLimitError] and [OpenAIAuthenticationError], but no
    exception of these classes exists: both constructors hand
    [error_code] to [OpenAIError.__init__], which passes its own
    [error_code] along with it, and the call fails with a [TypeError]
    ([api_exceptions.py], lines 35-58). *)
Inductive ErrorClass : Type :=
| RateLimitError | AuthenticationError | InvalidRequestError | APIError
| Timeout | OtherError
| TypeError | OpenAIError.

Record exn : Type := mkExn { cls : ErrorClass; message : string }.

(** [str(e)]: [AashviError.__str__] prefixes the error code. *)
Definition str (e : exn) : string :=
  match cls e with
  | OpenAIError => "[OPENAI_API_ERROR] " ++ message e
  | _ => message e
  end.

(** The answer of the API: a response whose content can be read, or one
    for which reading [choices[0].message["content"]] raises ([error] is
    the text of that exception). *)
Inductive Response : Type :=
| Content (text : string)
| Malformed (error : string).

(** The client and what it did: the number of API invocations made, the
    durations passed to [asyncio.sleep] (seconds, as rationals) and the
    adaptive [_rate_limit_delay]. *)
Record World : Type := mkWorld {
  calls : nat;
  sleeps : list Q;
  rate_limit_delay : Q
}.

(** The remote API: the outcome of its [n]-th invocation (from 0), an
    exception or a response; and the text of the interpreter's [TypeError]
    for a keyword argument passed twice. *)
Record Env : Type := mkEnv {
  api_func : nat -> exn + Response;
  duplicate_keyword : string
}.

Definition Run (A : Type) : Type := Exec.M exn World A.

Definition sleep (d : Q) : Run unit :=
  Exec.modify (fun w => mkWorld (calls w) (sleeps w ++ [d]) (rate_limit_delay w)).

Definition set_rate_limit_delay (d : Q) : Run unit :=
  Exec.modify (fun w => mkWorld (calls w) (sleeps w) d).

(** One invocation of the API function passed to [_make_api_call]. *)
Definition invoke (env : Env) : Run Response :=
  fun w =>
    let w' := mkWorld (S (calls w)) (sleeps w) (rate_limit_delay w) in
    match api_func env (calls w) with
    | inl e => (Exec.Raise e, w')
    | inr response => (Exec.Ret response, w')
    end.

Definition max_retries : Z := 3.
Definition base_delay : Q := 1.

(** [base_delay * (2 ** attempt)]. *)
Definition backoff (attempt : Z) : Q := (base_delay * inject_Z (2 ^ attempt))%Q.

(** The [for attempt in range(max_retries)] loop of [_make_api_call], with
    [remaining] iterations left; [None] is the value of a loop that ends
    without returning. *)
Fixpoint make_api_call_loop (env : Env) (remaining : nat) (attempt : Z)
  : Run (option Response) :=
  match remaining with
  | O => Exec.ret None
  | S r =>
      Exec.try_except
        (response <- invoke env ;; Exec.ret (Some response))
        (fun e =>
           match cls e with
           | RateLimitError =>
               Some (if attempt =? max_retries - 1 then Exec.raise e
                     else sleep (backoff attempt) ;;;
                          make_api_call_loop env r (attempt + 1))
           | APIError | Timeout =>
               Some (if attempt =? max_retries - 1
                     then Exec.raise
                            (mkExn OpenAIError
                               ("API error after " ++ "3" ++ " attempts: " ++ str e))
                     else sleep (backoff attempt) ;;;
                          make_api_call_loop env r (attempt + 1))
           | _ => None
           end)
  end.

(** [_make_api_call]. *)
Definition make_api_call (env : Env) : Run (option Response) :=
  make_api_call_loop env (Z.to_nat max_retries) 0.

(** [max(0.5, d * 0.9)] and [min(60.0, d * 2)]. *)
Definition relaxed (d : Q) : Q :=
  (if Qle_bool (d * (9 # 10)) (1 # 2) then 1 # 2 else d * (9 # 10))%Q.

Definition backed_off (d : Q) : Q :=
  (if Qle_bool 60 (d * 2) then 60 else d * 2)%Q.

(** [OpenAIRateLimitError(str(e))] and [OpenAIAuthenticationError(str(e))]:
    the construction fails, and what the [raise] statement raises is the
    [TypeError] of the failed call. *)
Definition construction_fails {A} (env : Env) : Run A :=
  Exec.raise (mkExn TypeError (duplicate_keyword env)).

(** [generate_completion(prompt, ...)] (lines 48-102): the pacing sleep,
    the call, the relaxed delay, the reading of the response, and the
    translation of the failures. An exception raised inside an [except]
    clause is not caught by the clauses that follow it. *)
Definition generate_completion (env : Env) : Run string :=
  Exec.try_except
    (d <- Exec.gets rate_limit_delay ;;
     sleep d ;;;
     response <- make_api_call env ;;
     d' <- Exec.gets rate_limit_delay ;;
     set_rate_limit_delay (relaxed d') ;;;
     match response with
     | Some (Content content) => Exec.ret (strip content)
     | Some (Malformed error) => Exec.raise (mkExn OtherError error)
     | None => Exec.raise (mkExn OtherError "'NoneType' object has no attribute 'choices'")
     end)
    (fun e =>
       Some (match cls e with
             | RateLimitError =>
                 d <- Exec.gets rate_limit_delay ;;
                 set_rate_limit_delay (backed_off d) ;;;
                 construction_fails env
             | AuthenticationError =>
                 construction_fails env
             | InvalidRequestError =>
                 Exec.raise (mkExn OpenAIError ("Invalid request: " ++ str e))
             | _ =>
                 Exec.raise (mkExn OpenAIError ("API call failed: " ++ str e))
             end)).

(** [validate_connection()] (lines 140-159): a test completion. *)
Definition validate_connection (env : Env) : Run bool :=
  Exec.try_except
    (_ <- generate_completion env ;; Exec.ret true)
    (fun _ => Some (Exec.ret false)).

End OpenAI.

(* ================================================================== *)
(** ** The application: repositories and the generation workflow *)
(* ================================================================== *)

Module App.

Import PyStr Gsheet.
Local Open Scope exec_scope.

(** *** Data model ([config/constants.py], [core/models/content.py]) *)

Inductive ContentType : Type := POST | STORY.
Inductive ApprovalStatus : Type := PENDING | APPROVED | REJECTED.
Inductive PostingStatus : Type := NOT_POSTED | POSTED | FAILED.

Definition ContentType_value (t : ContentType) : string :=
  match t with POST => "posts" | STORY => "story" end.

Definition ContentType_of (s : string) : option ContentType :=
  if String.eqb s "posts" then Some POST
  else if String.eqb s "story" then Some STORY else None.

Definition ApprovalStatus_value (a : ApprovalStatus) : string :=
  match a with PENDING => "" | APPROVED => "y" | REJECTED => "n" end.

Definition ApprovalStatus_of (s : string) : option ApprovalStatus :=
  if String.eqb s "" then Some PENDING
  else if String.eqb s "y" then Some APPROVED
  else if String.eqb s "n" then Some REJECTED else None.

Definition ContentType_eqb (a b : ContentType) : bool :=
  match a, b with POST, POST | STORY, STORY => true | _, _ => false end.

Definition ApprovalStatus_eqb (a b : ApprovalStatus) : bool :=
  match a, b with
  | PENDING, PENDING | APPROVED, APPROVED | REJECTED, REJECTED => true
  | _, _ => false
  end.

Definition PostingStatus_eqb (a b : PostingStatus) : bool :=
  match a, b with
  | NOT_POSTED, NOT_POSTED | POSTED, POSTED | FAILED, FAILED => true
  | _, _ => false
  end.

Record LocationData : Type := mkLocation {
  name : string;
  country : option string
}.

(** [sub in s]. *)
Definition contains (sub s : string) : bool := 0 <=? find sub s.

Definition full_name (l : LocationData) : string :=
  match country l with
  | Some c => if negb (is_empty c) && negb (contains c (name l))
              then name l ++ ", " ++ c else name l
  | None => name l
  end.

Record CaptionData : Type := mkCaption {
  text : string;
  hashtags : list string;
  mentions : list string
}.

Definition formatted_caption (c : CaptionData) : string :=
  join (nl ++ nl)
    ([text c]
     ++ (match hashtags c with [] => [] | _ => [join " " (hashtags c)] end)
     ++ (match mentions c with [] => [] | _ => [join " " (mentions c)] end)).

(** A content item. A timestamp is kept as the text the sheet shows. *)
Record ContentItem : Type := mkItem {
  index : Z;
  content_type : ContentType;
  group_id : string;
  prompt : option string;
  caption : option CaptionData;
  image : option string;
  location : LocationData;
  approval_status : ApprovalStatus;
  posting_status : PostingStatus;
  generated_at : option string;
  posted_at : option string;
  seed : option Z
}.

Definition set_index (i : Z) (it : ContentItem) : ContentItem :=
  mkItem i (content_type it) (group_id it) (prompt it) (caption it) (image it)
         (location it) (approval_status it) (posting_status it) (generated_at it)
         (posted_at it) (seed it).

Definition set_approval (a : ApprovalStatus) (it : ContentItem) : ContentItem :=
  mkItem (index it) (content_type it) (group_id it) (prompt it) (caption it)
         (image it) (location it) a (posting_status it) (generated_at it)
         (posted_at it) (seed it).

Definition set_image (url t : string) (it : ContentItem) : ContentItem :=
  mkItem (index it) (content_type it) (group_id it) (prompt it) (caption it)
         (Some url) (location it) (approval_status it) (posting_status it) (Some t)
         (posted_at it) (seed it).

Definition set_caption (c : CaptionData) (it : ContentItem) : ContentItem :=
  mkItem (index it) (content_type it) (group_id it) (prompt it) (Some c)
         (image it) (location it) (approval_status it) (posting_status it)
         (generated_at it) (posted_at it) (seed it).

Definition image_formula (url : string) : string :=
  "=IMAGE(" ++ dq ++ url ++ dq ++ ", 4, 120, 120)".

Definition hyperlink_formula (url : string) : string :=
  "=HYPERLINK(" ++ dq ++ url ++ dq ++ ", " ++ dq ++ "Link" ++ dq ++ ")".

Definition or_empty (o : option string) : string :=
  match o with Some s => s | None => "" end.

(** Exceptions: a class and a message. *)
Inductive ErrorClass : Type :=
| GoogleSheetsError | WorkflowError | ContentGenerationError
| FileNotFoundError | OtherException.

Record exn : Type := mkExn { cls : ErrorClass; message : string }.

(** [str(e)]: [AashviError.__str__] prefixes the error code. *)
Definition str (e : exn) : string :=
  match cls e with
  | GoogleSheetsError => "[GOOGLE_SHEETS_ERROR] " ++ message e
  | WorkflowError => "[WorkflowError] " ++ message e
  | ContentGenerationError => "[CONTENT_GENERATION_ERROR] " ++ message e
  | FileNotFoundError => "[FILE_NOT_FOUND] " ++ message e
  | OtherException => message e
  end.

(** [item.content_type.value]. The model configuration
    [use_enum_values] makes a validated item hold the plain values of its
    enum-typed fields, no code assigns [content_type] after validation,
    and a [str] has no attribute [value]: the read raises
    [AttributeError]. *)
Definition attribute_error : exn :=
  mkExn OtherException "'str' object has no attribute 'value'".

Definition content_type_value (it : ContentItem) : exn + string :=
  inl attribute_error.

(** [ContentItem.to_sheet_row]: the cells are evaluated in order, and the
    second one reads [content_type.value]. *)
Definition to_sheet_row (it : ContentItem) : exn + Row :=
  match content_type_value it with
  | inl e => inl e
  | inr type_cell =>
      inr (mkRow (Some (index it))
                 type_cell
                 (or_empty (prompt it))
                 (full_name (location it))
                 (group_id it)
                 (seed it)
                 (match image it with Some u => image_formula u | None => "" end)
                 (or_empty (generated_at it))
                 (match caption it with Some c => formatted_caption c | None => "" end)
                 (ApprovalStatus_value (approval_status it))
                 (or_empty (posted_at it))
                 (match image it with Some u => hyperlink_formula u | None => "" end))
  end.

(** An invocation of an AI capability through a service. *)
Inductive AiCall : Type :=
| GenerateContentBatch (t : ContentType) (count : Z)
| GenerateImage (item_index : Z)
| GenerateCaption (item_index : Z).

Inductive Notification : Type :=
| ProcessingUpdate (operation status : string)
| ErrorNotification (msg : string).

(** What a run can observe and change. The local files can always be read
    and written; [running_lock_file] is [None] when the file is absent. *)
Record World : Type := mkWorld {
  sheet : Sheet;
  sheet_calls : nat;                        (* calls made to the sheets client *)
  cache : option (list ContentItem);        (* _cache['all_content'] *)
  cache_timestamp : option Z;               (* seconds *)
  running_lock_file : option string;
  location_file : option string;
  notifications : list Notification;
  ai_calls : list AiCall
}.

(** What a run cannot decide: the sheets client (absent from the
    sources; [sheets_failure n] is the message with which its [n]-th call
    raises), the services, the library parsers, the clock, the settings,
    and the text with which the validation of a request refuses a
    count. *)
Record Env : Type := mkEnv {
  sheets_failure : nat -> option string;
  generate_content_batch : ContentType -> Z -> LocationData -> exn + list ContentItem;
  generate_image_for_content : ContentItem -> exn + string;
  generate_caption : ContentItem -> exn + CaptionData;
  is_uuid : string -> bool;
  strptime_ok : string -> string -> bool;
  utcnow : Z;
  utcnow_text : string;
  max_non_posted_instagram_posts : Z;
  max_non_posted_stories : Z;
  request_error : Z -> string
}.

Definition Run (A : Type) : Type := Exec.M exn World A.

Definition with_sheet (f : Sheet -> Sheet) (w : World) : World :=
  mkWorld (f (sheet w)) (sheet_calls w) (cache w) (cache_timestamp w)
          (running_lock_file w) (location_file w) (notifications w) (ai_calls w).

Definition with_cache (c : option (list ContentItem)) (t : option Z) (w : World)
  : World :=
  mkWorld (sheet w) (sheet_calls w) c t
          (running_lock_file w) (location_file w) (notifications w) (ai_calls w).

Definition with_lock (v : option string) (w : World) : World :=
  mkWorld (sheet w) (sheet_calls w) (cache w) (cache_timestamp w)
          v (location_file w) (notifications w) (ai_calls w).

Definition with_location (v : option string) (w : World) : World :=
  mkWorld (sheet w) (sheet_calls w) (cache w) (cache_timestamp w)
          (running_lock_file w) v (notifications w) (ai_calls w).

Definition notify (n : Notification) : Run unit :=
  Exec.modify (fun w =>
    mkWorld (sheet w) (sheet_calls w) (cache w) (cache_timestamp w)
            (running_lock_file w) (location_file w) (notifications w ++ [n])
            (ai_calls w)).

Definition log_ai_call (c : AiCall) : Run unit :=
  Exec.modify (fun w =>
    mkWorld (sheet w) (sheet_calls w) (cache w) (cache_timestamp w)
            (running_lock_file w) (location_file w) (notifications w)
            (ai_calls w ++ [c])).

Definition of_result {A} (r : exn + A) : Run A :=
  match r with
  | inl e => Exec.raise e
  | inr a => Exec.ret a
  end.

(** [except Exception as e: raise C(f(e))]. *)
Definition reraise_as {A} (c : ErrorClass) (f : string -> string)
  : exn -> option (Run A) :=
  fun e => Some (Exec.raise (mkExn c (f (str e)))).

(** *** The sheets client *)

(** Every call reaches the service, which may fail. *)
Definition sheets_call (env : Env) : Run unit :=
  fun w =>
    let w' := mkWorld (sheet w) (S (sheet_calls w)) (cache w) (cache_timestamp w)
                      (running_lock_file w) (location_file w) (notifications w)
                      (ai_calls w) in
    match sheets_failure env (sheet_calls w) with
    | Some msg => (Exec.Raise (mkExn OtherException msg), w')
    | None => (Exec.Ret tt, w')
    end.

Definition get_all_records (env : Env) : Run (list Row) :=
  sheets_call env ;;; Exec.gets (fun w => records (sheet w)).

Definition append_rows (env : Env) (rows : list Row) : Run unit :=
  sheets_call env ;;;
  Exec.modify (with_sheet (fun s => mkSheet (header s) (records s ++ rows))).

Definition update_cell (env : Env) (row : Z) (c : Column) (value : string) : Run unit :=
  sheets_call env ;;;
  if row <? 1 then Exec.raise (mkExn OtherException "APIError")
  else Exec.modify (with_sheet (write_cell row c value)).

(** *** [ContentItem.from_sheet_row] *)

(** The URL inside an [=IMAGE(...)] formula. *)
Definition parse_image_url (image_cell : string) : option string :=
  if negb (is_empty image_cell) && contains "IMAGE(" image_cell then
    let start := find dq image_cell + 1 in
    let end_ := find_at dq image_cell start in
    if (0 <? start) && (start <? end_) then Some (slice image_cell start end_)
    else None
  else None.

Definition parse_location (location_str : string) : LocationData :=
  match split_once ", " location_str with
  | [n] => mkLocation n None
  | n :: c :: _ => mkLocation n (Some c)
  | [] => mkLocation location_str None
  end.

Definition parse_time (env : Env) (fmt cell : string) : option string :=
  if negb (is_empty cell) && strptime_ok env fmt cell then Some cell else None.

Definition starts_with_http (u : string) : bool :=
  String.prefix "http://" u || String.prefix "https://" u.

(** The item of a record, or [None] when a constructor or validator
    raises. [i] is the position the caller passes for [index]. *)
Definition from_sheet_row (env : Env) (row : Row) (i : Z) : option ContentItem :=
  match ContentType_of (r_type row), ApprovalStatus_of (r_approved row) with
  | Some ty, Some ap =>
      let image_url := parse_image_url (r_image row) in
      let prompt_ok := is_empty (r_prompt row)
                       || (10 <=? len (strip (r_prompt row))) in
      let caption_ok := is_empty (r_caption row)
                        || (1 <=? len (strip (r_caption row))) in
      let image_ok := match image_url with
                      | Some u => is_empty u || starts_with_http u
                      | None => true
                      end in
      if is_uuid env (r_group_id row) && prompt_ok && caption_ok && image_ok then
        Some (mkItem i ty (r_group_id row)
                (if is_empty (r_prompt row) then None else Some (strip (r_prompt row)))
                (if is_empty (r_caption row) then None
                 else Some (mkCaption (strip (r_caption row)) [] []))
                (match image_url with
                 | Some u => if is_empty u then None else Some u
                 | None => None
                 end)
                (parse_location (r_location row))
                ap
                (if is_empty (r_posted_on_instagram row) then NOT_POSTED else POSTED)
                (parse_time env "%d/%m/%Y %H:%M:%S" (r_generated_on row))
                (parse_time env "%Y-%m-%d %H:%M" (r_posted_on_instagram row))
                (match r_seed row with
                 | Some z => if 0 <? z then Some z else None
                 | None => None
                 end))
      else None
  | _, _ => None
  end.

(** The loop of [get_all_content]: a record whose index cell is empty or 0
    is skipped, and so is one that does not parse. *)
Fixpoint parse_rows (env : Env) (sheet_data : list Row) (i : Z) : list ContentItem :=
  match sheet_data with
  | [] => []
  | row :: rest =>
      let skip := match r_index row with
                  | None => true
                  | Some z => z =? 0
                  end in
      if skip then parse_rows env rest (i + 1)
      else match from_sheet_row env row i with
           | Some it => it :: parse_rows env rest (i + 1)
           | None => parse_rows env rest (i + 1)
           end
  end.

(** *** [ContentRepository] *)

Definition is_cache_valid (env : Env) (w : World) : bool :=
  match cache_timestamp w with
  | None => false
  | Some t => utcnow env - t <? 300
  end.

Definition invalidate_cache : Run unit := Exec.modify (with_cache None None).

(** [get_all_content(use_cache)] (lines 31-74). *)
Definition get_all_content (env : Env) (use_cache : bool) : Run (list ContentItem) :=
  Exec.try_except
    (valid <- Exec.gets (is_cache_valid env) ;;
     if use_cache && valid then
       Exec.gets (fun w => match cache w with Some l => l | None => [] end)
     else
       sheet_data <- get_all_records env ;;
       let content_items := parse_rows env sheet_data 0 in
       Exec.modify (with_cache (Some content_items) (Some (utcnow env))) ;;;
       Exec.ret content_items)
    (reraise_as GoogleSheetsError (fun e => "Failed to retrieve content: " ++ e)).

(** [max(item.index for item in all_content)] on a non-empty list. *)
Definition max_index (all_content : list ContentItem) : Z :=
  match all_content with
  | [] => 0
  | it :: rest => fold_left Z.max (map index rest) (index it)
  end.

(** [_get_last_index()] (lines 457-472). *)
Definition get_last_index (env : Env) : Run Z :=
  Exec.try_except
    (all_content <- get_all_content env false ;;
     match all_content with
     | [] => Exec.ret 0
     | _ => Exec.ret (max_index all_content)
     end)
    (fun _ => Some (Exec.ret 0)).

(** The loop of lines 184-187 over [enumerate(content_items)], from
    position [i]: each item is given [item.index = last_index + i + 1] and
    then its row is built; the first row that cannot be built ends the
    loop. The result is the numbered items with their rows. *)
Fixpoint rows_to_insert (last_index i : Z) (content_items : list ContentItem)
  : exn + (list ContentItem * list Row) :=
  match content_items with
  | [] => inr ([], [])
  | it :: rest =>
      let item := set_index (last_index + i + 1) it in
      match to_sheet_row item with
      | inl e => inl e
      | inr row =>
          match rows_to_insert last_index (i + 1) rest with
          | inl e => inl e
          | inr (items, rows) => inr (item :: items, row :: rows)
          end
      end
  end.

(** [create_content_batch(content_items)] (lines 163-204). *)
Definition create_content_batch (env : Env) (content_items : list ContentItem)
  : Run (list ContentItem) :=
  Exec.try_except
    (match content_items with
     | [] => Exec.ret []
     | _ =>
         last_index <- get_last_index env ;;
         numbered <- of_result (rows_to_insert last_index 0 content_items) ;;
         append_rows env (snd numbered) ;;;
         invalidate_cache ;;;
         Exec.ret (fst numbered)
     end)
    (reraise_as GoogleSheetsError (fun e => "Failed to create content: " ++ e)).

(** [update_image_data] (lines 276-327) with [hyperlink_url = image_url];
    the item object is updated by the caller as well. *)
Definition update_image_data (env : Env) (it : ContentItem) (image_url : string)
  : Run unit :=
  Exec.try_except
    (update_cell env (index it + 1) Image (image_formula image_url) ;;;
     (if negb (is_empty image_url)
      then update_cell env (index it + 1) Hyperlink_image (hyperlink_formula image_url)
      else Exec.ret tt) ;;;
     update_cell env (index it + 1) Generated_on (utcnow_text env) ;;;
     invalidate_cache)
    (reraise_as GoogleSheetsError (fun e => "Failed to update image: " ++ e)).

(** [update_caption_data] (lines 329-356). *)
Definition update_caption_data (env : Env) (it : ContentItem) (caption_text : string)
  : Run unit :=
  Exec.try_except
    (update_cell env (index it + 1) Caption caption_text ;;;
     invalidate_cache)
    (reraise_as GoogleSheetsError (fun e => "Failed to update caption: " ++ e)).

(** The dictionary returned by [get_non_posted_content_counts]. *)
Record Counts : Type := mkCounts {
  posts : Z;
  stories : Z;
  approved_posts : Z;
  approved_stories : Z
}.

Definition is_some {A} (o : option A) : bool :=
  match o with Some _ => true | None => false end.

Definition not_posted (it : ContentItem) : bool :=
  PostingStatus_eqb (posting_status it) NOT_POSTED.

Definition approved_with_image (it : ContentItem) : bool :=
  ApprovalStatus_eqb (approval_status it) APPROVED && is_some (image it).

(** The accumulators of the counting loop: the two sets of group ids and
    the two story counters. *)
Record Tally : Type := mkTally {
  post_group_ids : list string;
  approved_post_group_ids : list string;
  n_stories : Z;
  n_approved_stories : Z
}.

(** One iteration of [for item in all_content] (lines 436-446). *)
Definition tally_item (t : Tally) (it : ContentItem) : Tally :=
  if not_posted it then
    match content_type it with
    | POST =>
        mkTally (set_add string_dec (group_id it) (post_group_ids t))
                (if approved_with_image it
                 then set_add string_dec (group_id it) (approved_post_group_ids t)
                 else approved_post_group_ids t)
                (n_stories t) (n_approved_stories t)
    | STORY =>
        mkTally (post_group_ids t) (approved_post_group_ids t)
                (n_stories t + 1)
                (if approved_with_image it
                 then n_approved_stories t + 1 else n_approved_stories t)
    end
  else t.

Definition count_content (all_content : list ContentItem) : Counts :=
  let t := fold_left tally_item all_content (mkTally [] [] 0 0) in
  mkCounts (Z.of_nat (List.length (post_group_ids t)))
           (n_stories t)
           (Z.of_nat (List.length (approved_post_group_ids t)))
           (n_approved_stories t).

(** [get_non_posted_content_counts()] (lines 416-455). *)
Definition get_non_posted_content_counts (env : Env) : Run Counts :=
  Exec.try_except
    (all_content <- get_all_content env true ;;
     Exec.ret (count_content all_content))
    (fun _ => Some (Exec.ret (mkCounts 0 0 0 0))).

(** *** [ConfigRepository] *)

(** [is_process_running()] (lines 153-172). *)
Definition is_process_running : Run bool :=
  Exec.gets (fun w =>
    match running_lock_file w with
    | None => false
    | Some content => String.eqb (lower (strip content)) "yep"
    end).

(** [set_process_running(is_running)] (lines 174-198). *)
Definition set_process_running (is_running : bool) : Run unit :=
  Exec.modify (with_lock (Some (if is_running then "yep" else "nope"))).

Definition location_file_path : string := "location.txt".

(** [get_current_location()] (lines 23-62). *)
Definition get_current_location : Run LocationData :=
  Exec.try_except
    (present <- Exec.gets (fun w => is_some (location_file w)) ;;
     (if present then Exec.ret tt
      else Exec.modify
             (with_location (Some (full_name (mkLocation "Paris" (Some "France")))))) ;;;
     content <- Exec.gets (fun w => or_empty (location_file w)) ;;
     let location_name := strip content in
     if is_empty location_name
     then Exec.raise (mkExn OtherException "Location file is empty")
     else if contains "," location_name then
       match split_once "," location_name with
       | n :: c :: _ => Exec.ret (mkLocation (strip n) (Some (strip c)))
       | _ => Exec.ret (mkLocation location_name None)
       end
     else Exec.ret (mkLocation location_name None))
    (fun _ => Some (Exec.raise
       (mkExn FileNotFoundError ("Required file not found: " ++ location_file_path)))).

(** *** [ContentGenerationWorkflow] *)

(** The services, each refusal being the exception it raises. *)
Definition content_service_batch (env : Env) (t : ContentType) (count : Z)
    (loc : LocationData) : Run (list ContentItem) :=
  log_ai_call (GenerateContentBatch t count) ;;;
  of_result (generate_content_batch env t count loc).

Definition image_service_generate (env : Env) (it : ContentItem) : Run string :=
  log_ai_call (GenerateImage (index it)) ;;;
  of_result (generate_image_for_content env it).

Definition content_service_caption (env : Env) (it : ContentItem) : Run CaptionData :=
  log_ai_call (GenerateCaption (index it)) ;;;
  of_result (generate_caption env it).

(** [_generate_images_for_content] (lines 177-210): a failure for one item
    is logged and the loop goes on. *)
Definition generate_images_for_content (env : Env) (content_items : list ContentItem)
  : Run unit :=
  Exec.try_except
    (Exec.for_each content_items (fun item =>
       if is_some (prompt item) then
         Exec.try_except
           (image_url <- image_service_generate env item ;;
            update_image_data env (set_image image_url (utcnow_text env) item) image_url)
           (fun _ => Some (Exec.ret tt))
       else Exec.ret tt))
    (reraise_as WorkflowError (fun e => "Image generation failed: " ++ e)).

(** The first item of each group, in order of first appearance (the
    [group_items] dictionary of lines 216-223). *)
Fixpoint first_of_groups (seen : list string) (content_items : list ContentItem)
  : list ContentItem :=
  match content_items with
  | [] => []
  | it :: rest =>
      if existsb (String.eqb (group_id it)) seen then first_of_groups seen rest
      else it :: first_of_groups (group_id it :: seen) rest
  end.

(** [_generate_captions_for_content] (lines 212-250): nothing is raised.
    The test of line 225 reads [first_item.content_type.value] outside
    the inner [try]. *)
Definition generate_captions_for_content (env : Env) (content_items : list ContentItem)
  : Run unit :=
  Exec.try_except
    (Exec.for_each (first_of_groups [] content_items) (fun first_item =>
       type_value <- of_result (content_type_value first_item) ;;
       if String.eqb type_value "posts" then
         Exec.try_except
           (caption_data <- content_service_caption env first_item ;;
            update_caption_data env (set_caption caption_data first_item)
              (formatted_caption caption_data))
           (fun _ => Some (Exec.ret tt))
       else Exec.ret tt))
    (fun _ => Some (Exec.ret tt)).

(** [ContentRequest(content_type=..., location=location, count=count)]:
    the model validates [count] ([ge=1, le=10]) and the construction
    raises for any other count. *)
Definition content_request (env : Env) (count : Z) : Run unit :=
  if (1 <=? count) && (count <=? 10) then Exec.ret tt
  else Exec.raise (mkExn OtherException (request_error env count)).

(** [_generate_posts(location, count)] (lines 116-144). *)
Definition generate_posts (env : Env) (loc : LocationData) (count : Z) : Run unit :=
  Exec.try_except
    (content_request env count ;;;
     content_items <- content_service_batch env POST count loc ;;
     saved_items <- create_content_batch env content_items ;;
     generate_images_for_content env saved_items ;;;
     generate_captions_for_content env saved_items)
    (reraise_as WorkflowError (fun e => "Post generation failed: " ++ e)).

(** [_generate_stories(location, count)] (lines 146-175). *)
Definition generate_stories (env : Env) (loc : LocationData) (count : Z) : Run unit :=
  Exec.try_except
    (content_request env count ;;;
     content_items <- content_service_batch env STORY count loc ;;
     saved_items <- create_content_batch env (map (set_approval APPROVED) content_items) ;;
     generate_images_for_content env saved_items)
    (reraise_as WorkflowError (fun e => "Story generation failed: " ++ e)).

(** [run_full_content_generation(location, post_count, story_count)]
    (lines 47-114). *)
Definition run_full_content_generation (env : Env) (loc : option LocationData)
    (post_count story_count : Z) : Run bool :=
  Exec.try_except
    (running <- is_process_running ;;
     if running then Exec.ret true
     else
       set_process_running true ;;;
       Exec.try_finally
         (notify (ProcessingUpdate "Content Generation" "started") ;;;
          location <- match loc with
                      | Some l => Exec.ret l
                      | None => get_current_location
                      end ;;
          content_counts <- get_non_posted_content_counts env ;;
          (if posts content_counts <? max_non_posted_instagram_posts env
           then generate_posts env location post_count else Exec.ret tt) ;;;
          (if stories content_counts <? max_non_posted_stories env
           then generate_stories env location story_count else Exec.ret tt) ;;;
          notify (ProcessingUpdate "Content Generation" "completed") ;;;
          Exec.ret true)
         (set_process_running false))
    (fun e => Some (notify (ErrorNotification ("Content generation failed: " ++ str e)) ;;;
                    Exec.ret false)).

(** *** More of [ContentRepository] *)

(** The loop of [get_content_by_status] (lines 95-109). *)
Fixpoint filter_by_status (approval : ApprovalStatus) (posting : option PostingStatus)
    (ctype : option ContentType) (all_content : list ContentItem) : list ContentItem :=
  match all_content with
  | [] => []
  | item :: rest =>
      if negb (ApprovalStatus_eqb (approval_status item) approval)
      then filter_by_status approval posting ctype rest
      else if match posting with
              | Some p => negb (PostingStatus_eqb (posting_status item) p)
              | None => false
              end
      then filter_by_status approval posting ctype rest
      else if match ctype with
              | Some t => negb (ContentType_eqb (content_type item) t)
              | None => false
              end
      then filter_by_status approval posting ctype rest
      else item :: filter_by_status approval posting ctype rest
  end.

(** [get_content_by_status(approval_status, posting_status, content_type)]. *)
Definition get_content_by_status (env : Env) (approval : ApprovalStatus)
    (posting : option PostingStatus) (ctype : option ContentType)
  : Run (list ContentItem) :=
  all_content <- get_all_content env true ;;
  Exec.ret (filter_by_status approval posting ctype all_content).

(** [item.image and item.image.url]. *)
Definition has_image_url (item : ContentItem) : bool :=
  match image item with
  | Some u => negb (is_empty u)
  | None => false
  end.

(** [get_approved_posts_for_posting()] (lines 122-141); the location and
    the group id of an item are objects and always count as present. *)
Definition get_approved_posts_for_posting (env : Env) : Run (list ContentItem) :=
  approved_posts <- get_content_by_status env APPROVED (Some NOT_POSTED) (Some POST) ;;
  Exec.ret (filter (fun item => has_image_url item && is_some (caption item))
                   approved_posts).

(** [get_approved_stories_for_posting()] (lines 143-161). *)
Definition get_approved_stories_for_posting (env : Env) : Run (list ContentItem) :=
  approved_stories <- get_content_by_status env APPROVED (Some NOT_POSTED) (Some STORY) ;;
  Exec.ret (firstn 4 (filter has_image_url approved_stories)).

(** [sheets_client.update_row(row_index, values)]. *)
Definition update_row (env : Env) (row : Z) (values : Row) : Run unit :=
  sheets_call env ;;;
  if row <? 1 then Exec.raise (mkExn OtherException "APIError")
  else Exec.modify (with_sheet (write_row row values)).

(** [update_content_item(content_item)] (lines 206-237). *)
Definition update_content_item (env : Env) (content_item : ContentItem)
  : Run ContentItem :=
  Exec.try_except
    (row_data <- of_result (to_sheet_row content_item) ;;
     update_row env (index content_item + 1) row_data ;;;
     invalidate_cache ;;;
     Exec.ret content_item)
    (reraise_as GoogleSheetsError (fun e => "Failed to update content: " ++ e)).

(** An item object handed to the repository, with the position it has in
    the cached list when it is one of the objects of the cache (the items
    a read returns are the objects the cache holds), or [None]. *)
Definition Handle : Type := (ContentItem * option nat)%type.

(** [item.posting_status = PostingStatus.POSTED] and
    [item.posted_at = posted_at]. *)
Definition set_posted (posted_at : string) (it : ContentItem) : ContentItem :=
  mkItem (index it) (content_type it) (group_id it) (prompt it) (caption it)
         (image it) (location it) (approval_status it) POSTED (generated_at it)
         (Some posted_at) (seed it).

Fixpoint replace_nth {A} (k : nat) (a : A) (l : list A) : list A :=
  match k, l with
  | _, [] => []
  | O, _ :: rest => a :: rest
  | S k', x :: rest => x :: replace_nth k' a rest
  end.

(** The assignment to the fields of an item object is seen through every
    reference to it: when the cache holds the object, the cached item
    changes. *)
Definition assigned (posted_at : string) (h : Handle)
    (cached : option (list ContentItem)) : option (list ContentItem) :=
  match snd h, cached with
  | Some k, Some items => Some (replace_nth k (set_posted posted_at (fst h)) items)
  | _, _ => cached
  end.

Definition assign_posted (posted_at : string) (h : Handle) : Run unit :=
  Exec.modify (fun w =>
    with_cache (assigned posted_at h (cache w)) (cache_timestamp w) w).

(** [mark_content_as_posted(content_items, posted_at)] (lines 239-274),
    [posted_at] being the text of the timestamp. *)
Definition mark_content_as_posted (env : Env) (content_items : list Handle)
    (posted_at : string) : Run unit :=
  Exec.try_except
    (Exec.for_each content_items (fun h =>
       assign_posted posted_at h ;;;
       update_cell env (index (fst h) + 1) Posted_on_instagram posted_at) ;;;
     invalidate_cache)
    (reraise_as GoogleSheetsError (fun e => "Failed to update posting status: " ++ e)).

(** *** The parsers of [ContentGenerationService] *)

(** [s.startswith(p)]. *)
Definition startswith (p s : string) : bool := String.prefix p s.

(** The loop of [_parse_story_prompts] (lines 205-211). *)
Fixpoint story_lines (lines : list string) : list string :=
  match lines with
  | [] => []
  | line :: rest =>
      let line := strip line in
      if negb (is_empty line)
         && negb (startswith "1." line || startswith "2." line
                  || startswith "3." line || startswith "4." line)
      then (if contains "." (slice_to line 5)
            then strip (slice_from line (find "." line + 1)) else line)
           :: story_lines rest
      else story_lines rest
  end.

(** [_parse_story_prompts(response_text)]. *)
Definition parse_story_prompts (response_text : string) : list string :=
  firstn 2 (story_lines (split nl response_text)).

Definition starting_prompt : string := "a beautiful and cute aashvi-500, single girl,".

Definition ending_prompt : string :=
  "long haircut, light skin, (high detailed skin:1.3), 8k UHD DSLR, bokeh effect, soft lighting, high quality".

(** The loop of [_parse_post_prompts] (lines 184-197); [None] when the
    unpacking of [line.split(":", 1)] raises, the line having no colon. *)
Fixpoint post_lines (current_location : string) (lines : list string)
  : option (list string) :=
  match lines with
  | [] => Some []
  | line :: rest =>
      let line := strip line in
      if is_empty line then post_lines current_location rest
      else if contains "Place Name" line then
        match split_once ":" line with
        | [_; value] => post_lines (strip value) rest
        | _ => None
        end
      else if contains "Description" line then
        match split_once ":" line with
        | [_; value] =>
            match post_lines current_location rest with
            | Some l =>
                Some ((starting_prompt ++ " at " ++ current_location ++ ", "
                       ++ strip value ++ ", " ++ ending_prompt) :: l)
            | None => None
            end
        | _ => None
        end
      else post_lines current_location rest
  end.

(** [_parse_post_prompts(response_text, location)]. *)
Definition parse_post_prompts (response_text : string) : option (list string) :=
  post_lines "" (split nl response_text).

(** [s.split()]: the maximal runs of characters that are not white space;
    [cur] is the run being read. *)
Fixpoint words_go (s cur : string) : list string :=
  match s with
  | EmptyString => if is_empty cur then [] else [cur]
  | String c s' =>
      if is_space c
      then (if is_empty cur then words_go s' "" else cur :: words_go s' "")
      else words_go s' (cur ++ String c "")
  end.

Definition words (s : string) : list string := words_go s "".

(** The validators of [CaptionData] on hashtags and mentions. *)
Definition with_prefix (p tag : string) : string :=
  lower (if String.prefix p tag then tag else p ++ tag).

Definition default_mentions : list string :=
  ["@thevarunmayya"; "@acknowledge.ai"; "@eluna.ai"].

(** The caption [_generate_post_caption] builds from the answer of the
    model (lines 257-271); [None] when the validator of the caption text
    raises, the text before the first hashtag being blank. *)
Definition post_caption_of_response (response : string) : option CaptionData :=
  let caption_text := strip (replace dq "" response) in
  let tags :=
    if contains "#" caption_text
    then map strip (filter (startswith "#")
                      (words (slice_from caption_text (find "#" caption_text))))
    else [] in
  let caption_text :=
    if contains "#" caption_text
    then strip (slice_to caption_text (find "#" caption_text))
    else caption_text in
  if len (strip caption_text) <? 1 then None
  else Some (mkCaption (strip caption_text)
                       (map (with_prefix "#") tags)
                       (map (with_prefix "@") default_mentions)).

End App.

(* ================================================================== *)
(** ** Notions used to state the properties *)
(* ================================================================== *)

Module PostingSpec.

Import PyStr Gsheet Posting.

(** The number of hashtags of a text. *)
Definition hashtag_count (s : string) : Z := count "#" s.

(** The records the scan reads: those before the first empty index. *)
Fixpoint upto_blank (content : list Row) : list Row :=
  match content with
  | [] => []
  | row :: rest =>
      match r_index row with
      | None => []
      | Some _ => row :: upto_blank rest
      end
  end.

(** An approved, unposted post record with all its values. *)
Definition eligible (row : Row) : bool :=
  String.eqb (r_approved row) "y"
  && String.eqb (r_posted_on_instagram row) ""
  && String.eqb (r_type row) "posts"
  && negb (missing_values row).

(** The group the scan locks onto: that of the first eligible record. *)
Definition active_group (content : list Row) : string :=
  match filter eligible (upto_blank content) with
  | [] => ""
  | row :: _ => r_group_id row
  end.

(** An eligible record of group [g]. *)
Definition takes (g : string) (row : Row) : bool :=
  eligible row && String.eqb (r_group_id row) g.

Definition index_of (row : Row) : Z :=
  match r_index row with Some i => i | None => 0 end.

(** The specification's reading of the scan: it stops at the first
    eligible record of another group once a group is locked. *)
Definition stops_at_other_group : Prop :=
  forall main_location pre row rest,
    group_id (scan main_location pre scan_init) <> "" ->
    eligible row = true ->
    r_index row <> None ->
    r_group_id row <> group_id (scan main_location pre scan_init) ->
    scan main_location (pre ++ row :: rest) scan_init
    = scan main_location pre scan_init.

(** The specification's reading of a failed post: whenever the Poster
    raises, the posting block ends without raising, whatever becomes of
    the notification request. *)
Definition fails_quietly : Prop :=
  forall (webhook : string -> option string) (env : Env) (w : World) (e : string),
    let st := scan (get_location w) (records (sheet w)) scan_init in
    image_urls st <> [] ->
    poster env (firstn 6 (image_urls st)) (caption st) (location st) = Some e ->
    fst (main_posting_via webhook env w) = Exec.Ret tt.

(** A text without a comma. *)
Fixpoint no_comma (s : string) : bool :=
  match s with
  | EmptyString => true
  | String c s' => negb (Ascii.eqb c ",") && no_comma s'
  end.

(** A ready post record: approved, unposted, with image, caption and
    location. *)
Definition post_row (i : Z) (group caption_cell : string) : Row :=
  mkRow (Some i) "posts" "a prompt" "Louvre,Paris" group (Some (-1))
        ("=IMAGE(" ++ dq ++ "https://drive/" ++ Automation.str_of_Z i ++ dq ++ ", 4, 120, 120)")
        "01/01/2024 10:00:00" caption_cell "y" "" "".

(** The URL the scan takes from a record. *)
Definition url_of (row : Row) : string := image_url_of (r_image row).

(** Two worlds that differ at most by their sheet. *)
Definition same_but_sheet (w w' : World) : Prop :=
  location_txt w' = location_txt w
  /\ notifications w' = notifications w
  /\ poster_calls w' = poster_calls w.

End PostingSpec.

(** Notions used to state the properties of the client and the
    application. *)
Module OpenAISpec.

Import OpenAI.

(** The world after one more invocation, and after one more sleep. *)
Definition called (w : World) : World :=
  mkWorld (S (calls w)) (sleeps w) (rate_limit_delay w).

Definition slept (d : Q) (w : World) : World :=
  mkWorld (calls w) (sleeps w ++ [d]) (rate_limit_delay w).

End OpenAISpec.

Module AppSpec.

Import App.

(** The world after one more call to the sheets client. *)
Definition counted (w : World) : World :=
  mkWorld (sheet w) (S (sheet_calls w)) (cache w) (cache_timestamp w)
          (running_lock_file w) (location_file w) (notifications w) (ai_calls w).

(** A computation that keeps every logged AI invocation. *)
Definition keeps {A} (m : Run A) : Prop :=
  forall w x, In x (ai_calls w) -> In x (ai_calls (snd (m w))).

(** The location argument of the workflow resolves unless it is absent
    and the location file exists and is blank. *)
Definition location_resolves (loc : option LocationData) (w : World) : bool :=
  match loc, location_file w with
  | None, Some content => negb (PyStr.is_empty (PyStr.strip content))
  | _, _ => true
  end.

(** Lines 80-81 of the workflow: the location used by the run. *)
Definition resolve_location (loc : option LocationData) : Run LocationData :=
  match loc with
  | Some l => Exec.ret l
  | None => get_current_location
  end.

(** Two worlds with the same sheet, client call count, cache age and log
    of AI invocations. *)
Definition same_store (w w' : World) : Prop :=
  sheet w' = sheet w /\ sheet_calls w' = sheet_calls w
  /\ cache_timestamp w' = cache_timestamp w /\ ai_calls w' = ai_calls w.

End AppSpec.

(** Concrete inputs used to evaluate the scripts. *)
Module Inputs.

Import PyStr Gsheet.

(** A sheet as [v1_generate_prompts] lays it out on a sheet that holds
    only its header row: four records of one group, indexed from 0. *)
Definition generated_sheet : Sheet :=
  Automation.v1_generate_prompts "Paris" "group-1"
    [("Louvre", "prompt one"); ("Montmartre", "prompt two");
     ("Le Marais", "prompt three"); ("Versailles", "prompt four")]
    (mkSheet header_cells []).

(** The record once its image is generated, its caption written (for the
    caption holder, whose cell was empty) and the post is approved. *)
Definition make_ready (caption_text : string) (r : Row) : Row :=
  set_cell Approved "y"
    (set_cell Image
       ("=IMAGE(" ++ dq ++ "https://drive/" ++ r_prompt r ++ dq ++ ", 4, 120, 120)")
       (if String.eqb (r_caption r) "" then set_cell Caption caption_text r else r)).

Definition ready_sheet : Sheet :=
  mkSheet (header generated_sheet)
          (map (make_ready "Bonjour! #paris") (records generated_sheet)).

Definition clock : string := "2024-01-01 10:00".

Definition posting_world (s : Sheet) : Posting.World :=
  Posting.mkWorld s "Paris" [] [].

(** A Poster that publishes, and one whose browser session fails. *)
Definition poster_ok : Posting.Env := Posting.mkEnv (fun _ _ _ => None) clock.

(** A webhook that answers every request, and one that cannot be
    reached. *)
Definition webhook_up : string -> option string := fun _ => None.

Definition webhook_down : string -> option string :=
  fun _ => Some "HTTPSConnectionPool: Max retries exceeded".

Definition poster_down : Posting.Env :=
  Posting.mkEnv (fun _ _ _ => Some "no such element: Create") clock.

(** A caption with [n] hashtags [#t1 ... #tn] after its free text. *)
Fixpoint tags (pre : string) (k n : nat) : string :=
  match n with
  | O => ""
  | S m => " #" ++ pre ++ Automation.str_of_Z (Z.of_nat k) ++ tags pre (S k) m
  end.

Definition caption_with_tags (n : nat) : string := "Hi!" ++ tags "t" 1 n.

(** A generic block of [n] hashtags [#b1 ... #bn], written as the script
    writes its own (a leading space). *)
Definition boilerplate (n : nat) : string := tags "b" 1 n.

End Inputs.

(** Concrete inputs for the generator, the workflow and the client. *)
Module Runs.

Import PyStr Gsheet Inputs.

(** The generator's world before a run: the lock is free and the four
    generated records wait for their images. *)
Definition automation_world : Automation.World :=
  Automation.mkWorld generated_sheet "nope" "Paris" [] [] [].

(** The sheet service is unreachable when the records are read. *)
Definition sheet_down : Automation.Env :=
  Automation.mkEnv (Some "APIError: quota exceeded") None
    (fun _ => inr (200, "image")) (fun _ => inr "https://drive/x")
    (fun _ => inr "A caption #tag") clock.

(** The image service answers with status 500. *)
Definition image_service_500 : Automation.Env :=
  Automation.mkEnv None None
    (fun _ => inr (500, "")) (fun _ => inr "https://drive/x")
    (fun _ => inr "A caption #tag") clock.

Definition paris : App.LocationData := App.mkLocation "Paris" (Some "France").

Definition new_item (prompt_text : string) : App.ContentItem :=
  App.mkItem 0 App.POST "group-2" (Some prompt_text) None None paris
             App.PENDING App.NOT_POSTED None None None.

(** A sheet that already holds two records, indexed 1 and 2. *)
Definition stored_sheet : Sheet :=
  mkSheet header_cells
    [PostingSpec.post_row 1 "group-1" "Hi #a"; PostingSpec.post_row 2 "group-1" "-"].

Definition app_world (lock : option string) : App.World :=
  App.mkWorld stored_sheet 0 None None lock (Some "Paris, France") [] [].

(** The first call to the sheets client fails, the later ones succeed; the
    services answer. *)
Definition first_read_fails : App.Env :=
  App.mkEnv (fun n => match n with O => Some "503 Service Unavailable" | _ => None end)
    (fun _ _ _ => inr [new_item "a long enough prompt"; new_item "another long prompt"])
    (fun _ => inr "https://drive/img")
    (fun _ => inr (App.mkCaption "Bonjour" ["#paris"] []))
    (fun _ => true) (fun _ _ => true) 1000 clock 5 5
    (fun _ => "1 validation error for ContentRequest").

(** The API is rate limited on every invocation; rate limited once and
    then answers; refuses the credentials. *)
(** The text of the interpreter for a keyword argument passed twice. *)
Definition keyword_twice : string :=
  "__init__() got multiple values for keyword argument 'error_code'".

Definition always_rate_limited : OpenAI.Env :=
  OpenAI.mkEnv (fun _ => inl (OpenAI.mkExn OpenAI.RateLimitError "Rate limit reached"))
               keyword_twice.


Definition bad_credentials : OpenAI.Env :=
  OpenAI.mkEnv (fun _ => inl (OpenAI.mkExn OpenAI.AuthenticationError "Incorrect API key"))
               keyword_twice.

Definition fresh_client : OpenAI.World := OpenAI.mkWorld 0 [] 1.

End Runs.

(** Notions used to state further properties of the repository. *)
Module StoreSpec.

Import PyStr Gsheet App.

(** The same surroundings at another time of the clock. *)
Definition at_time (t : Z) (env : Env) : Env :=
  mkEnv (sheets_failure env) (generate_content_batch env)
        (generate_image_for_content env) (generate_caption env) (is_uuid env)
        (strptime_ok env) t (utcnow_text env)
        (max_non_posted_instagram_posts env) (max_non_posted_stories env)
        (request_error env).

(** A computation that raises only exceptions of class [c]. *)
Definition raises_only {A} (c : ErrorClass) (m : Run A) : Prop :=
  forall w e, fst (m w) = Exec.Raise e -> cls e = c.

(** A computation that leaves a component of the world as it was. *)
Definition preserves {A B} (proj : World -> B) (m : Run A) : Prop :=
  forall w, proj (snd (m w)) = proj w.

(** An approved, unposted item of type [t] with an image. *)
Definition ready (t : ContentType) (item : ContentItem) : bool :=
  ApprovalStatus_eqb (approval_status item) APPROVED
  && PostingStatus_eqb (posting_status item) NOT_POSTED
  && ContentType_eqb (content_type item) t
  && has_image_url item.

Definition has_prompt (item : ContentItem) : bool := is_some (prompt item).

(** What holds of the world whenever a computation returns. *)
Definition on_return {A} (m : Run A) (P : World -> Prop) : Prop :=
  forall w a w', m w = (Exec.Ret a, w') -> P w'.

Definition cache_cleared (w : World) : Prop :=
  cache w = None /\ cache_timestamp w = None.

End StoreSpec.

(** Notions on texts. *)
Module TextSpec.

(** A text in which the character [c] does not occur. *)
Fixpoint lacks (c : ascii) (s : string) : bool :=
  match s with
  | EmptyString => true
  | String x s' => negb (Ascii.eqb x c) && lacks c s'
  end.

(** The double quote and the opening parenthesis. *)
Definition quote_char : ascii := ascii_of_nat 34.
Definition paren_char : ascii := "(".

End TextSpec.

(** Notions used to state further properties of the posting scan. *)
Module ScanSpec.

Import PyStr Gsheet Posting PostingSpec.

(** The record is taken into the post. *)
Definition take_row (main_location : string) (st : ScanState) (row : Row) : ScanState :=
  accumulate main_location (index_of row) row st.

(** The records a scan takes: the eligible records of the active group
    before the first empty index. *)
Definition taken_rows (content : list Row) : list Row :=
  filter (takes (active_group content)) (upto_blank content).

(** A record that leaves the caption to another record of its group. *)
Definition deferred (row : Row) : bool := String.eqb (r_caption row) "-".

(** The caption after [rows]: that of the last record that does not
    defer it, or [c]. *)
Fixpoint last_caption (rows : list Row) (c : string) : string :=
  match rows with
  | [] => c
  | row :: rest =>
      last_caption rest (if deferred row then c else build_caption (r_caption row))
  end.

(** The location tag after [rows]: that of the last record, or [l]. *)
Fixpoint last_location (main_location : string) (rows : list Row) (l : string)
  : string :=
  match rows with
  | [] => l
  | row :: rest =>
      last_location main_location rest (normalize_location main_location (r_location row))
  end.

(** The message of a run that found nothing to post. *)
Definition nothing_to_post : string :=
  "No posts to post on instagram, please check the sheet".

End ScanSpec.

(** Notions used to state further properties of the generator. *)
Module GeneratorSpec.

Import PyStr Gsheet Automation.

(** Records numbered [i], [i + 1], ... in their index cells. *)
Fixpoint numbered_from (i : Z) (rows : list Row) : bool :=
  match rows with
  | [] => true
  | row :: rest =>
      match r_index row with
      | Some k => (k =? i) && numbered_from (i + 1) rest
      | None => false
      end
  end.

(** A record the generation loop has nothing to do for: it has no prompt,
    or it has its image and, if it is a post, its caption cell is not
    empty. *)
Definition complete (row : Row) : bool :=
  String.eqb (r_prompt row) ""
  || (negb (String.eqb (r_image row) "")
      && negb (String.eqb (r_caption row) "" && String.eqb (r_type row) "posts")).

(** The reminders of [approve_process] for the two counts. *)
Definition reminders (story posts : Z) : list string :=
  (if 2 <=? story
   then ["Hey! You have " ++ str_of_Z story ++ " non approved stories."] else [])
  ++ (if 2 <=? posts
      then ["Hey! You have " ++ str_of_Z posts ++ " non approved posts."] else []).

End GeneratorSpec.

(** Notions used to state properties of the parsers of the content
    service. *)
Module ParserSpec.

Import PyStr App.

(** A line that is blank or starts with one of the numberings [1.] to
    [4.], once stripped. *)
Definition blank_or_numbered (line : string) : bool :=
  let line := strip line in
  is_empty line
  || startswith "1." line || startswith "2." line
  || startswith "3." line || startswith "4." line.

(** A line that names a place or gives a description. *)
Definition marked (line : string) : bool :=
  contains "Place Name" line || contains "Description" line.

(** A line that gives a description: it is read as one unless it names a
    place. *)
Definition is_description (line : string) : bool :=
  negb (contains "Place Name" line) && contains "Description" line.

(** A marked line, once stripped, without a colon: its unpacking raises. *)
Definition unparsable (line : string) : bool :=
  marked (strip line) && negb (contains ":" (strip line)).

(** A prompt of the generator for a place: the fixed opening, the place,
    some description and the fixed ending. *)
Definition prompt_for (place prompt : string) : Prop :=
  exists description,
    prompt = Automation.starting_prompt ++ " at " ++ place ++ ", " ++ description
             ++ ", " ++ Automation.ending_prompt.

End ParserSpec.

(** Concrete inputs for the repository. *)
Module Stores.

Import PyStr Gsheet App.

(** A generated story record, approved when [approved] is ["y"]. *)
Definition story_row (i : Z) (approved : string) : Row :=
  mkRow (Some i) "story" "a long enough prompt" "Paris, France" "group-s" None
        ("=IMAGE(" ++ dq ++ "https://drive/s" ++ Automation.str_of_Z i ++ dq
         ++ ", 4, 120, 120)")
        "01/01/2024 10:00:00" "" approved "" "".

(** Six stories, the second one waiting for approval. *)
Definition story_sheet : Sheet :=
  mkSheet header_cells
    [story_row 1 "y"; story_row 2 ""; story_row 3 "y"; story_row 4 "y";
     story_row 5 "y"; story_row 6 "y"].

(** The sheets client answers every call; the services answer. *)
Definition sheets_up : Env :=
  mkEnv (fun _ => None)
    (fun _ _ _ => inr [Runs.new_item "a long enough prompt";
                       Runs.new_item "another long prompt"])
    (fun _ => inr "https://drive/img")
    (fun _ => inr (mkCaption "Bonjour" ["#paris"] []))
    (fun _ => true) (fun _ _ => true) 1000 Inputs.clock 5 5
    (fun _ => "1 validation error for ContentRequest").


Definition store_world (s : Sheet) : World :=
  mkWorld s 0 None None None (Some "Paris, France") [] [].

End Stores.

(* ================================================================== *)
(** ** Properties *)
(* ================================================================== *)

Example find_example : PyStr.find "#" "Amazing sunset! #travel #sunset" = 16.
Proof. reflexivity. Qed.

Example find_absent_example : PyStr.find "#" "no tags" = -1.
Proof. reflexivity. Qed.

Example split_example :
  PyStr.split " #" "#a #b  #c" = ["#a"; "b "; "c"].
Proof. reflexivity. Qed.

Example replace_example :
  PyStr.replace ",Paris" "" "Kyoto,Paris" = "Kyoto".
Proof. reflexivity. Qed.

Example strip_example : PyStr.strip "  a b  " = "a b".
Proof. reflexivity. Qed.

Example slice_negative_example :
  PyStr.slice_from "abc" (-1) = "c" /\ PyStr.slice_to "abc" (-1) = "ab".
Proof. split; reflexivity. Qed.

Example list_slice_example :
  PyStr.list_slice [1; 2; 3; 4; 5] 1 3 = [2; 3].
Proof. reflexivity. Qed.

Module PostingFacts.

Import PyStr Gsheet Posting PostingSpec Inputs.
Local Open Scope list_scope.

(** *** The scan as a filter *)

Lemma eqb_false_of_neq (a b : string) : a <> b -> String.eqb a b = false.
Proof. intro H. apply String.eqb_neq. exact H. Qed.

Lemma eligible_group_nonempty (row : Row) :
  eligible row = true -> r_group_id row <> "".
Proof.
  unfold eligible, missing_values. intros H Hg.
  rewrite Hg in H. simpl in H.
  rewrite !orb_true_r in H. simpl in H. rewrite andb_false_r in H. discriminate.
Qed.

Lemma selected_locked (g : string) (row : Row) :
  g <> "" ->
  selected g row && negb (missing_values row) = takes g row.
Proof.
  intro Hg. unfold selected, takes, eligible.
  rewrite (eqb_false_of_neq g "" Hg), orb_false_r.
  destruct (String.eqb (r_approved row) "y"), (String.eqb (r_posted_on_instagram row) ""),
    (String.eqb (r_type row) "posts"), (String.eqb (r_group_id row) g),
    (missing_values row); reflexivity.
Qed.

Lemma selected_unlocked (row : Row) :
  selected "" row && negb (missing_values row) = eligible row.
Proof.
  unfold selected, eligible. simpl. rewrite orb_true_r, andb_true_r. reflexivity.
Qed.

Lemma accumulate_locked main i row st :
  group_id st <> "" ->
  group_id (accumulate main i row st) = group_id st
  /\ indexes (accumulate main i row st) = indexes st ++ [i]
  /\ image_urls (accumulate main i row st) = image_urls st ++ [url_of row].
Proof.
  intro Hg. unfold accumulate.
  rewrite (eqb_false_of_neq _ _ Hg). simpl. auto.
Qed.

Lemma accumulate_unlocked main i row st :
  group_id st = "" ->
  group_id (accumulate main i row st) = r_group_id row
  /\ indexes (accumulate main i row st) = indexes st ++ [i]
  /\ image_urls (accumulate main i row st) = image_urls st ++ [url_of row].
Proof.
  intro Hg. unfold accumulate. rewrite Hg. simpl. auto.
Qed.

Lemma scan_locked main content : forall st,
  group_id st <> "" ->
  let taken := filter (takes (group_id st)) (upto_blank content) in
  group_id (scan main content st) = group_id st
  /\ indexes (scan main content st) = indexes st ++ map index_of taken
  /\ image_urls (scan main content st) = image_urls st ++ map url_of taken.
Proof.
  induction content as [|row rest IH]; intros st Hg; simpl.
  - rewrite !app_nil_r. auto.
  - destruct (r_index row) as [i|] eqn:Hi; simpl.
    + pose proof (selected_locked (group_id st) row Hg) as Hsel.
      destruct (selected (group_id st) row) eqn:Hs; simpl in Hsel.
      * destruct (missing_values row) eqn:Hm; simpl in Hsel; rewrite <- Hsel.
        -- apply IH. exact Hg.
        -- destruct (accumulate_locked main i row st Hg) as (Ha & Hb & Hc).
           assert (Hg' : group_id (accumulate main i row st) <> "") by (rewrite Ha; exact Hg).
           destruct (IH _ Hg') as (H1 & H2 & H3).
           rewrite Ha in H1, H2, H3. rewrite H1, H2, H3, Hb, Hc.
           simpl. unfold index_of at 2. rewrite Hi. rewrite <- !app_assoc. auto.
      * rewrite <- Hsel. apply IH. exact Hg.
    + rewrite !app_nil_r. auto.
Qed.

Lemma scan_unlocked main content : forall st,
  group_id st = "" ->
  let g := active_group content in
  let taken := filter (takes g) (upto_blank content) in
  (g = "" -> scan main content st = st)
  /\ (g <> "" -> group_id (scan main content st) = g)
  /\ indexes (scan main content st) = indexes st ++ map index_of taken
  /\ image_urls (scan main content st) = image_urls st ++ map url_of taken.
Proof.
  induction content as [|row rest IH]; intros st Hg; simpl.
  - unfold active_group; simpl. rewrite !app_nil_r. (split; [|split; [|split]]); auto; congruence.
  - unfold active_group. simpl.
    destruct (r_index row) as [i|] eqn:Hi; simpl.
    + rewrite Hg. pose proof (selected_unlocked row) as Hsel.
      destruct (eligible row) eqn:He.
      * (* the first eligible record locks its group *)
        simpl. pose proof (eligible_group_nonempty row He) as Hne.
        destruct (selected "" row) eqn:Hs; simpl in Hsel; [|discriminate].
        destruct (missing_values row) eqn:Hm; simpl in Hsel; [discriminate|].
        destruct (accumulate_unlocked main i row st Hg) as (Ha & Hb & Hc).
        assert (Hg' : group_id (accumulate main i row st) <> "") by (rewrite Ha; exact Hne).
        destruct (scan_locked main rest _ Hg') as (H1 & H2 & H3).
        rewrite Ha in H1, H2, H3.
        assert (Htk : takes (r_group_id row) row = true)
          by (unfold takes; rewrite He, String.eqb_refl; reflexivity).
        rewrite !Htk. simpl.
        split; [|split; [|split]].
        -- intro Hc'. contradiction.
        -- intros _. exact H1.
        -- rewrite H2, Hb. unfold index_of at 2. rewrite Hi, <- app_assoc. reflexivity.
        -- rewrite H3, Hc, <- app_assoc. reflexivity.
      * assert (Hskip : (if selected "" row
                         then if missing_values row then scan main rest st
                              else scan main rest (accumulate main i row st)
                         else scan main rest st) = scan main rest st).
        { destruct (selected "" row); [|reflexivity].
          destruct (missing_values row); [reflexivity|]. simpl in Hsel. discriminate. }
        rewrite Hskip.
        assert (Ht : forall g, takes g row = false) by (intro g0; unfold takes; rewrite He; reflexivity).
        rewrite Ht. apply (IH st Hg).
    + rewrite !app_nil_r. (split; [|split; [|split]]); auto; congruence.
Qed.


(** *** The effects of a run *)

Lemma update_cell_run (row : Z) (c : Column) (v : string) (w : World) :
  update_cell row c v w
  = if row <? 1 then (Exec.Raise (Exception "APIError"), w)
    else (Exec.Ret tt, with_sheet (write_cell row c v) w).
Proof. unfold update_cell. destruct (row <? 1); reflexivity. Qed.

Lemma for_each_update_cell_frame (c : Column) (v : string) (l : list Z) : forall w,
  same_but_sheet w
    (snd (Exec.for_each l (fun i => update_cell (header_row + i) c v) w)).
Proof.
  induction l as [|i l IH]; intro w.
  - cbn. unfold same_but_sheet. auto.
  - cbn [Exec.for_each]. unfold Exec.bind. rewrite update_cell_run.
    destruct (header_row + i <? 1).
    + cbn. unfold same_but_sheet. auto.
    + cbn iota. apply (IH (with_sheet (write_cell (header_row + i) c v) w)).
Qed.

(** A run as a function of what the scan took and of the Poster. *)
Lemma main_posting_run (env : Env) (w : World) :
  let st := scan (get_location w) (records (sheet w)) scan_init in
  main_posting env w
  = if 0 <? Z.of_nat (List.length (image_urls st)) then
      let w1 := mkWorld (sheet w) (location_txt w) (notifications w)
                  (poster_calls w
                   ++ [(firstn 6 (image_urls st), caption st, location st)]) in
      match poster env (firstn 6 (image_urls st)) (caption st) (location st) with
      | Some msg => send_messages (posting_error_message msg) w1
      | None =>
          Exec.try_except
            (Exec.bind
               (Exec.for_each (firstn 6 (indexes st))
                  (fun i => update_cell (header_row + i) Posted_on_instagram (now env)))
               (fun _ => send_messages
                  "Successfully posted on instagram, checkout https://www.instagram.com/aashvithemodel"))
            (except_Exception (fun e => send_messages (posting_error_message e))) w1
      end
    else send_messages "No posts to post on instagram, please check the sheet" w.
Proof.
  unfold main_posting, scheduled_posts_on_instagram.
  unfold Exec.try_except at 1. unfold Exec.bind at 1 2. unfold Exec.gets.
  cbv zeta.
  destruct (0 <? Z.of_nat (List.length (image_urls
              (scan (get_location w) (records (sheet w)) scan_init)))).
  - unfold Exec.bind at 1. unfold post_on_instagram.
    destruct (poster env _ _ _) as [msg|]; reflexivity.
  - reflexivity.
Qed.

(** What the Poster is handed in a run: nothing when no record was taken,
    else the first six URLs with the caption and the location. *)
Lemma poster_calls_of_run (env : Env) (w : World) :
  let st := scan (get_location w) (records (sheet w)) scan_init in
  poster_calls (snd (main_posting env w))
  = poster_calls w
    ++ (if 0 <? Z.of_nat (List.length (image_urls st))
        then [(firstn 6 (image_urls st), caption st, location st)] else []).
Proof.
  cbv zeta. rewrite main_posting_run. cbv zeta.
  destruct (0 <? Z.of_nat (List.length (image_urls
              (scan (get_location w) (records (sheet w)) scan_init)))).
  - destruct (poster env _ _ _) as [msg|].
    + reflexivity.
    + unfold Exec.try_except, Exec.bind.
      match goal with
      | |- context [Exec.for_each ?l ?f ?w0] =>
          pose proof (for_each_update_cell_frame Posted_on_instagram (now env)
                        l w0) as Hf;
          destruct (Exec.for_each l f w0) as [[u|e] w1]
      end; unfold same_but_sheet in Hf; cbn in Hf; destruct Hf as (_ & _ & Hp).
      * cbn. exact Hp.
      * destruct e as [m|code]; cbn; exact Hp.
  - cbn. rewrite app_nil_r. reflexivity.
Qed.

(** The image cap: whatever the sheet holds, a run calls the Poster at
    most once, and with at most six images. *)
Theorem poster_gets_at_most_six_images (env : Env) (w : World) :
  exists calls,
    poster_calls (snd (main_posting env w)) = poster_calls w ++ calls
    /\ (List.length calls <= 1)%nat
    /\ Forall (fun call => (List.length (fst (fst call)) <= 6)%nat) calls.
Proof.
  rewrite poster_calls_of_run. cbv zeta.
  destruct (0 <? _).
  - eexists. split; [reflexivity|]. split; [cbn; lia|].
    constructor; [|constructor]. cbn [fst]. apply firstn_le_length.
  - exists []. split; [reflexivity|]. split; [cbn; lia|constructor].
Qed.

(** Under the cap nothing is trimmed: when the excess is not positive the
    generic block is kept as it is. *)
Theorem no_excess_keeps_the_block (raw_caption : string) (excess : Z) :
  excess <= 0 -> raw_caption <> "#" ->
  trim_raw_caption raw_caption excess = raw_caption.
Proof.
  intros He Hr. unfold trim_raw_caption.
  replace (0 <? excess) with false by (symmetry; apply Z.ltb_ge; exact He).
  rewrite (eqb_false_of_neq _ _ Hr). reflexivity.
Qed.

Lemma no_excess_witness :
  trim_raw_caption (strip (boilerplate 20)) (2 + 20 - 30) = strip (boilerplate 20)
  /\ hashtag_count (assemble_caption (boilerplate 20) 30 mentions
                      "Amazing sunset! #travel #sunset") = 22.
Proof.
  split.
  - apply (no_excess_keeps_the_block (strip (boilerplate 20)) (2 + 20 - 30)).
    + vm_compute. discriminate.
    + vm_compute. discriminate.
  - vm_compute. reflexivity.
Defined.

(** *** Caption, scan and marking *)

(** C1 (caption hashtag budget). With E = 14 extracted hashtags and the
    script's generic block of B = 17 under the cap C = 30, one hashtag is
    in excess; the script keeps the slice [1:1] of the block, that is
    nothing, so the caption carries 14 hashtags and not min(E + B, C) = 30.
    In the scenario E = 10, B = 25 the excess is 5 and the script keeps the
    slice [1:5], the 2nd to 5th hashtag, not the last 20. *)
Theorem C1_trim_keeps_the_slice_before_the_excess :
  let raw_caption := strip (replace nl "" raw_caption_literal) in
  hashtag_count (extract_hashtags (caption_with_tags 14)) = 14
  /\ hashtag_count raw_caption = 17
  /\ trim_raw_caption raw_caption (14 + 17 - max_hashtags) = ""
  /\ hashtag_count (build_caption (caption_with_tags 14)) = 14
  /\ hashtag_count (build_caption (caption_with_tags 14)) <> Z.min (14 + 17) max_hashtags
  /\ hashtag_count (extract_hashtags (caption_with_tags 10)) = 10
  /\ hashtag_count (strip (boilerplate 25)) = 25
  /\ trim_raw_caption (strip (boilerplate 25)) (10 + 25 - 30) = "#b2 #b3 #b4 #b5"
  /\ hashtag_count (assemble_caption (boilerplate 25) 30 mentions (caption_with_tags 10)) = 14.
Proof.
  vm_compute. repeat split; try reflexivity. discriminate.
Qed.

(** C2, as stated, fails: with eligible records of groups G1, G2, G1 in
    this order the scan does not stop at the G2 record; it goes on and
    takes the later G1 record too. *)
Lemma C2_scan_continues_past_other_group : ~ stops_at_other_group.
Proof.
  intro H.
  specialize (H "Paris" [post_row 1 "G1" "Hi #a"] (post_row 2 "G2" "Yo #b")
                [post_row 3 "G1" "-"]).
  assert (Hi : indexes (scan "Paris"
                  ([post_row 1 "G1" "Hi #a"] ++ post_row 2 "G2" "Yo #b" :: [post_row 3 "G1" "-"])
                  scan_init) = [1; 3]) by (vm_compute; reflexivity).
  rewrite H in Hi.
  - vm_compute in Hi. discriminate.
  - vm_compute. discriminate.
  - reflexivity.
  - simpl. discriminate.
  - vm_compute. discriminate.
Qed.

(** C2, amended. The scan locks onto the group of the first eligible
    record (approved, unposted, of type posts, with image, caption,
    location and group) before the first empty index, and takes exactly
    the eligible records of that group among the records before the first
    empty index, wherever they stand: a record of another group is skipped
    and the scan goes on. The images handed to the Poster in a run are the
    first six of the records taken. With two eligible records of G1
    followed by one of G2, the two G1 records are taken and the G2 record
    is not. *)
Theorem C2_scan_takes_the_active_group (main_location : string) (content : list Row)
    (env : Env) (w : World) :
  let st := scan main_location content scan_init in
  let taken := filter (takes (active_group content)) (upto_blank content) in
  let posted := filter (takes (active_group (records (sheet w))))
                       (upto_blank (records (sheet w))) in
  group_id st = active_group content
  /\ indexes st = map index_of taken
  /\ image_urls st = map url_of taken
  /\ (exists calls,
        poster_calls (snd (main_posting env w)) = poster_calls w ++ calls
        /\ map (fun call => fst (fst call)) calls
           = match posted with
             | [] => []
             | _ => [firstn 6 (map url_of posted)]
             end)
  /\ indexes (scan main_location
                [post_row 1 "G1" "Hi #a"; post_row 2 "G1" "-"; post_row 3 "G2" "Yo #b"]
                scan_init) = [1; 2].
Proof.
  destruct (scan_unlocked main_location content scan_init eq_refl) as (H0 & H1 & H2 & H3).
  cbn [scan_init group_id indexes image_urls app] in *. cbv zeta in *.
  split; [|split; [|split; [|split]]].
  - destruct (string_dec (active_group content) "") as [He|Hne].
    + rewrite (H0 He). rewrite He. reflexivity.
    + apply H1. exact Hne.
  - exact H2.
  - exact H3.
  - rewrite poster_calls_of_run. cbv zeta.
    destruct (scan_unlocked (get_location w) (records (sheet w)) scan_init eq_refl)
      as (_ & _ & _ & Hu).
    cbn [scan_init image_urls app] in Hu. cbv zeta in Hu. rewrite Hu.
    destruct (filter (takes (active_group (records (sheet w))))
                (upto_blank (records (sheet w)))) as [|r rs].
    + exists []. split; reflexivity.
    + eexists. split; reflexivity.
  - reflexivity.
Qed.

(** C3 (image cap and marking). On the sheet as the generator lays it out
    (records indexed from 0, the record with index k in sheet row k + 2),
    a successful run posts the four images of the group and then writes
    the cells of sheet rows 1 + index: the header cell and the records
    with index 0, 1 and 2. The record with index 3, whose image was
    posted, keeps an empty [posted_on_instagram] cell. *)
Theorem C3_marks_land_one_row_above_the_posted_rows :
  let w1 := snd (main_posting poster_ok (posting_world ready_sheet)) in
  fst (main_posting poster_ok (posting_world ready_sheet)) = Exec.Ret tt
  /\ map (fun call => List.length (fst (fst call))) (poster_calls w1) = [4%nat]
  /\ map r_index (records (sheet w1)) = [Some 0; Some 1; Some 2; Some 3]
  /\ map r_posted_on_instagram (records (sheet w1)) = [clock; clock; clock; ""]
  /\ r_posted_on_instagram (header (sheet w1)) = clock.
Proof.
  vm_compute. repeat split; reflexivity.
Qed.


(** *** The location tag *)

Lemma prefix_refl (a : string) : String.prefix a a = true.
Proof.
  induction a as [|c a IH]; simpl.
  - reflexivity.
  - destruct (ascii_dec c c) as [_|Hn]; [exact IH|contradiction].
Qed.

Lemma replace_go_skip_all (old new : string) : forall (s : string) (k : nat),
  (String.length s <= k)%nat -> replace_go old new s k = "".
Proof.
  induction s as [|c s IH]; intros k Hk; simpl.
  - reflexivity.
  - destruct k as [|k]; simpl in Hk; [lia|]. apply IH. lia.
Qed.

Lemma replace_suffix_after_comma_free (loc : string) : forall place : string,
  no_comma place = true ->
  replace ("," ++ loc) "" (place ++ "," ++ loc) = place.
Proof.
  unfold replace. induction place as [|c place IH]; intro Hc.
  - change ("" ++ "," ++ loc)%string with (String "," loc).
    change ("," ++ loc)%string with (String "," loc).
    cbn [replace_go]. 
    rewrite (prefix_refl (String "," loc)). cbn [String.append].
    apply replace_go_skip_all. simpl. lia.
  - simpl in Hc. apply andb_true_iff in Hc. destruct Hc as [Hne Hrest].
    change ((String c place) ++ "," ++ loc)%string
      with (String c (place ++ "," ++ loc)).
    change ("," ++ loc)%string with (String "," loc) in *.
    cbn [replace_go].
    assert (Hp : String.prefix (String "," loc) (String c (place ++ String "," loc)) = false).
    { cbn [String.prefix]. destruct (ascii_dec "," c) as [Heq|_]; [|reflexivity].
      subst c. simpl in Hne. discriminate. }
    rewrite Hp. f_equal. apply IH. exact Hrest.
Qed.

(** C4, as stated, fails: the stored location "Kyoto, Paris" (a space
    after the comma) is left as it is for the current location "Paris". *)
Lemma C4_comma_space_suffix_is_kept :
  normalize_location "Paris" "Kyoto, Paris" = "Kyoto, Paris"
  /\ normalize_location "Paris" "Kyoto, Paris" <> "Kyoto".
Proof. split; [reflexivity|discriminate]. Qed.

(** C4, amended. The generator stores place + "," + current location (no
    space); for a place without a comma the scan hands the Poster the
    place alone, stripped of surrounding blanks: the text "," + current
    location is removed from the stored location. *)
Theorem C4_location_tag_is_the_place (place main_location : string)
    (i : Z) (row : Row) (st : ScanState) :
  no_comma place = true ->
  r_location row = Automation.stored_location place main_location ->
  location (accumulate main_location i row st) = strip place
  /\ normalize_location main_location (Automation.stored_location place main_location)
     = strip place.
Proof.
  intros Hc Hl.
  assert (Hn : normalize_location main_location
                 (Automation.stored_location place main_location) = strip place).
  { unfold normalize_location, Automation.stored_location.
    rewrite replace_suffix_after_comma_free by exact Hc. reflexivity. }
  split; [|exact Hn].
  unfold accumulate. cbn [location]. rewrite Hl. exact Hn.
Qed.

Lemma C4_location_tag_witness :
  location (accumulate "Paris" 1
              (mkRow (Some 1) "posts" "p" "Kyoto,Paris" "G1" None "img" "" "-" "y" "" "")
              scan_init) = "Kyoto"
  /\ normalize_location "Paris" "Kyoto,Paris" = "Kyoto".
Proof.
  apply (C4_location_tag_is_the_place "Kyoto" "Paris" 1
           (mkRow (Some 1) "posts" "p" "Kyoto,Paris" "G1" None "img" "" "-" "y" "" "")
           scan_init); reflexivity.
Defined.

(** *** A failing Poster *)

(** A run of the posting block with a webhook, as a function of what the
    scan took and of the Poster. *)
Lemma main_posting_via_run (webhook : string -> option string) (env : Env) (w : World) :
  let st := scan (get_location w) (records (sheet w)) scan_init in
  let handler :=
    except_Exception (fun e => send_messages_via webhook (posting_error_message e)) in
  main_posting_via webhook env w
  = if 0 <? Z.of_nat (List.length (image_urls st)) then
      let w1 := mkWorld (sheet w) (location_txt w) (notifications w)
                  (poster_calls w
                   ++ [(firstn 6 (image_urls st), caption st, location st)]) in
      match poster env (firstn 6 (image_urls st)) (caption st) (location st) with
      | Some msg => send_messages_via webhook (posting_error_message msg) w1
      | None =>
          Exec.try_except
            (Exec.bind
               (Exec.for_each (firstn 6 (indexes st))
                  (fun i => update_cell (header_row + i) Posted_on_instagram (now env)))
               (fun _ => send_messages_via webhook
                  "Successfully posted on instagram, checkout https://www.instagram.com/aashvithemodel"))
            handler w1
      end
    else
      Exec.try_except
        (send_messages_via webhook "No posts to post on instagram, please check the sheet")
        handler w.
Proof.
  unfold main_posting_via, scheduled_posts_on_instagram_via.
  unfold Exec.try_except at 1. unfold Exec.bind at 1 2. unfold Exec.gets.
  cbv zeta.
  destruct (0 <? Z.of_nat (List.length (image_urls
              (scan (get_location w) (records (sheet w)) scan_init)))).
  - unfold Exec.bind at 1. unfold post_on_instagram.
    destruct (poster env _ _ _) as [msg|]; reflexivity.
  - reflexivity.
Qed.

Lemma send_messages_via_sheet (webhook : string -> option string) (m : string)
    (w : World) :
  sheet (snd (send_messages_via webhook m w)) = sheet w.
Proof. unfold send_messages_via. destruct (webhook m); reflexivity. Qed.

(** C5, as stated, fails: when the Poster raises and the request that
    carries the error notification raises too, the exception of the
    request leaves the posting block. *)
Lemma C5_undelivered_notification_raises : ~ fails_quietly.
Proof.
  intro H.
  specialize (H webhook_down poster_down (posting_world ready_sheet)
                "no such element: Create").
  cbv zeta in H.
  assert (Hrun : fst (main_posting_via webhook_down poster_down
                        (posting_world ready_sheet))
                 = Exec.Raise (Exception "HTTPSConnectionPool: Max retries exceeded"))
    by (vm_compute; reflexivity).
  rewrite H in Hrun.
  - discriminate.
  - vm_compute. discriminate.
  - reflexivity.
Qed.

(** C5, amended (posting failure). When the scan took at least one record
    and the Poster raises with message [e], the sheet is what it was (no
    record is marked as posted), the Poster was called once, and the
    posting block sends the notification

      Error while posting on instagram\n <e> \n None

    If the request to the webhook returns, the notification is the one
    message sent and the block ends without raising; if the request
    raises, its exception leaves the block and no message is recorded. In
    any run, a sheet that changed means the Poster was called and
    returned. With a webhook that answers every request the block is the
    one in which notifications are taken to succeed. *)
Theorem C5_failed_post_marks_no_row
    (webhook : string -> option string) (env : Env) (w : World) :
  let st := scan (get_location w) (records (sheet w)) scan_init in
  let run := main_posting_via webhook env w in
  (forall e : string,
     image_urls st <> [] ->
     poster env (firstn 6 (image_urls st)) (caption st) (location st) = Some e ->
     let note := ("Error while posting on instagram" ++ nl ++ " " ++ e ++ " "
                  ++ nl ++ " None")%string in
     sheet (snd run) = sheet w
     /\ poster_calls (snd run)
        = poster_calls w ++ [(firstn 6 (image_urls st), caption st, location st)]
     /\ match webhook note with
        | None => fst run = Exec.Ret tt
                  /\ notifications (snd run) = notifications w ++ [note]
        | Some error => fst run = Exec.Raise (Exception error)
                        /\ notifications (snd run) = notifications w
        end)
  /\ (sheet (snd run) <> sheet w ->
      image_urls st <> []
      /\ poster env (firstn 6 (image_urls st)) (caption st) (location st) = None)
  /\ main_posting_via (fun _ => None) env w = main_posting env w.
Proof.
  cbv zeta. split; [|split; [|reflexivity]].
  - intros e Hne He. rewrite main_posting_via_run. cbv zeta.
    set (st := scan (get_location w) (records (sheet w)) scan_init) in *.
    assert (Hlen : (0 <? Z.of_nat (List.length (image_urls st))) = true).
    { destruct (image_urls st); [contradiction|reflexivity]. }
    rewrite Hlen, He. unfold send_messages_via, posting_error_message.
    destruct (webhook _); cbn [fst snd sheet poster_calls notifications];
      repeat split; reflexivity.
  - rewrite main_posting_via_run. cbv zeta.
    set (st := scan (get_location w) (records (sheet w)) scan_init).
    destruct (0 <? Z.of_nat (List.length (image_urls st))) eqn:Hlen.
    + destruct (poster env _ _ _) as [msg|] eqn:Hp.
      * rewrite send_messages_via_sheet. cbn. intro H. contradiction.
      * intros _. split; [|reflexivity].
        intro Hnil. rewrite Hnil in Hlen. discriminate.
    + unfold Exec.try_except, send_messages_via.
      destruct (webhook "No posts to post on instagram, please check the sheet");
        [|cbn; intro H; contradiction].
      cbn [except_Exception]. destruct (webhook _); cbn; intro H; contradiction.
Qed.

Lemma C5_failed_post_witness :
  let st := scan "Paris" (records ready_sheet) scan_init in
  let run := main_posting_via webhook_up poster_down (posting_world ready_sheet) in
  (sheet (snd run) = ready_sheet
   /\ poster_calls (snd run) = [(firstn 6 (image_urls st), caption st, location st)]
   /\ fst run = Exec.Ret tt
   /\ notifications (snd run)
      = [("Error while posting on instagram" ++ nl ++ " no such element: Create "
          ++ nl ++ " None")%string])
  /\ poster poster_ok (firstn 6 (image_urls st)) (caption st) (location st) = None.
Proof.
  cbv zeta. split.
  - destruct (proj1 (C5_failed_post_marks_no_row webhook_up poster_down
                       (posting_world ready_sheet))
                "no such element: Create") as (Hsheet & Hcalls & Hret & Hnote).
    + vm_compute. discriminate.
    + reflexivity.
    + split; [exact Hsheet|]. split; [exact Hcalls|]. split; [exact Hret|exact Hnote].
  - apply (proj1 (proj2 (C5_failed_post_marks_no_row webhook_up poster_ok
                           (posting_world ready_sheet)))).
    vm_compute. discriminate.
Defined.

End PostingFacts.

Module RunLockFacts.

Import PyStr Gsheet Inputs Runs.
Local Open Scope list_scope.

(** *** The generator script *)

(** The lock is taken and the sheet cannot be read: the exception leaves
    [__main__] before the line that writes "nope". *)
Lemma main_sheet_unreachable (env : Automation.Env) (w : Automation.World) (msg : string) :
  String.eqb (strip (Automation.is_running_txt w)) "yep" = false ->
  Automation.sheet_read_error env = Some msg ->
  Automation.main env w
  = (Exec.Raise (Exception msg),
     Automation.mkWorld (Automation.sheet w) "yep" (Automation.location_txt w)
       (Automation.notifications w ++ ["Running image and caption generation..."])
       (Automation.ai_calls w) (Automation.uploads w)).
Proof.
  intros Hfree Hdown.
  unfold Automation.main, Exec.bind, Exec.gets. rewrite Hfree.
  cbn. unfold Automation.generate_posts_and_caption, Exec.bind. rewrite Hdown.
  reflexivity.
Qed.

(** C6 (run-lock release). In the generator script the flag is written
    back only on the normal path. Started with the flag free, a run whose
    sheet read raises, and a run whose image service answers with status
    500 (the script calls exit()), both end by an exception with the flag
    still set to "yep". *)
Theorem C6_flag_stays_set_when_generation_raises :
  Automation.is_running_txt automation_world = "nope"
  /\ fst (Automation.main sheet_down automation_world)
     = Exec.Raise (Exception "APIError: quota exceeded")
  /\ Automation.is_running_txt (snd (Automation.main sheet_down automation_world)) = "yep"
  /\ fst (Automation.main image_service_500 automation_world) = Exec.Raise (SystemExit 0)
  /\ Automation.is_running_txt (snd (Automation.main image_service_500 automation_world))
     = "yep".
Proof. vm_compute. repeat split; reflexivity. Qed.

(** *** The workflow *)

Import App.

Lemma try_finally_total_fin {E W A} (body : Exec.M E W A) (f : W -> W) (w : W) :
  Exec.try_finally body (Exec.modify f) w = (fst (body w), f (snd (body w))).
Proof. unfold Exec.try_finally, Exec.modify. destruct (body w); reflexivity. Qed.

(** The workflow releases the lock on every exit of the guarded work: a
    run that found the lock free ends, with or without a failure of the
    work, in a world whose lock file reads "nope", and it never raises. *)
Theorem workflow_releases_the_lock (env : Env) (loc : option LocationData)
    (post_count story_count : Z) (w : World) :
  fst (is_process_running w) = Exec.Ret false ->
  exists b w',
    run_full_content_generation env loc post_count story_count w = (Exec.Ret b, w')
    /\ running_lock_file w' = Some "nope".
Proof.
  intro Hfree.
  unfold run_full_content_generation.
  unfold Exec.try_except at 1. unfold Exec.bind at 1.
  unfold is_process_running, Exec.gets in *. cbn [fst] in Hfree.
  injection Hfree as Hfree. rewrite Hfree.
  unfold Exec.bind at 1. unfold set_process_running at 1. unfold Exec.modify at 1.
  unfold set_process_running. rewrite try_finally_total_fin.
  match goal with
  | |- context [fst (?body ?w1)] => destruct (body w1) as [[b|e] w2]
  end; cbn [fst snd].
  - exists b, (with_lock (Some "nope") w2). split; reflexivity.
  - eexists false, _. split; reflexivity.
Qed.

Lemma workflow_release_witness :
  exists b w',
    run_full_content_generation first_read_fails (Some paris) 4 2 (app_world (Some "nope"))
    = (Exec.Ret b, w')
    /\ running_lock_file w' = Some "nope".
Proof.
  apply (workflow_releases_the_lock first_read_fails (Some paris) 4 2
           (app_world (Some "nope"))).
  reflexivity.
Defined.

(** C7 (run-lock contention). A run that finds the flag set does nothing:
    the workflow returns True and the generator script exits with status
    0, in both cases leaving the world as it was: no AI capability
    is invoked, the sheet is not written, nothing is sent. *)
Theorem C7_held_lock_is_a_no_op :
  (forall (env : Env) (loc : option LocationData) (post_count story_count : Z) (w : World),
     fst (is_process_running w) = Exec.Ret true ->
     run_full_content_generation env loc post_count story_count w = (Exec.Ret true, w))
  /\ (forall (env : Automation.Env) (w : Automation.World),
        strip (Automation.is_running_txt w) = "yep" ->
        Automation.main env w = (Exec.Raise (SystemExit 0), w)).
Proof.
  split.
  - intros env loc pc sc w Hheld.
    unfold run_full_content_generation.
    unfold Exec.try_except at 1. unfold Exec.bind at 1.
    unfold is_process_running, Exec.gets in *. cbn [fst] in Hheld.
    injection Hheld as Hheld. rewrite Hheld. reflexivity.
  - intros env w Hheld.
    unfold Automation.main, Exec.bind, Exec.gets. rewrite Hheld. reflexivity.
Qed.

Lemma C7_held_lock_witness :
  run_full_content_generation first_read_fails None 4 2 (app_world (Some "Yep "))
  = (Exec.Ret true, app_world (Some "Yep "))
  /\ Automation.main sheet_down
       (Automation.mkWorld generated_sheet "yep" "Paris" [] [] [])
     = (Exec.Raise (SystemExit 0),
        Automation.mkWorld generated_sheet "yep" "Paris" [] [] []).
Proof.
  split.
  - apply (proj1 C7_held_lock_is_a_no_op). reflexivity.
  - apply (proj2 C7_held_lock_is_a_no_op). reflexivity.
Defined.

End RunLockFacts.

Module OpenAIFacts.

Import PyStr OpenAI OpenAISpec Runs.
Local Open Scope list_scope.

Lemma invoke_run (env : Env) (w : World) :
  invoke env w
  = match api_func env (calls w) with
    | inl e => (Exec.Raise e, mkWorld (S (calls w)) (sleeps w) (rate_limit_delay w))
    | inr response => (Exec.Ret response, mkWorld (S (calls w)) (sleeps w) (rate_limit_delay w))
    end.
Proof. unfold invoke. destruct (api_func env (calls w)); reflexivity. Qed.

(** One iteration of the retry loop. *)
Lemma make_api_call_loop_step (env : Env) (r : nat) (attempt : Z) (w : World) :
  make_api_call_loop env (S r) attempt w
  = match api_func env (calls w) with
    | inr response => (Exec.Ret (Some response), called w)
    | inl e =>
        match cls e with
        | RateLimitError =>
            if attempt =? max_retries - 1 then (Exec.Raise e, called w)
            else make_api_call_loop env r (attempt + 1) (slept (backoff attempt) (called w))
        | APIError | Timeout =>
            if attempt =? max_retries - 1
            then (Exec.Raise (mkExn OpenAIError
                    ("API error after " ++ "3" ++ " attempts: " ++ str e)), called w)
            else make_api_call_loop env r (attempt + 1) (slept (backoff attempt) (called w))
        | _ => (Exec.Raise e, called w)
        end
    end.
Proof.
  cbn [make_api_call_loop]. unfold Exec.try_except, Exec.bind at 1.
  rewrite invoke_run.
  destruct (api_func env (calls w)) as [e|content]; [|reflexivity].
  destruct (cls e); try reflexivity;
    destruct (attempt =? max_retries - 1); reflexivity.
Qed.




Lemma generate_completion_unfold (env : Env) (w : World) :
  generate_completion env w
  = Exec.try_except
      (Exec.bind (make_api_call env) (fun response =>
         Exec.bind (Exec.gets rate_limit_delay) (fun d' =>
         Exec.bind (set_rate_limit_delay (relaxed d')) (fun _ =>
         match response with
         | Some (Content content) => Exec.ret (strip content)
         | Some (Malformed error) => Exec.raise (mkExn OtherError error)
         | None => Exec.raise (mkExn OtherError "'NoneType' object has no attribute 'choices'")
         end))))
      (fun e =>
         Some (match cls e with
               | RateLimitError =>
                   Exec.bind (Exec.gets rate_limit_delay) (fun d =>
                   Exec.bind (set_rate_limit_delay (backed_off d)) (fun _ =>
                   construction_fails env))
               | AuthenticationError => construction_fails env
               | InvalidRequestError =>
                   Exec.raise (mkExn OpenAIError ("Invalid request: " ++ str e)%string)
               | _ =>
                   Exec.raise (mkExn OpenAIError ("API call failed: " ++ str e)%string)
               end))
      (slept (rate_limit_delay w) w).
Proof. reflexivity. Qed.



End OpenAIFacts.

Module RepositoryFacts.

Import PyStr Gsheet Inputs Runs App AppSpec.
Local Open Scope list_scope.

(** *** The sheets client and the reads *)

Lemma sheets_call_run (env : Env) (w : World) :
  sheets_call env w
  = match sheets_failure env (sheet_calls w) with
    | Some msg => (Exec.Raise (mkExn OtherException msg), counted w)
    | None => (Exec.Ret tt, counted w)
    end.
Proof. unfold sheets_call. destruct (sheets_failure env (sheet_calls w)); reflexivity. Qed.

(** A read that reaches the service and fails raises the storage error. *)
Lemma get_all_content_read_fails (env : Env) (use_cache : bool) (w : World) (msg : string) :
  use_cache && is_cache_valid env w = false ->
  sheets_failure env (sheet_calls w) = Some msg ->
  get_all_content env use_cache w
  = (Exec.Raise (mkExn GoogleSheetsError ("Failed to retrieve content: " ++ msg)%string),
     counted w).
Proof.
  intros Hc Hf.
  unfold get_all_content, Exec.try_except, Exec.bind at 1, Exec.gets at 1.
  rewrite Hc. unfold Exec.bind at 1. unfold get_all_records, Exec.bind at 1.
  rewrite sheets_call_run, Hf. reflexivity.
Qed.

(** [_get_last_index] answers 0 when the read fails. *)
Lemma get_last_index_read_fails (env : Env) (w : World) (msg : string) :
  sheets_failure env (sheet_calls w) = Some msg ->
  get_last_index env w = (Exec.Ret 0, counted w).
Proof.
  intro Hf. unfold get_last_index, Exec.try_except, Exec.bind at 1.
  rewrite (get_all_content_read_fails env false w msg eq_refl Hf). reflexivity.
Qed.

(** C9 (a failed read while numbering a batch). When the read of
    [_get_last_index] fails, [_get_last_index] answers 0 and the first
    item of the batch is given index 1; but the batch is not appended:
    building the row of that item reads [content_type.value] on a [str],
    and [create_content_batch] raises the storage error for the
    [AttributeError], after the one failed call to the sheets client and
    with the sheet as it was. *)
Theorem C9_failed_read_then_no_row_is_appended (env : Env) (w : World)
    (item : ContentItem) (items : list ContentItem) (msg : string) :
  sheets_failure env (sheet_calls w) = Some msg ->
  let res := create_content_batch env (item :: items) w in
  get_last_index env w = (Exec.Ret 0, counted w)
  /\ index (set_index (0 + 0 + 1) item) = 1
  /\ to_sheet_row (set_index (0 + 0 + 1) item) = inl attribute_error
  /\ rows_to_insert 0 0 (item :: items) = inl attribute_error
  /\ res = (Exec.Raise (mkExn GoogleSheetsError
              "Failed to create content: 'str' object has no attribute 'value'"),
            counted w)
  /\ sheet (snd res) = sheet w
  /\ sheet_calls (snd res) = S (sheet_calls w).
Proof.
  intros Hread. cbv zeta.
  assert (Hrun : create_content_batch env (item :: items) w
                 = (Exec.Raise (mkExn GoogleSheetsError
                      "Failed to create content: 'str' object has no attribute 'value'"),
                    counted w)).
  { unfold create_content_batch, Exec.try_except, Exec.bind at 1.
    rewrite (get_last_index_read_fails env w msg Hread). reflexivity. }
  rewrite Hrun.
  split; [exact (get_last_index_read_fails env w msg Hread)|].
  repeat split; reflexivity.
Qed.

Lemma C9_failed_read_witness :
  get_last_index first_read_fails (app_world None)
  = (Exec.Ret 0, counted (app_world None))
  /\ create_content_batch first_read_fails
       [new_item "a long enough prompt"; new_item "another long prompt"]
       (app_world None)
     = (Exec.Raise (mkExn GoogleSheetsError
          "Failed to create content: 'str' object has no attribute 'value'"),
        counted (app_world None))
  /\ records (sheet (snd (create_content_batch first_read_fails
                [new_item "a long enough prompt"; new_item "another long prompt"]
                (app_world None))))
     = records stored_sheet.
Proof.
  destruct (C9_failed_read_then_no_row_is_appended first_read_fails (app_world None)
              (new_item "a long enough prompt") [new_item "another long prompt"]
              "503 Service Unavailable" eq_refl) as (H1 & _ & _ & _ & H4 & H5 & _).
  split; [exact H1|]. split; [exact H4|]. rewrite H5. reflexivity.
Defined.


(** *** The log of AI invocations only grows *)

Lemma keeps_ret {A} (a : A) : keeps (Exec.ret a).
Proof. intros w x H. exact H. Qed.

Lemma keeps_raise {A} (e : exn) : keeps (@Exec.raise exn World A e).
Proof. intros w x H. exact H. Qed.

Lemma keeps_gets {A} (f : World -> A) : keeps (Exec.gets f).
Proof. intros w x H. exact H. Qed.

Lemma keeps_modify (f : World -> World) :
  (forall w, ai_calls (f w) = ai_calls w) -> keeps (Exec.modify f).
Proof. intros Hf w x H. cbn. rewrite Hf. exact H. Qed.

Lemma keeps_bind {A B} (m : Run A) (k : A -> Run B) :
  keeps m -> (forall a, keeps (k a)) -> keeps (Exec.bind m k).
Proof.
  intros Hm Hk w x H. unfold Exec.bind.
  specialize (Hm w x H). destruct (m w) as [[a|e] w1]; cbn in *.
  - apply Hk. exact Hm.
  - exact Hm.
Qed.

Lemma keeps_try_except {A} (body : Run A) (h : exn -> Run A) :
  keeps body -> (forall e, keeps (h e)) ->
  keeps (Exec.try_except body (fun e => Some (h e))).
Proof.
  intros Hb Hh w x H. unfold Exec.try_except.
  specialize (Hb w x H). destruct (body w) as [[a|e] w1]; cbn in *.
  - exact Hb.
  - apply Hh. exact Hb.
Qed.

Lemma keeps_try_finally {A} (body : Run A) (fin : Run unit) :
  keeps body -> keeps fin -> keeps (Exec.try_finally body fin).
Proof.
  intros Hb Hf w x H. unfold Exec.try_finally.
  specialize (Hb w x H). destruct (body w) as [r w1]. cbn in Hb.
  specialize (Hf w1 x Hb). destruct (fin w1) as [[u|e] w2]; exact Hf.
Qed.

Lemma keeps_for_each {A} (l : list A) (body : A -> Run unit) :
  (forall a, keeps (body a)) -> keeps (Exec.for_each l body).
Proof.
  intro Hb. induction l as [|a l IH]; cbn [Exec.for_each].
  - apply keeps_ret.
  - apply keeps_bind; [apply Hb|intros _; exact IH].
Qed.

Lemma keeps_log (c : AiCall) : keeps (log_ai_call c).
Proof. intros w x H. cbn. apply in_or_app. left. exact H. Qed.

Lemma keeps_of_result {A} (r : exn + A) : keeps (of_result r).
Proof. destruct r; [apply keeps_raise|apply keeps_ret]. Qed.

Lemma keeps_sheets_call (env : Env) : keeps (sheets_call env).
Proof.
  intros w x H. rewrite sheets_call_run.
  destruct (sheets_failure env (sheet_calls w)); exact H.
Qed.

Lemma keeps_notify (n : Notification) : keeps (notify n).
Proof. intros w x H. exact H. Qed.

Ltac keeps_step :=
  match goal with
  | |- keeps (Exec.ret _) => apply keeps_ret
  | |- keeps (Exec.raise _) => apply keeps_raise
  | |- keeps (Exec.gets _) => apply keeps_gets
  | |- keeps (Exec.modify _) => apply keeps_modify; intro; reflexivity
  | |- keeps (log_ai_call _) => apply keeps_log
  | |- keeps (of_result _) => apply keeps_of_result
  | |- keeps (sheets_call _) => apply keeps_sheets_call
  | |- keeps (notify _) => apply keeps_notify
  | |- keeps (Exec.bind _ _) => apply keeps_bind; [|intro]
  | |- keeps (Exec.try_except _ _) => apply keeps_try_except; [|intro]
  | |- keeps (Exec.try_finally _ _) => apply keeps_try_finally
  | |- keeps (Exec.for_each _ _) => apply keeps_for_each; intro
  | |- keeps (if ?b then _ else _) => destruct b
  | |- keeps (match ?x with _ => _ end) => destruct x
  end.

Ltac keeps_all := repeat keeps_step.

Lemma keeps_update_cell (env : Env) (row : Z) (c : Column) (v : string) :
  keeps (update_cell env row c v).
Proof. unfold update_cell. keeps_all. Qed.

Lemma keeps_get_all_content (env : Env) (use_cache : bool) :
  keeps (get_all_content env use_cache).
Proof.
  unfold get_all_content, reraise_as, get_all_records. keeps_all.
Qed.

Lemma keeps_create_content_batch (env : Env) (items : list ContentItem) :
  keeps (create_content_batch env items).
Proof.
  unfold create_content_batch, reraise_as, get_last_index, append_rows, invalidate_cache.
  keeps_all; apply keeps_get_all_content.
Qed.

Lemma keeps_generate_images (env : Env) (items : list ContentItem) :
  keeps (generate_images_for_content env items).
Proof.
  unfold generate_images_for_content, reraise_as, image_service_generate,
    update_image_data, reraise_as, invalidate_cache.
  keeps_all; apply keeps_update_cell.
Qed.

Lemma keeps_generate_captions (env : Env) (items : list ContentItem) :
  keeps (generate_captions_for_content env items).
Proof.
  unfold generate_captions_for_content, content_service_caption,
    update_caption_data, reraise_as, invalidate_cache.
  keeps_all; apply keeps_update_cell.
Qed.

Lemma keeps_generate_stories (env : Env) (loc : LocationData) (count : Z) :
  keeps (generate_stories env loc count).
Proof.
  unfold generate_stories, reraise_as, content_service_batch, content_request.
  keeps_all.
  - apply keeps_create_content_batch.
  - apply keeps_generate_images.
Qed.

(** *** A failed read of the backlog *)

(** [get_non_posted_content_counts] never raises. *)
Lemma counts_never_raise (env : Env) (w : World) :
  exists c w', get_non_posted_content_counts env w = (Exec.Ret c, w').
Proof.
  unfold get_non_posted_content_counts, Exec.try_except, Exec.bind at 1.
  destruct (get_all_content env true w) as [[items|e] w1].
  - eexists _, _. reflexivity.
  - eexists _, _. reflexivity.
Qed.

Lemma counts_read_fails (env : Env) (w : World) (msg : string) :
  is_cache_valid env w = false ->
  sheets_failure env (sheet_calls w) = Some msg ->
  get_non_posted_content_counts env w = (Exec.Ret (mkCounts 0 0 0 0), counted w).
Proof.
  intros Hc Hf.
  unfold get_non_posted_content_counts, Exec.try_except, Exec.bind at 1.
  rewrite (get_all_content_read_fails env true w msg); [reflexivity| |exact Hf].
  rewrite Hc. reflexivity.
Qed.

Lemma reach_bind {A B} (m : Run A) (k : A -> Run B) (w w1 : World) (a : A) (x : AiCall) :
  m w = (Exec.Ret a, w1) ->
  In x (ai_calls (snd (k a w1))) ->
  In x (ai_calls (snd (Exec.bind m k w))).
Proof. intros Hm Hk. unfold Exec.bind. rewrite Hm. exact Hk. Qed.

Lemma reach_bind_first {A B} (m : Run A) (k : A -> Run B) (w : World) (x : AiCall) :
  (forall a, keeps (k a)) ->
  In x (ai_calls (snd (m w))) ->
  In x (ai_calls (snd (Exec.bind m k w))).
Proof.
  intros Hk Hm. unfold Exec.bind. destruct (m w) as [[a|e] w1]; cbn in *.
  - apply Hk. exact Hm.
  - exact Hm.
Qed.

Lemma reach_try_except {A} (body : Run A) (h : exn -> Run A) (w : World) (x : AiCall) :
  (forall e, keeps (h e)) ->
  In x (ai_calls (snd (body w))) ->
  In x (ai_calls (snd (Exec.try_except body (fun e => Some (h e)) w))).
Proof.
  intros Hh Hb. unfold Exec.try_except. destruct (body w) as [[a|e] w1]; cbn in *.
  - exact Hb.
  - apply Hh. exact Hb.
Qed.

Lemma reach_try_finally {A} (body : Run A) (fin : Run unit) (w : World) (x : AiCall) :
  keeps fin ->
  In x (ai_calls (snd (body w))) ->
  In x (ai_calls (snd (Exec.try_finally body fin w))).
Proof.
  intros Hf Hb. unfold Exec.try_finally. destruct (body w) as [r w1]. cbn in Hb.
  specialize (Hf w1 x Hb). destruct (fin w1) as [[u|e] w2]; exact Hf.
Qed.

Lemma resolve_location_returns (loc : option LocationData) (w : World) :
  location_resolves loc w = true ->
  exists l w1, resolve_location loc w = (Exec.Ret l, w1) /\ same_store w w1.
Proof.
  unfold location_resolves, resolve_location, same_store.
  destruct loc as [l|].
  - intros _. exists l, w. repeat split.
  - unfold get_current_location, Exec.try_except, Exec.bind, Exec.gets.
    destruct (location_file w) as [content|] eqn:Hfile.
    + intro Hne. apply negb_true_iff in Hne.
      cbn [is_some Exec.ret]. rewrite Hfile. cbn [or_empty]. rewrite Hne.
      destruct (contains "," (strip content)).
      * destruct (split_once "," (strip content)) as [|n [|c r]];
          eexists _, w; repeat split.
      * eexists _, w. repeat split.
    + intros _. cbn [is_some].
      eexists (mkLocation "Paris" (Some "France")), _.
      split; [vm_compute; reflexivity|]. repeat split.
Qed.

(** With the lock free, a location that resolves, a failed read of the
    backlog, a post threshold of at least 1 and a number of posts that a
    request accepts (1 to 10), the workflow asks the content service for a
    batch of posts. *)
Lemma workflow_generates_after_failed_read (env : Env) (loc : option LocationData)
    (post_count story_count : Z) (w : World) (msg : string) :
  fst (is_process_running w) = Exec.Ret false ->
  location_resolves loc w = true ->
  is_cache_valid env w = false ->
  sheets_failure env (sheet_calls w) = Some msg ->
  1 <= max_non_posted_instagram_posts env ->
  1 <= post_count <= 10 ->
  In (GenerateContentBatch POST post_count)
     (ai_calls (snd (run_full_content_generation env loc post_count story_count w))).
Proof.
  intros Hfree Hloc Hc Hf Hmax Hcount.
  unfold run_full_content_generation.
  apply reach_try_except; [intro e; keeps_all|].
  unfold is_process_running, Exec.gets in Hfree. cbn [fst] in Hfree.
  injection Hfree as Hfree.
  eapply reach_bind; [unfold is_process_running, Exec.gets; rewrite Hfree; reflexivity|].
  cbv iota.
  eapply reach_bind; [reflexivity|].
  apply reach_try_finally; [unfold set_process_running; keeps_all|].
  eapply reach_bind; [reflexivity|].
  change (match loc with
          | Some l => Exec.ret l
          | None => get_current_location
          end) with (resolve_location loc).
  match goal with
  | |- context [Exec.bind (resolve_location loc) _ ?w2] =>
      destruct (resolve_location_returns loc w2 Hloc) as (l & w3 & Hres & Hs & Hn & Ht & Ha)
  end.
  eapply reach_bind; [exact Hres|].
  eapply reach_bind.
  { apply (counts_read_fails env w3 msg).
    - unfold is_cache_valid in *. rewrite Ht. exact Hc.
    - rewrite Hn. exact Hf. }
  cbn [posts].
  replace (0 <? max_non_posted_instagram_posts env) with true
    by (symmetry; apply Z.ltb_lt; lia).
  apply reach_bind_first.
  { intro u. keeps_all. apply keeps_generate_stories. }
  unfold generate_posts, reraise_as.
  apply reach_try_except; [intro e; keeps_all|].
  eapply reach_bind.
  { unfold content_request.
    replace ((1 <=? post_count) && (post_count <=? 10)) with true
      by (symmetry; apply andb_true_iff; split; apply Z.leb_le; lia).
    reflexivity. }
  apply reach_bind_first.
  { intro items. keeps_all.
    - apply keeps_create_content_batch.
    - apply keeps_generate_images.
    - apply keeps_generate_captions. }
  unfold content_service_batch.
  eapply reach_bind; [reflexivity|].
  apply keeps_of_result. cbn. apply in_or_app. right. left. reflexivity.
Qed.

(** A number of posts that a request refuses: nothing is asked of the
    content service for posts. *)
Lemma generate_posts_refused (env : Env) (loc : LocationData) (count : Z) (w : World) :
  count < 1 \/ 10 < count ->
  generate_posts env loc count w
  = (Exec.Raise (mkExn WorkflowError
                   ("Post generation failed: " ++ request_error env count)%string), w).
Proof.
  intros Hcount. unfold generate_posts, Exec.try_except, Exec.bind at 1, content_request.
  replace ((1 <=? count) && (count <=? 10)) with false; [reflexivity|].
  symmetry. apply andb_false_iff.
  destruct Hcount; [left; apply Z.leb_gt|right; apply Z.leb_gt]; lia.
Qed.

(** C10 (a failed read of the backlog). [get_non_posted_content_counts]
    never raises; when its read of the store fails it answers with the
    four counts at 0, as it does for a store without records; and the
    workflow, the lock being free, its location resolving, the post
    threshold being at least 1 (the settings require it) and the number
    of posts being one a request accepts (1 to 10; the default is 4), then
    goes on to ask the content service for a new batch of posts. For any
    other number of posts the request is refused and [_generate_posts]
    raises before the service is called. *)
Theorem C10_failed_read_counts_as_empty_backlog (env : Env) (w : World) :
  (exists c w', get_non_posted_content_counts env w = (Exec.Ret c, w'))
  /\ (forall msg,
        is_cache_valid env w = false ->
        sheets_failure env (sheet_calls w) = Some msg ->
        fst (get_non_posted_content_counts env w) = Exec.Ret (mkCounts 0 0 0 0)
        /\ (forall loc post_count story_count,
              fst (is_process_running w) = Exec.Ret false ->
              location_resolves loc w = true ->
              1 <= max_non_posted_instagram_posts env ->
              1 <= post_count <= 10 ->
              In (GenerateContentBatch POST post_count)
                 (ai_calls (snd (run_full_content_generation env loc
                                   post_count story_count w)))))
  /\ (is_cache_valid env w = false ->
      sheets_failure env (sheet_calls w) = None ->
      records (sheet w) = [] ->
      fst (get_non_posted_content_counts env w) = Exec.Ret (mkCounts 0 0 0 0))
  /\ (forall loc post_count,
        post_count < 1 \/ 10 < post_count ->
        generate_posts env loc post_count w
        = (Exec.Raise (mkExn WorkflowError
             ("Post generation failed: " ++ request_error env post_count)%string), w)).
Proof.
  split; [apply counts_never_raise|]. split; [|split].
  - intros msg Hc Hf. split.
    + rewrite (counts_read_fails env w msg Hc Hf). reflexivity.
    + intros loc pc sc Hfree Hloc Hmax Hcount.
      exact (workflow_generates_after_failed_read env loc pc sc w msg
               Hfree Hloc Hc Hf Hmax Hcount).
  - intros Hc Hok Hempty.
    unfold get_non_posted_content_counts, Exec.try_except, Exec.bind at 1.
    unfold get_all_content, Exec.try_except, Exec.bind at 1, Exec.gets at 1.
    rewrite Hc. cbn [andb]. unfold Exec.bind at 1. unfold get_all_records, Exec.bind at 1.
    rewrite sheets_call_run, Hok.
    unfold Exec.gets. cbn [sheet counted]. rewrite Hempty. reflexivity.
  - intros loc pc Hcount. now apply generate_posts_refused.
Qed.

Lemma C10_failed_read_witness :
  fst (get_non_posted_content_counts first_read_fails (app_world None))
  = Exec.Ret (mkCounts 0 0 0 0)
  /\ In (GenerateContentBatch POST 4)
        (ai_calls (snd (run_full_content_generation first_read_fails None 4 2
                          (app_world None)))).
Proof.
  destruct (C10_failed_read_counts_as_empty_backlog first_read_fails (app_world None))
    as (_ & H & _).
  destruct (H "503 Service Unavailable" eq_refl eq_refl) as (H1 & H3).
  split; [exact H1|].
  apply H3; [reflexivity|reflexivity|vm_compute; discriminate|lia].
Defined.

End RepositoryFacts.

(** *** More on the OpenAI client *)

Module ClientFacts.

Import PyStr OpenAI OpenAISpec Runs OpenAIFacts.
Local Open Scope list_scope.

(** The retry loop started at attempt [max_retries - r] with [r >= 1]
    iterations left: between 1 and [r] invocations, one sleep between two
    invocations and none after the last, the adaptive delay untouched, and
    the loop never ends without a result. *)
Lemma make_api_call_loop_effects (env : Env) : forall (r : nat) (attempt : Z) (w : World),
  attempt + Z.of_nat (S r) = max_retries ->
  let res := make_api_call_loop env (S r) attempt w in
  (calls w + 1 <= calls (snd res) <= calls w + S r)%nat
  /\ (List.length (sleeps (snd res)) + 1 + calls w
      = List.length (sleeps w) + calls (snd res))%nat
  /\ rate_limit_delay (snd res) = rate_limit_delay w
  /\ fst res <> Exec.Ret None.
Proof.
  induction r as [|r IH]; intros attempt w Hinv; cbv zeta;
    rewrite make_api_call_loop_step.
  - assert (Hlast : (attempt =? max_retries - 1) = true) by (apply Z.eqb_eq; lia).
    rewrite Hlast.
    destruct (api_func env (calls w)) as [e|content]; [destruct (cls e)|];
      cbn; repeat split; try reflexivity; try lia; try discriminate.
  - assert (Hmore : (attempt =? max_retries - 1) = false) by (apply Z.eqb_neq; lia).
    rewrite Hmore.
    assert (Hnext := IH (attempt + 1) (slept (backoff attempt) (called w))
                        ltac:(lia)).
    cbv zeta in Hnext. destruct Hnext as (Hc & Ht & Hd & Hn).
    cbn [calls sleeps rate_limit_delay slept called] in Hc, Ht, Hd.
    rewrite length_app in Ht. cbn [List.length] in Ht.
    destruct (api_func env (calls w)) as [e|content]; [destruct (cls e)|];
      try (cbn; repeat split; try reflexivity; try lia; discriminate);
      (split; [lia|]; split; [lia|]; split; [exact Hd|exact Hn]).
Qed.

(** What a completion request leaves behind, by the outcome of the retry
    loop. *)
Lemma generate_completion_by_outcome (env : Env) (w : World) :
  let res := make_api_call env (slept (rate_limit_delay w) w) in
  let w1 := snd res in
  generate_completion env w
  = match fst res with
    | Exec.Ret (Some (Content content)) =>
        (Exec.Ret (strip content),
         mkWorld (calls w1) (sleeps w1) (relaxed (rate_limit_delay w1)))
    | Exec.Ret (Some (Malformed error)) =>
        (Exec.Raise (mkExn OpenAIError ("API call failed: " ++ error)%string),
         mkWorld (calls w1) (sleeps w1) (relaxed (rate_limit_delay w1)))
    | Exec.Ret None =>
        (Exec.Raise (mkExn OpenAIError
           ("API call failed: " ++ "'NoneType' object has no attribute 'choices'")%string),
         mkWorld (calls w1) (sleeps w1) (relaxed (rate_limit_delay w1)))
    | Exec.Raise e =>
        match cls e with
        | RateLimitError =>
            (Exec.Raise (mkExn TypeError (duplicate_keyword env)),
             mkWorld (calls w1) (sleeps w1) (backed_off (rate_limit_delay w1)))
        | AuthenticationError =>
            (Exec.Raise (mkExn TypeError (duplicate_keyword env)), w1)
        | InvalidRequestError =>
            (Exec.Raise (mkExn OpenAIError ("Invalid request: " ++ str e)%string), w1)
        | _ => (Exec.Raise (mkExn OpenAIError ("API call failed: " ++ str e)%string), w1)
        end
    end.
Proof.
  cbv zeta. rewrite generate_completion_unfold.
  unfold Exec.try_except, Exec.bind at 1.
  destruct (make_api_call env (slept (rate_limit_delay w) w))
    as [[[[content|error]|]|e] w1];
    cbn [fst snd]; try reflexivity.
  destruct (cls e); reflexivity.
Qed.

(** The loop of a request, with what it leaves. *)
Lemma request_loop_effects (env : Env) (w : World) :
  let res := make_api_call env (slept (rate_limit_delay w) w) in
  (calls w + 1 <= calls (snd res) <= calls w + 3)%nat
  /\ (List.length (sleeps (snd res)) + calls w
      = List.length (sleeps w) + calls (snd res))%nat
  /\ rate_limit_delay (snd res) = rate_limit_delay w
  /\ fst res <> Exec.Ret None.
Proof.
  pose proof (make_api_call_loop_effects env 2 0 (slept (rate_limit_delay w) w) eq_refl)
    as H.
  cbv zeta in H |- *.
  change (make_api_call_loop env 3 0) with (make_api_call env) in H.
  destruct H as (Hc & Ht & Hd & Hn).
  cbn [calls sleeps rate_limit_delay slept] in Hc, Ht, Hd. rewrite length_app in Ht.
  cbn [List.length] in Ht.
  split; [lia|]. split; [lia|]. split; [exact Hd|exact Hn].
Qed.

(** A completion request makes one, two or three API invocations,
    whatever the API answers, and sleeps once before the first and once
    between two invocations: between one and three sleeps. *)
Theorem completion_makes_one_to_three_invocations (env : Env) (w : World) :
  let w' := snd (generate_completion env w) in
  (calls w + 1 <= calls w' <= calls w + 3)%nat
  /\ (List.length (sleeps w') + calls w = List.length (sleeps w) + calls w')%nat.
Proof.
  cbv zeta. rewrite generate_completion_by_outcome. cbv zeta.
  destruct (request_loop_effects env w) as (Hc & Ht & _ & _).
  destruct (make_api_call env (slept (rate_limit_delay w) w))
    as [[[[content|error]|]|e] w1];
    cbn [fst snd] in *; [| | |destruct (cls e)]; cbn [calls sleeps snd]; split; lia.
Qed.


Lemma delay_by_outcome (env : Env) (w : World) :
  let d := rate_limit_delay w in
  let d' := rate_limit_delay (snd (generate_completion env w)) in
  d' = relaxed d \/ d' = backed_off d \/ d' = d.
Proof.
  cbv zeta. rewrite generate_completion_by_outcome. cbv zeta.
  destruct (request_loop_effects env w) as (_ & _ & Hd & Hn).
  destruct (make_api_call env (slept (rate_limit_delay w) w))
    as [[[[content|error]|]|e] w1];
    cbn [fst snd] in *.
  - cbn [rate_limit_delay]. rewrite Hd. auto.
  - cbn [rate_limit_delay]. rewrite Hd. auto.
  - now elim Hn.
  - destruct (cls e); cbn [fst snd rate_limit_delay cls]; rewrite ?Hd; auto.
Qed.

Lemma relaxed_in_range (d : Q) :
  (1 # 2 <= d <= 60)%Q -> (1 # 2 <= relaxed d <= 60)%Q.
Proof.
  intros [Hlo Hhi]. unfold relaxed.
  destruct (Qle_bool (d * (9 # 10)) (1 # 2)) eqn:E.
  - split; lra.
  - assert (Hn : ~ (d * (9 # 10) <= 1 # 2)%Q)
      by (intro H; apply Qle_bool_iff in H; congruence).
    split; lra.
Qed.

Lemma backed_off_in_range (d : Q) :
  (1 # 2 <= d <= 60)%Q -> (1 # 2 <= backed_off d <= 60)%Q.
Proof.
  intros [Hlo Hhi]. unfold backed_off.
  destruct (Qle_bool 60 (d * 2)) eqn:E.
  - split; lra.
  - assert (Hn : ~ (60 <= d * 2)%Q)
      by (intro H; apply Qle_bool_iff in H; congruence).
    split; lra.
Qed.

(** The adaptive delay never leaves the interval from half a second to a
    minute: if it lies there before a completion request, it lies there
    after it, whatever the API answered. *)
Theorem adaptive_delay_stays_in_range (env : Env) (w : World) :
  (1 # 2 <= rate_limit_delay w <= 60)%Q ->
  (1 # 2 <= rate_limit_delay (snd (generate_completion env w)) <= 60)%Q.
Proof.
  intros Hr. pose proof (delay_by_outcome env w) as H. cbv zeta in H.
  destruct H as [-> | [-> | ->]].
  - now apply relaxed_in_range.
  - now apply backed_off_in_range.
  - exact Hr.
Qed.

Lemma adaptive_delay_range_witness :
  (1 # 2 <= rate_limit_delay
              (snd (generate_completion always_rate_limited (mkWorld 0 [] 40))) <= 60)%Q.
Proof.
  apply adaptive_delay_stays_in_range. cbn. split; lra.
Defined.

(** A server error ([APIError] or [Timeout]) on each of the three attempts:
    the request is retried after 1 and 2 seconds and then fails with the
    client's [OpenAIError] naming the three attempts and the last error;
    the adaptive delay is left as it was. *)
Theorem server_errors_are_retried_then_wrapped
  (env : Env) (w : World) (e0 e1 e2 : exn) :
  api_func env (calls w) = inl e0 ->
  api_func env (S (calls w)) = inl e1 ->
  api_func env (S (S (calls w))) = inl e2 ->
  (cls e0 = APIError \/ cls e0 = Timeout) ->
  (cls e1 = APIError \/ cls e1 = Timeout) ->
  (cls e2 = APIError \/ cls e2 = Timeout) ->
  generate_completion env w
  = (Exec.Raise (mkExn OpenAIError
       ("API call failed: [OPENAI_API_ERROR] API error after 3 attempts: "
        ++ message e2)%string),
     mkWorld (calls w + 3) (sleeps w ++ [rate_limit_delay w; 1%Q; 2%Q])
             (rate_limit_delay w)).
Proof.
  intros H0 H1 H2 C0 C1 C2.
  rewrite generate_completion_by_outcome. cbv zeta.
  unfold make_api_call. change (Z.to_nat max_retries) with 3%nat.
  destruct e0 as [c0 m0], e1 as [c1 m1], e2 as [c2 m2]. cbn [cls message] in *.
  rewrite make_api_call_loop_step. cbn [calls slept called]. rewrite H0. cbn [cls].
  change (0 =? max_retries - 1) with false.
  destruct C0 as [-> | ->]; cbv iota;
    (rewrite make_api_call_loop_step; cbn [calls slept called]; rewrite H1; cbn [cls];
     change (0 + 1 =? max_retries - 1) with false;
     destruct C1 as [-> | ->]; cbv iota;
     (rewrite make_api_call_loop_step; cbn [calls slept called]; rewrite H2; cbn [cls];
      change (0 + 1 + 1 =? max_retries - 1) with true;
      destruct C2 as [-> | ->]; cbv iota; cbn [fst snd cls str message];
      unfold called, slept; cbn [calls sleeps rate_limit_delay];
      rewrite <- !app_assoc; cbn [app];
      replace (calls w + 3)%nat with (S (S (S (calls w)))) by lia;
      reflexivity)).
Qed.

Lemma server_errors_witness :
  generate_completion
    (mkEnv (fun n => inl (mkExn (if Nat.even n then APIError else Timeout) "overloaded"))
           keyword_twice)
    fresh_client
  = (Exec.Raise (mkExn OpenAIError
       "API call failed: [OPENAI_API_ERROR] API error after 3 attempts: overloaded"),
     mkWorld 3 [1%Q; 1%Q; 2%Q] 1).
Proof.
  apply (server_errors_are_retried_then_wrapped
           (mkEnv (fun n => inl (mkExn (if Nat.even n then APIError else Timeout)
                                       "overloaded"))
                  keyword_twice)
           fresh_client
           (mkExn APIError "overloaded") (mkExn Timeout "overloaded")
           (mkExn APIError "overloaded"));
    try reflexivity; cbn; auto.
Defined.

(** An error of the API that is neither a rate limit nor a server error is
    not retried: the request makes one invocation and sleeps only its
    pacing delay, at whichever point of the client's life it is made. *)
Theorem other_errors_are_not_retried (env : Env) (w : World) (e : exn) :
  api_func env (calls w) = inl e ->
  cls e <> RateLimitError -> cls e <> APIError -> cls e <> Timeout ->
  let res := generate_completion env w in
  (exists e', fst res = Exec.Raise e')
  /\ snd res = mkWorld (S (calls w)) (sleeps w ++ [rate_limit_delay w])
                       (rate_limit_delay w).
Proof.
  intros H0 N1 N2 N3. cbv zeta.
  rewrite generate_completion_by_outcome. cbv zeta.
  unfold make_api_call. change (Z.to_nat max_retries) with 3%nat.
  rewrite make_api_call_loop_step. cbn [calls slept called]. rewrite H0.
  destruct (cls e) eqn:C; try congruence; cbn [fst snd]; rewrite C;
    (split; [eexists; reflexivity|reflexivity]).
Qed.

Lemma other_errors_witness :
  let res := generate_completion bad_credentials (mkWorld 7 [1%Q] 2) in
  (exists e', fst res = Exec.Raise e')
  /\ snd res = mkWorld 8 [1%Q; 2%Q] 2.
Proof.
  apply (other_errors_are_not_retried bad_credentials (mkWorld 7 [1%Q] 2)
           (mkExn AuthenticationError "Incorrect API key"));
    [reflexivity| | |]; cbn; discriminate.
Defined.

(** The connection test never raises: it answers [True] exactly when its
    test completion returned, after one to three API invocations, and
    [False] on every failure. *)
Theorem validate_connection_never_raises (env : Env) (w : World) :
  let res := validate_connection env w in
  fst res = Exec.Ret (match fst (generate_completion env w) with
                      | Exec.Ret _ => true
                      | Exec.Raise _ => false
                      end)
  /\ snd res = snd (generate_completion env w)
  /\ (calls w + 1 <= calls (snd res) <= calls w + 3)%nat.
Proof.
  assert (Hrun : validate_connection env w
                 = (Exec.Ret (match fst (generate_completion env w) with
                              | Exec.Ret _ => true
                              | Exec.Raise _ => false
                              end),
                    snd (generate_completion env w))).
  { unfold validate_connection, Exec.try_except, Exec.bind.
    destruct (generate_completion env w) as [[content|e] w1]; reflexivity. }
  cbv zeta. rewrite Hrun. cbn [fst snd]. split; [reflexivity|]. split; [reflexivity|].
  rewrite generate_completion_by_outcome. cbv zeta.
  destruct (request_loop_effects env w) as (Hc & _).
  destruct (make_api_call env (slept (rate_limit_delay w) w))
    as [[[[content|error]|]|e] w1];
    cbn [fst snd] in *; [| | |destruct (cls e)]; cbn [calls snd]; lia.
Qed.

End ClientFacts.

(** *** More on the repository and the workflow *)

Module StoreFacts.

Import PyStr Gsheet Inputs Runs App AppSpec StoreSpec Stores RepositoryFacts.
Local Open Scope list_scope.

(** *** Exception classes *)

Lemma raises_only_reraise {A} (c : ErrorClass) (f : string -> string) (m : Run A) :
  raises_only c (Exec.try_except m (reraise_as c f)).
Proof.
  intros w e. unfold Exec.try_except, reraise_as.
  destruct (m w) as [[a|e0] w1]; cbn; [discriminate|].
  intros H. injection H as <-. reflexivity.
Qed.

Lemma raises_only_bind {A B} (c : ErrorClass) (m : Run A) (k : A -> Run B) :
  raises_only c m -> (forall a, raises_only c (k a)) ->
  raises_only c (Exec.bind m k).
Proof.
  intros Hm Hk w e. unfold Exec.bind.
  specialize (Hm w). destruct (m w) as [[a|e0] w1]; cbn in *.
  - apply Hk.
  - intros H. injection H as <-. now apply Hm.
Qed.

Lemma raises_only_ret {A} (c : ErrorClass) (a : A) : raises_only c (Exec.ret a).
Proof. intros w e; discriminate. Qed.

(** Every operation of the repository fails only with the storage error:
    whatever the sheets client or a parser raises is translated. *)
Theorem repository_raises_only_storage_errors (env : Env) :
  (forall use_cache, raises_only GoogleSheetsError (get_all_content env use_cache))
  /\ (forall a p t, raises_only GoogleSheetsError (get_content_by_status env a p t))
  /\ raises_only GoogleSheetsError (get_approved_posts_for_posting env)
  /\ raises_only GoogleSheetsError (get_approved_stories_for_posting env)
  /\ (forall items, raises_only GoogleSheetsError (create_content_batch env items))
  /\ (forall item, raises_only GoogleSheetsError (update_content_item env item))
  /\ (forall items posted_at,
        raises_only GoogleSheetsError (mark_content_as_posted env items posted_at))
  /\ (forall item url, raises_only GoogleSheetsError (update_image_data env item url))
  /\ (forall item text,
        raises_only GoogleSheetsError (update_caption_data env item text)).
Proof.
  assert (Hall : forall use_cache,
            raises_only GoogleSheetsError (get_all_content env use_cache))
    by (intro; apply raises_only_reraise).
  assert (Hby : forall a p t,
            raises_only GoogleSheetsError (get_content_by_status env a p t))
    by (intros; apply raises_only_bind; [apply Hall|intro; apply raises_only_ret]).
  split; [exact Hall|]. split; [exact Hby|].
  split; [apply raises_only_bind; [apply Hby|intro; apply raises_only_ret]|].
  split; [apply raises_only_bind; [apply Hby|intro; apply raises_only_ret]|].
  repeat split; intros; apply raises_only_reraise.
Qed.

(** *** The cache *)

Lemma get_all_content_reads (env : Env) (use_cache : bool) (w : World) :
  use_cache && is_cache_valid env w = false ->
  sheets_failure env (sheet_calls w) = None ->
  get_all_content env use_cache w
  = (Exec.Ret (parse_rows env (records (sheet w)) 0),
     with_cache (Some (parse_rows env (records (sheet w)) 0)) (Some (utcnow env))
                (counted w)).
Proof.
  intros Hc Hf.
  unfold get_all_content, Exec.try_except, Exec.bind at 1, Exec.gets at 1.
  rewrite Hc. unfold Exec.bind at 1. unfold get_all_records, Exec.bind at 1.
  rewrite sheets_call_run, Hf. reflexivity.
Qed.

Lemma get_all_content_cached (env : Env) (w : World) :
  is_cache_valid env w = true ->
  get_all_content env true w
  = (Exec.Ret (match cache w with Some l => l | None => [] end), w).
Proof.
  intros Hc.
  unfold get_all_content, Exec.try_except, Exec.bind at 1, Exec.gets at 1.
  rewrite Hc. reflexivity.
Qed.

(** A read that reached the sheet is remembered for 300 seconds: a read
    made less than 300 seconds later returns the same items without calling
    the sheets client, whether or not the client would answer; a read made
    300 seconds later or more calls the client again. *)
Theorem read_is_cached_for_five_minutes
    (env : Env) (use_cache : bool) (w : World) (later : Z) :
  use_cache && is_cache_valid env w = false ->
  sheets_failure env (sheet_calls w) = None ->
  let first := get_all_content env use_cache w in
  let second := get_all_content (at_time later env) true (snd first) in
  sheet_calls (snd first) = S (sheet_calls w)
  /\ (later - utcnow env < 300 ->
      second = first)
  /\ (300 <= later - utcnow env ->
      sheet_calls (snd second) = S (S (sheet_calls w))).
Proof.
  intros Hc Hf. cbv zeta.
  rewrite (get_all_content_reads env use_cache w Hc Hf). cbn [fst snd].
  split; [reflexivity|]. split.
  - intros Hfresh. rewrite get_all_content_cached.
    + reflexivity.
    + unfold is_cache_valid. cbn. apply Z.ltb_lt. exact Hfresh.
  - intros Hold.
    assert (Hstale : true && is_cache_valid (at_time later env)
              (with_cache (Some (parse_rows env (records (sheet w)) 0))
                 (Some (utcnow env)) (counted w)) = false)
      by (unfold is_cache_valid; cbn; apply Z.ltb_ge; exact Hold).
    destruct (sheets_failure env (S (sheet_calls w))) as [msg|] eqn:Hnext.
    + rewrite (get_all_content_read_fails _ true _ msg Hstale); [reflexivity|].
      exact Hnext.
    + rewrite (get_all_content_reads _ true _ Hstale); [reflexivity|]. exact Hnext.
Qed.

Lemma read_is_cached_witness :
  let first := get_all_content first_read_fails false
                 (App.mkWorld stored_sheet 1 None None None None [] []) in
  sheet_calls (snd first) = 2%nat
  /\ get_all_content (at_time 1299 first_read_fails) true (snd first) = first
  /\ sheet_calls (snd (get_all_content (at_time 1300 first_read_fails) true (snd first)))
     = 3%nat.
Proof.
  destruct (read_is_cached_for_five_minutes first_read_fails false
              (App.mkWorld stored_sheet 1 None None None None [] []) 1299
              eq_refl eq_refl) as (H1 & H2 & _).
  destruct (read_is_cached_for_five_minutes first_read_fails false
              (App.mkWorld stored_sheet 1 None None None None [] []) 1300
              eq_refl eq_refl) as (_ & _ & H3).
  cbv zeta. split; [exact H1|]. split; [apply H2; cbn; lia|apply H3; cbn; lia].
Defined.


(** *** Writes *)

Lemma update_cell_result (env : Env) (row : Z) (c : Column) (v : string) (w : World) :
  update_cell env row c v w
  = match sheets_failure env (sheet_calls w) with
    | Some msg => (Exec.Raise (mkExn OtherException msg), counted w)
    | None =>
        if row <? 1 then (Exec.Raise (mkExn OtherException "APIError"), counted w)
        else (Exec.Ret tt, with_sheet (write_cell row c v) (counted w))
    end.
Proof.
  unfold update_cell, Exec.bind. rewrite sheets_call_run.
  destruct (sheets_failure env (sheet_calls w)); [reflexivity|].
  destruct (row <? 1); reflexivity.
Qed.

Lemma on_return_try {A} (m : Run A) (h : exn -> option (Run A)) (P : World -> Prop) :
  (forall e, exists e', h e = Some (Exec.raise e')) ->
  on_return m P -> on_return (Exec.try_except m h) P.
Proof.
  intros Hh Hm w b w'. unfold Exec.try_except.
  destruct (m w) as [[a|e] w1] eqn:Em.
  - intros H. injection H as <- <-. exact (Hm w a w1 Em).
  - destruct (Hh e) as [e' ->]. discriminate.
Qed.

Lemma on_return_invalidate : on_return invalidate_cache cache_cleared.
Proof. intros w a w' H. injection H as _ <-. split; reflexivity. Qed.

Lemma on_return_bind_last {A B} (m : Run A) (k : A -> Run B) (P : World -> Prop) :
  (forall a, on_return (k a) P) -> on_return (Exec.bind m k) P.
Proof.
  intros Hk w b w'. unfold Exec.bind.
  destruct (m w) as [[a|e] w1]; [apply Hk|discriminate].
Qed.

Lemma reraise_raises {A} (c : ErrorClass) (f : string -> string) (e : exn) :
  exists e', @reraise_as A c f e = Some (Exec.raise e').
Proof. eexists. reflexivity. Qed.

Lemma cleared_cache_is_invalid (env : Env) (w : World) :
  cache_cleared w -> is_cache_valid env w = false.
Proof. intros [_ Ht]. unfold is_cache_valid. now rewrite Ht. Qed.

(** Every write of the repository that returns has dropped the cached
    items and their time stamp, so that the next read calls the sheets
    client. (A batch that is not empty and an item update do not return
    for validated items: building the row raises first.) *)
Theorem successful_writes_clear_the_cache (env : Env) :
  (forall item items,
     on_return (create_content_batch env (item :: items)) cache_cleared)
  /\ (forall item, on_return (update_content_item env item) cache_cleared)
  /\ (forall items posted_at,
        on_return (mark_content_as_posted env items posted_at) cache_cleared)
  /\ (forall item url, on_return (update_image_data env item url) cache_cleared)
  /\ (forall item text, on_return (update_caption_data env item text) cache_cleared).
Proof.
  split; [|split; [|split; [|split]]].
  - intros item items. unfold create_content_batch.
    apply on_return_try; [intro; apply reraise_raises|].
    apply on_return_bind_last. intros last_index.
    apply on_return_bind_last. intros rows.
    apply on_return_bind_last. intros _.
    intros w a w' H. injection H as _ <-. split; reflexivity.
  - intros item. unfold update_content_item.
    apply on_return_try; [intro; apply reraise_raises|].
    apply on_return_bind_last. intros row_data.
    apply on_return_bind_last. intros _.
    intros w a w' H. injection H as _ <-. split; reflexivity.
  - intros items posted_at. unfold mark_content_as_posted.
    apply on_return_try; [intro; apply reraise_raises|].
    apply on_return_bind_last. intros _. apply on_return_invalidate.
  - intros item url. unfold update_image_data.
    apply on_return_try; [intro; apply reraise_raises|].
    do 3 (apply on_return_bind_last; intros _). apply on_return_invalidate.
  - intros item text. unfold update_caption_data.
    apply on_return_try; [intro; apply reraise_raises|].
    apply on_return_bind_last. intros _. apply on_return_invalidate.
Qed.









(** *** Items ready for posting *)

Lemma filter_by_status_filter (a : ApprovalStatus) (p : PostingStatus) (t : ContentType)
    (l : list ContentItem) :
  filter_by_status a (Some p) (Some t) l
  = filter (fun item => ApprovalStatus_eqb (approval_status item) a
                        && PostingStatus_eqb (posting_status item) p
                        && ContentType_eqb (content_type item) t) l.
Proof.
  induction l as [|item l IH]; [reflexivity|].
  cbn [filter_by_status filter]. rewrite IH.
  destruct (ApprovalStatus_eqb (approval_status item) a),
           (PostingStatus_eqb (posting_status item) p),
           (ContentType_eqb (content_type item) t); reflexivity.
Qed.

Lemma filter_filter {A} (f g : A -> bool) (l : list A) :
  filter g (filter f l) = filter (fun x => f x && g x) l.
Proof.
  induction l as [|x l IH]; [reflexivity|].
  cbn [filter]. destruct (f x); cbn [filter andb]; rewrite IH; reflexivity.
Qed.

Lemma In_firstn {A} (n : nat) (l : list A) (x : A) : In x (firstn n l) -> In x l.
Proof.
  intros H. rewrite <- (firstn_skipn n l). apply in_or_app. now left.
Qed.

Lemma stories_for_posting_run (env : Env) (w : World) :
  get_approved_stories_for_posting env w
  = match get_all_content env true w with
    | (Exec.Ret all_content, w') =>
        (Exec.Ret (firstn 4 (filter (ready STORY) all_content)), w')
    | (Exec.Raise e, w') => (Exec.Raise e, w')
    end.
Proof.
  unfold get_approved_stories_for_posting, get_content_by_status, Exec.bind, Exec.ret.
  destruct (get_all_content env true w) as [[all_content|e] w1]; [|reflexivity].
  rewrite filter_by_status_filter, filter_filter. reflexivity.
Qed.

Lemma posts_for_posting_run (env : Env) (w : World) :
  get_approved_posts_for_posting env w
  = match get_all_content env true w with
    | (Exec.Ret all_content, w') =>
        (Exec.Ret (filter (fun item => ready POST item && is_some (caption item))
                          all_content), w')
    | (Exec.Raise e, w') => (Exec.Raise e, w')
    end.
Proof.
  unfold get_approved_posts_for_posting, get_content_by_status, Exec.bind, Exec.ret.
  destruct (get_all_content env true w) as [[all_content|e] w1]; [|reflexivity].
  rewrite filter_by_status_filter, filter_filter. f_equal. f_equal.
  apply filter_ext. intros item. unfold ready. now rewrite andb_assoc.
Qed.

(** The items handed to the poster are read from the content in the order
    of the sheet: the stories are the first four ready stories (approved,
    not posted, with an image URL), the posts are the ready posts that
    carry a caption; a failed read is passed on as the storage error. *)
Theorem items_for_posting_are_ready (env : Env) (w : World) :
  match get_all_content env true w with
  | (Exec.Ret all_content, w') =>
      get_approved_stories_for_posting env w
      = (Exec.Ret (firstn 4 (filter (ready STORY) all_content)), w')
      /\ get_approved_posts_for_posting env w
         = (Exec.Ret (filter (fun item => ready POST item && is_some (caption item))
                             all_content), w')
      /\ (List.length (firstn 4 (filter (ready STORY) all_content)) <= 4)%nat
      /\ Forall (fun item => ready STORY item = true)
                (firstn 4 (filter (ready STORY) all_content))
  | (Exec.Raise e, w') =>
      get_approved_stories_for_posting env w = (Exec.Raise e, w')
      /\ get_approved_posts_for_posting env w = (Exec.Raise e, w')
      /\ cls e = GoogleSheetsError
  end.
Proof.
  rewrite stories_for_posting_run, posts_for_posting_run.
  assert (Hcls : raises_only GoogleSheetsError (get_all_content env true))
    by apply raises_only_reraise.
  specialize (Hcls w).
  destruct (get_all_content env true w) as [[all_content|e] w1] eqn:Hall; cbn [fst] in *.
  - split; [reflexivity|]. split; [reflexivity|]. split.
    + rewrite length_firstn. lia.
    + apply Forall_forall. intros item Hin.
      apply In_firstn, filter_In in Hin. tauto.
  - split; [reflexivity|]. split; [reflexivity|]. now apply Hcls.
Qed.

Example stories_for_posting_example :
  fst (get_approved_stories_for_posting sheets_up (store_world story_sheet))
  = Exec.Ret (list_slice (filter (ready STORY)
                            (parse_rows sheets_up (records story_sheet) 0)) 0 4)
  /\ map index (filter (ready STORY) (parse_rows sheets_up (records story_sheet) 0))
     = [0; 2; 3; 4; 5].
Proof. split; reflexivity. Qed.

(** *** The backlog counts *)

Lemma set_add_length_le (a : string) (l : list string) :
  (List.length (set_add string_dec a l) <= S (List.length l))%nat.
Proof.
  induction l as [|b l IH]; cbn [set_add List.length]; [lia|].
  destruct (string_dec a b); cbn [List.length]; lia.
Qed.

Lemma tally_invariant (l : list ContentItem) : forall (t : Tally) (k : nat),
  NoDup (post_group_ids t) -> NoDup (approved_post_group_ids t) ->
  incl (approved_post_group_ids t) (post_group_ids t) ->
  0 <= n_approved_stories t <= n_stories t ->
  Z.of_nat (List.length (post_group_ids t)) + n_stories t <= Z.of_nat k ->
  let t' := fold_left tally_item l t in
  NoDup (post_group_ids t') /\ NoDup (approved_post_group_ids t')
  /\ incl (approved_post_group_ids t') (post_group_ids t')
  /\ 0 <= n_approved_stories t' <= n_stories t'
  /\ Z.of_nat (List.length (post_group_ids t')) + n_stories t'
     <= Z.of_nat (k + List.length l).
Proof.
  induction l as [|item l IH]; intros t k Hp Ha Hi Hs Hk; cbv zeta.
  - cbn [fold_left List.length]. rewrite Nat.add_0_r. tauto.
  - cbn [fold_left List.length].
    replace (k + S (List.length l))%nat with (S k + List.length l)%nat by lia.
    apply IH; unfold tally_item;
      destruct (not_posted item); try assumption; try lia;
      destruct (content_type item); cbn [post_group_ids approved_post_group_ids
                                          n_stories n_approved_stories];
      try assumption.
    + now apply set_add_nodup.
    + destruct (approved_with_image item); [now apply set_add_nodup|assumption].
    + destruct (approved_with_image item).
      * intros x Hx. apply set_add_elim in Hx. apply set_add_intro.
        destruct Hx as [->|Hx]; [now left|right; now apply Hi].
      * intros x Hx. apply set_add_intro. right. now apply Hi.
    + destruct (approved_with_image item); lia.
    + pose proof (set_add_length_le (group_id item) (post_group_ids t)). lia.
    + lia.
Qed.

(** The backlog counts are consistent: the approved posts (groups) are
    among the posts, the approved stories among the stories, no count is
    negative and posts and stories together do not exceed the number of
    items read; the counting itself never raises. *)
Theorem backlog_counts_are_consistent (env : Env) (w : World) :
  exists c w',
    get_non_posted_content_counts env w = (Exec.Ret c, w')
    /\ 0 <= approved_posts c <= posts c
    /\ 0 <= approved_stories c <= stories c
    /\ match fst (get_all_content env true w) with
       | Exec.Ret all_content =>
           posts c + stories c <= Z.of_nat (List.length all_content)
       | Exec.Raise _ => posts c = 0 /\ stories c = 0
       end.
Proof.
  unfold get_non_posted_content_counts, Exec.try_except, Exec.bind at 1.
  destruct (get_all_content env true w) as [[items|e] w1].
  - eexists _, _. split; [reflexivity|].
    destruct (tally_invariant items (mkTally [] [] 0 0) 0
                (NoDup_nil _) (NoDup_nil _) (incl_refl _) ltac:(cbn; lia)
                ltac:(cbn; lia)) as (Hp & Ha & Hi & Hs & Hk).
    unfold count_content. cbn [posts stories approved_posts approved_stories fst].
    pose proof (NoDup_incl_length Ha Hi) as Hle.
    cbn [Nat.add] in Hk. repeat split; lia.
  - eexists _, _. split; [reflexivity|]. cbn. repeat split; lia.
Qed.


(** *** Indices and rows *)

Lemma from_sheet_row_index (env : Env) (row : Row) (i : Z) (item : ContentItem) :
  from_sheet_row env row i = Some item -> index item = i.
Proof.
  unfold from_sheet_row.
  destruct (ContentType_of (r_type row)); [|discriminate].
  destruct (ApprovalStatus_of (r_approved row)); [|discriminate].
  match goal with |- (if ?c then _ else _) = _ -> _ => destruct c end;
    [|discriminate].
  intros H. injection H as <-. reflexivity.
Qed.

Lemma parse_rows_positions (env : Env) (rows : list Row) : forall (i : Z) (item : ContentItem),
  In item (parse_rows env rows i) ->
  exists row,
    nth_error rows (Z.to_nat (index item - i)) = Some row
    /\ i <= index item
    /\ from_sheet_row env row (index item) = Some item.
Proof.
  induction rows as [|row rows IH]; intros i item Hin; [destruct Hin|].
  cbn [parse_rows] in Hin.
  assert (Hrest : In item (parse_rows env rows (i + 1)) ->
                  exists row0,
                    nth_error (row :: rows) (Z.to_nat (index item - i)) = Some row0
                    /\ i <= index item
                    /\ from_sheet_row env row0 (index item) = Some item).
  { intros H. destruct (IH _ _ H) as (row0 & Hn & Hi & Hf).
    exists row0. split; [|split; [lia|exact Hf]].
    replace (Z.to_nat (index item - i)) with (S (Z.to_nat (index item - (i + 1))))
      by lia.
    exact Hn. }
  destruct (match r_index row with Some z => z =? 0 | None => true end);
    [now apply Hrest|].
  destruct (from_sheet_row env row i) as [it|] eqn:Hf; [|now apply Hrest].
  destruct Hin as [->|Hin]; [|now apply Hrest].
  pose proof (from_sheet_row_index env row i item Hf) as Hi.
  exists row. rewrite Hi, Z.sub_diag. split; [reflexivity|]. split; [lia|exact Hf].
Qed.

(** An item read from the sheet carries as its index the position of its
    record among the records, counted from 0, whatever the index cell of
    the record holds. *)
Theorem read_items_are_numbered_by_position
    (env : Env) (use_cache : bool) (w w' : World)
    (all_content : list ContentItem) (item : ContentItem) :
  use_cache && is_cache_valid env w = false ->
  get_all_content env use_cache w = (Exec.Ret all_content, w') ->
  In item all_content ->
  0 <= index item < Z.of_nat (List.length (records (sheet w)))
  /\ exists row,
       nth_error (records (sheet w)) (Z.to_nat (index item)) = Some row
       /\ from_sheet_row env row (index item) = Some item.
Proof.
  intros Hc Hrun Hin.
  destruct (sheets_failure env (sheet_calls w)) as [msg|] eqn:Hf.
  - rewrite (get_all_content_read_fails env use_cache w msg Hc Hf) in Hrun.
    discriminate.
  - rewrite (get_all_content_reads env use_cache w Hc Hf) in Hrun.
    injection Hrun as <- _.
    destruct (parse_rows_positions env _ 0 item Hin) as (row & Hn & Hi & Hfrom).
    rewrite Z.sub_0_r in Hn.
    assert (Hlt : (Z.to_nat (index item) < List.length (records (sheet w)))%nat)
      by (apply nth_error_Some; rewrite Hn; discriminate).
    split; [lia|]. exists row. split; assumption.
Qed.

Lemma read_items_witness :
  let item := nth 1 (parse_rows sheets_up (records story_sheet) 0) (new_item "") in
  0 <= index item < 6
  /\ exists row,
       nth_error (records story_sheet) (Z.to_nat (index item)) = Some row
       /\ from_sheet_row sheets_up row (index item) = Some item.
Proof.
  apply (read_items_are_numbered_by_position sheets_up false
           (store_world story_sheet)
           (snd (get_all_content sheets_up false (store_world story_sheet)))
           (parse_rows sheets_up (records story_sheet) 0)
           (nth 1 (parse_rows sheets_up (records story_sheet) 0) (new_item ""))).
  - reflexivity.
  - reflexivity.
  - vm_compute. right. left. reflexivity.
Defined.


Lemma set_record_cell_other (c : Column) (v : string) (rows : list Row) :
  forall k j : nat,
  k <> j -> (j < List.length rows)%nat ->
  nth_error (set_record_cell k c v rows) j = nth_error rows j.
Proof.
  induction rows as [|r rows IH]; intros k j Hne Hj; cbn [List.length] in Hj; [lia|].
  destruct k as [|k], j as [|j]; cbn [set_record_cell nth_error];
    try reflexivity; try congruence.
  apply IH; [congruence|lia].
Qed.

Lemma set_record_cell_same (c : Column) (v : string) (rows : list Row) :
  forall k : nat,
  (k < List.length rows)%nat ->
  nth_error (set_record_cell k c v rows) k
  = option_map (set_cell c v) (nth_error rows k).
Proof.
  induction rows as [|r rows IH]; intros k Hk; cbn [List.length] in Hk; [lia|].
  destruct k as [|k]; cbn [set_record_cell nth_error]; [reflexivity|].
  apply IH. lia.
Qed.

Lemma set_record_cell_length (c : Column) (v : string) (rows : list Row) :
  forall k : nat,
  (k < List.length rows)%nat ->
  List.length (set_record_cell k c v rows) = List.length rows.
Proof.
  induction rows as [|r rows IH]; intros k Hk; cbn [List.length] in Hk; [lia|].
  destruct k as [|k]; cbn [set_record_cell List.length]; [reflexivity|].
  rewrite IH by lia. reflexivity.
Qed.

(** A write to the row above the record at position [j] leaves that
    record, and the number of records, as they were. *)
Lemma write_cell_above (j : nat) (c : Column) (v : string) (s : Sheet) :
  (j < List.length (records s))%nat ->
  nth_error (records (write_cell (Z.of_nat j + 1) c v s)) j = nth_error (records s) j
  /\ List.length (records (write_cell (Z.of_nat j + 1) c v s))
     = List.length (records s).
Proof.
  intros Hj. unfold write_cell. destruct j as [|k].
  - change (Z.of_nat 0 + 1 =? 1) with true. cbn [records]. split; reflexivity.
  - replace (Z.of_nat (S k) + 1 =? 1) with false by (symmetry; apply Z.eqb_neq; lia).
    replace (Z.to_nat (Z.of_nat (S k) + 1 - 2)) with k by lia.
    cbn [records]. split.
    + apply set_record_cell_other; lia.
    + apply set_record_cell_length. lia.
Qed.

Lemma update_caption_data_run (env : Env) (item : ContentItem) (text : string)
    (w : World) :
  sheets_failure env (sheet_calls w) = None ->
  0 <= index item ->
  update_caption_data env item text w
  = (Exec.Ret tt,
     with_cache None None
       (with_sheet (write_cell (index item + 1) Caption text) (counted w))).
Proof.
  intros Hf Hi. unfold update_caption_data, Exec.try_except, Exec.bind at 1.
  rewrite update_cell_result, Hf.
  replace (index item + 1 <? 1) with false by (symmetry; apply Z.ltb_ge; lia).
  reflexivity.
Qed.

Lemma update_image_data_run (env : Env) (item : ContentItem) (url : string)
    (w : World) :
  (forall n, (n < 3)%nat -> sheets_failure env (sheet_calls w + n) = None) ->
  0 <= index item ->
  exists w',
    update_image_data env item url w = (Exec.Ret tt, w')
    /\ sheet w'
       = write_cell (index item + 1) Generated_on (utcnow_text env)
           ((if negb (is_empty url)
             then write_cell (index item + 1) Hyperlink_image (hyperlink_formula url)
             else fun s => s)
              (write_cell (index item + 1) Image (image_formula url) (sheet w))).
Proof.
  intros Hf Hi.
  assert (Hrow : (index item + 1 <? 1) = false) by (apply Z.ltb_ge; lia).
  pose proof (Hf 0%nat ltac:(lia)) as H0. rewrite Nat.add_0_r in H0.
  pose proof (Hf 1%nat ltac:(lia)) as H1.
  pose proof (Hf 2%nat ltac:(lia)) as H2.
  replace (sheet_calls w + 1)%nat with (S (sheet_calls w)) in H1 by lia.
  replace (sheet_calls w + 2)%nat with (S (S (sheet_calls w))) in H2 by lia.
  unfold update_image_data, Exec.try_except, Exec.bind at 1.
  rewrite update_cell_result, H0, Hrow.
  unfold Exec.bind at 1.
  destruct (negb (is_empty url)).
  - rewrite update_cell_result. cbn [sheet_calls with_sheet counted].
    rewrite H1, Hrow. unfold Exec.bind at 1.
    rewrite update_cell_result. cbn [sheet_calls with_sheet counted].
    rewrite H2, Hrow. eexists. split; reflexivity.
  - cbn [Exec.ret]. unfold Exec.bind at 1.
    rewrite update_cell_result. cbn [sheet_calls with_sheet counted].
    rewrite H1, Hrow. eexists. split; reflexivity.
Qed.

(** An item read from the sheet carries the position of its record,
    counted from 0, and the repository addresses row [index + 1] for it,
    while its record is row [index + 2] of the sheet. The caption and the
    image data of a read item are therefore written one row above its
    record: into the header row for the first record, into the record
    before it for any other, and the item's own record is left as it
    was. *)
Theorem read_items_are_updated_one_row_above
    (env : Env) (use_cache : bool) (w w1 : World)
    (all_content : list ContentItem) (item : ContentItem) (text url : string) :
  use_cache && is_cache_valid env w = false ->
  get_all_content env use_cache w = (Exec.Ret all_content, w1) ->
  In item all_content ->
  (forall n, (n < 3)%nat -> sheets_failure env (sheet_calls w1 + n) = None) ->
  let j := Z.to_nat (index item) in
  let captioned := update_caption_data env item text w1 in
  let imaged := update_image_data env item url w1 in
  (exists row, nth_error (records (sheet w)) j = Some row
               /\ from_sheet_row env row (index item) = Some item)
  /\ fst captioned = Exec.Ret tt
  /\ sheet (snd captioned) = write_cell (index item + 1) Caption text (sheet w)
  /\ nth_error (records (sheet (snd captioned))) j = nth_error (records (sheet w)) j
  /\ match j with
     | O => header (sheet (snd captioned)) = set_cell Caption text (header (sheet w))
            /\ records (sheet (snd captioned)) = records (sheet w)
     | S k => header (sheet (snd captioned)) = header (sheet w)
              /\ nth_error (records (sheet (snd captioned))) k
                 = option_map (set_cell Caption text) (nth_error (records (sheet w)) k)
     end
  /\ fst imaged = Exec.Ret tt
  /\ sheet (snd imaged)
     = write_cell (index item + 1) Generated_on (utcnow_text env)
         ((if negb (is_empty url)
           then write_cell (index item + 1) Hyperlink_image (hyperlink_formula url)
           else fun s => s)
            (write_cell (index item + 1) Image (image_formula url) (sheet w)))
  /\ nth_error (records (sheet (snd imaged))) j = nth_error (records (sheet w)) j.
Proof.
  intros Hc Hrun Hin Hup.
  destruct (sheets_failure env (sheet_calls w)) as [msg|] eqn:Hf.
  { rewrite (get_all_content_read_fails env use_cache w msg Hc Hf) in Hrun.
    discriminate. }
  rewrite (get_all_content_reads env use_cache w Hc Hf) in Hrun.
  injection Hrun as <- <-.
  destruct (parse_rows_positions env _ 0 item Hin) as (row & Hn & Hi & Hfrom).
  rewrite Z.sub_0_r in Hn.
  assert (Hlt : (Z.to_nat (index item) < List.length (records (sheet w)))%nat)
    by (apply nth_error_Some; rewrite Hn; discriminate).
  assert (Hrow : index item + 1 = Z.of_nat (Z.to_nat (index item)) + 1) by lia.
  cbv zeta.
  pose proof (Hup 0%nat ltac:(lia)) as H0. rewrite Nat.add_0_r in H0.
  rewrite (update_caption_data_run env item text _ H0 Hi).
  destruct (update_image_data_run env item url _ Hup Hi) as (w2 & -> & Hsheet).
  cbn [fst snd sheet with_cache with_sheet counted] in *.
  split; [exists row; split; assumption|].
  split; [reflexivity|]. split; [reflexivity|].
  split; [rewrite Hrow; now apply write_cell_above|].
  split.
  - unfold write_cell. rewrite Hrow.
    destruct (Z.to_nat (index item)) as [|k] eqn:Hk.
    + change (Z.of_nat 0 + 1 =? 1) with true. cbn [header records].
      split; reflexivity.
    + replace (Z.of_nat (S k) + 1 =? 1) with false
        by (symmetry; apply Z.eqb_neq; lia).
      replace (Z.to_nat (Z.of_nat (S k) + 1 - 2)) with k by lia.
      cbn [header records]. split; [reflexivity|].
      apply set_record_cell_same. lia.
  - split; [reflexivity|]. split; [exact Hsheet|].
    rewrite Hsheet, Hrow.
    set (s1 := write_cell _ Image _ (sheet w)).
    destruct (write_cell_above (Z.to_nat (index item)) Image (image_formula url)
                (sheet w) Hlt) as (Hn1 & Hl1).
    fold s1 in Hn1, Hl1.
    set (s2 := (if negb (is_empty url) then _ else _) s1).
    assert (H2 : nth_error (records s2) (Z.to_nat (index item))
                 = nth_error (records (sheet w)) (Z.to_nat (index item))
                 /\ List.length (records s2) = List.length (records (sheet w))).
    { unfold s2. destruct (negb (is_empty url)).
      - destruct (write_cell_above (Z.to_nat (index item)) Hyperlink_image
                    (hyperlink_formula url) s1 ltac:(lia)) as (Hn2 & Hl2).
        split; [now rewrite Hn2|now rewrite Hl2].
      - split; assumption. }
    destruct H2 as (Hn2 & Hl2).
    destruct (write_cell_above (Z.to_nat (index item)) Generated_on (utcnow_text env)
                s2 ltac:(lia)) as (Hn3 & _).
    now rewrite Hn3.
Qed.

Lemma read_items_update_witness :
  let item := nth 1 (parse_rows sheets_up (records story_sheet) 0) (new_item "") in
  let w1 := snd (get_all_content sheets_up false (store_world story_sheet)) in
  let captioned := update_caption_data sheets_up item "Bonjour" w1 in
  index item = 1
  /\ fst captioned = Exec.Ret tt
  /\ nth_error (records (sheet (snd captioned))) 1 = nth_error (records story_sheet) 1
  /\ nth_error (records (sheet (snd captioned))) 0
     = option_map (set_cell Caption "Bonjour") (nth_error (records story_sheet) 0).
Proof.
  cbv zeta.
  pose proof (read_items_are_updated_one_row_above sheets_up false
           (store_world story_sheet)
           (snd (get_all_content sheets_up false (store_world story_sheet)))
           (parse_rows sheets_up (records story_sheet) 0)
           (nth 1 (parse_rows sheets_up (records story_sheet) 0) (new_item ""))
           "Bonjour" "https://drive/img") as H.
  cbv zeta in H.
  destruct H as (_ & Hret & _ & Hown & Habove & _).
  - reflexivity.
  - reflexivity.
  - vm_compute. right. left. reflexivity.
  - intros n _. reflexivity.
  - split; [reflexivity|]. split; [exact Hret|]. split; [exact Hown|].
    exact (proj2 Habove).
Defined.


(** *** The generation loops of the workflow *)

Lemma preserves_ret {A B} (proj : World -> B) (a : A) : preserves proj (Exec.ret a).
Proof. intro w. reflexivity. Qed.

Lemma preserves_raise {A B} (proj : World -> B) (e : exn) :
  preserves proj (@Exec.raise exn World A e).
Proof. intro w. reflexivity. Qed.

Lemma preserves_modify {B} (proj : World -> B) (f : World -> World) :
  (forall w, proj (f w) = proj w) -> preserves proj (Exec.modify f).
Proof. intros Hf w. apply Hf. Qed.

Lemma preserves_bind {A C B} (proj : World -> B) (m : Run A) (k : A -> Run C) :
  preserves proj m -> (forall a, preserves proj (k a)) ->
  preserves proj (Exec.bind m k).
Proof.
  intros Hm Hk w. unfold Exec.bind. specialize (Hm w).
  destruct (m w) as [[a|e] w1]; cbn [snd] in *; [|exact Hm].
  rewrite Hk. exact Hm.
Qed.

Lemma preserves_try_except {A B} (proj : World -> B) (m : Run A)
    (h : exn -> option (Run A)) :
  preserves proj m ->
  (forall e, match h e with Some k => preserves proj k | None => True end) ->
  preserves proj (Exec.try_except m h).
Proof.
  intros Hm Hh w. unfold Exec.try_except. specialize (Hm w).
  destruct (m w) as [[a|e] w1]; cbn [snd] in *; [exact Hm|].
  specialize (Hh e). destruct (h e) as [k|]; [|exact Hm].
  rewrite Hh. exact Hm.
Qed.

Lemma preserves_update_cell (env : Env) (row : Z) (c : Column) (v : string) :
  preserves ai_calls (update_cell env row c v).
Proof.
  intro w. rewrite update_cell_result.
  destruct (sheets_failure env (sheet_calls w)); [reflexivity|].
  destruct (row <? 1); reflexivity.
Qed.

Lemma preserves_update_image_data (env : Env) (item : ContentItem) (url : string) :
  preserves ai_calls (update_image_data env item url).
Proof.
  unfold update_image_data. apply preserves_try_except.
  - apply preserves_bind; [apply preserves_update_cell|intros _].
    apply preserves_bind; [|intros _].
    + destruct (negb (is_empty url));
        [apply preserves_update_cell|apply preserves_ret].
    + apply preserves_bind; [apply preserves_update_cell|intros _].
      apply preserves_modify. reflexivity.
  - intro e. apply preserves_raise.
Qed.

Lemma try_except_returns {A} (m : Run A) (h : exn -> option (Run A))
    (w w' : World) (a : A) :
  m w = (Exec.Ret a, w') -> Exec.try_except m h w = (Exec.Ret a, w').
Proof. intros H. unfold Exec.try_except. now rewrite H. Qed.

(** One iteration of the image loop: it returns, and logs one image
    request when the item has a prompt. *)
Lemma image_iteration (env : Env) (item : ContentItem) (w : World) :
  exists w',
    (if is_some (prompt item) then
       Exec.try_except
         (Exec.bind (image_service_generate env item) (fun image_url =>
            update_image_data env (set_image image_url (utcnow_text env) item) image_url))
         (fun _ => Some (Exec.ret tt))
     else Exec.ret tt) w = (Exec.Ret tt, w')
    /\ ai_calls w'
       = ai_calls w ++ (if has_prompt item then [GenerateImage (index item)] else []).
Proof.
  unfold has_prompt. destruct (is_some (prompt item)).
  - unfold Exec.try_except, Exec.bind at 1.
    unfold image_service_generate, Exec.bind at 1.
    cbn [log_ai_call Exec.modify]. unfold of_result.
    destruct (generate_image_for_content env item) as [e|url].
    + eexists. split; reflexivity.
    + cbn [Exec.ret].
      match goal with
      | |- context [update_image_data env ?it url ?w0] =>
          pose proof (preserves_update_image_data env it url w0) as Hp;
          destruct (update_image_data env it url w0) as [[[]|e] w1]
      end; cbn [snd] in Hp; eexists; (split; [reflexivity|exact Hp]).
  - eexists. split; [reflexivity|]. cbn. now rewrite app_nil_r.
Qed.

Lemma image_loop_run
    (env : Env) (content_items : list ContentItem) (w : World) :
  exists w',
    generate_images_for_content env content_items w = (Exec.Ret tt, w')
    /\ ai_calls w'
       = ai_calls w
         ++ map (fun item => GenerateImage (index item))
                (filter has_prompt content_items).
Proof.
  assert (Hloop : forall items w0, exists w',
            Exec.for_each items (fun item =>
              if is_some (prompt item) then
                Exec.try_except
                  (Exec.bind (image_service_generate env item) (fun image_url =>
                     update_image_data env
                       (set_image image_url (utcnow_text env) item) image_url))
                  (fun _ => Some (Exec.ret tt))
              else Exec.ret tt) w0 = (Exec.Ret tt, w')
            /\ ai_calls w'
               = ai_calls w0
                 ++ map (fun item => GenerateImage (index item))
                        (filter has_prompt items)).
  { induction items as [|item items IH]; intro w0.
    - exists w0. split; [reflexivity|]. cbn. now rewrite app_nil_r.
    - cbn [Exec.for_each]. unfold Exec.bind at 1.
      destruct (image_iteration env item w0) as (w1 & Hrun & Hlog).
      rewrite Hrun. destruct (IH w1) as (w2 & Hrest & Hlog2).
      exists w2. split; [exact Hrest|].
      rewrite Hlog2, Hlog. cbn [filter].
      destruct (has_prompt item); cbn [map app]; rewrite <- app_assoc; reflexivity. }
  destruct (Hloop content_items w) as (w' & Hrun & Hlog).
  exists w'. split; [|exact Hlog].
  unfold generate_images_for_content. apply try_except_returns. exact Hrun.
Qed.


(** The generation loops of the workflow never raise. The image loop
    requests one image for every item that has a prompt, in order, whether
    or not the requests or the writes before it failed. The caption loop
    requests no caption and writes nothing: its test of the content type
    reads [.value] on the text a validated item holds, outside the inner
    [try]; the attribute error of the first group ends the loop and is
    caught by the outer handler, which only logs it. *)
Theorem generation_loops_never_raise
    (env : Env) (content_items : list ContentItem) (w : World) :
  (exists w',
     generate_images_for_content env content_items w = (Exec.Ret tt, w')
     /\ ai_calls w'
        = ai_calls w
          ++ map (fun item => GenerateImage (index item))
                 (filter has_prompt content_items))
  /\ generate_captions_for_content env content_items w = (Exec.Ret tt, w).
Proof.
  split; [apply image_loop_run|].
  unfold generate_captions_for_content, Exec.try_except.
  destruct (first_of_groups [] content_items) as [|first_item rest];
    reflexivity.
Qed.

End StoreFacts.

(** *** More on the posting scan *)

Module ScanFacts.

Import PyStr Gsheet Posting PostingSpec ScanSpec Inputs PostingFacts.
Local Open Scope list_scope.

Lemma scan_fold_locked (main : string) (content : list Row) : forall st,
  group_id st <> "" ->
  scan main content st
  = fold_left (take_row main) (filter (takes (group_id st)) (upto_blank content)) st.
Proof.
  induction content as [|row rest IH]; intros st Hg; [reflexivity|].
  cbn [scan upto_blank]. destruct (r_index row) as [i|] eqn:Hi; [|reflexivity].
  cbn [filter]. pose proof (selected_locked (group_id st) row Hg) as Hsel.
  destruct (takes (group_id st) row).
  - apply andb_true_iff in Hsel. destruct Hsel as [Hs Hm].
    apply negb_true_iff in Hm. rewrite Hs, Hm. cbn [fold_left].
    unfold take_row at 2. unfold index_of. rewrite Hi.
    destruct (accumulate_locked main i row st Hg) as (Ha & _ & _).
    rewrite IH by (rewrite Ha; exact Hg). rewrite Ha. reflexivity.
  - destruct (selected (group_id st) row); [|now apply IH].
    destruct (missing_values row); [now apply IH|discriminate].
Qed.

Lemma scan_fold_unlocked (main : string) (content : list Row) : forall st,
  group_id st = "" ->
  scan main content st = fold_left (take_row main) (taken_rows content) st.
Proof.
  induction content as [|row rest IH]; intros st Hg; [reflexivity|].
  unfold taken_rows, active_group. cbn [scan upto_blank].
  destruct (r_index row) as [i|] eqn:Hi; [|reflexivity].
  cbn [filter]. rewrite Hg. pose proof (selected_unlocked row) as Hsel.
  destruct (eligible row) eqn:He.
  - assert (Htk : takes (r_group_id row) row = true)
      by (unfold takes; rewrite He, String.eqb_refl; reflexivity).
    rewrite Htk.
    apply andb_true_iff in Hsel. destruct Hsel as [Hs Hm].
    apply negb_true_iff in Hm. rewrite Hs, Hm. cbn [fold_left].
    unfold take_row at 2. unfold index_of. rewrite Hi.
    destruct (accumulate_unlocked main i row st Hg) as (Ha & _ & _).
    rewrite scan_fold_locked
      by (rewrite Ha; now apply eligible_group_nonempty).
    rewrite Ha. reflexivity.
  - assert (Ht : forall g, takes g row = false)
      by (intro g0; unfold takes; rewrite He; reflexivity).
    rewrite Ht.
    assert (Hskip : (if selected "" row
                     then if missing_values row then scan main rest st
                          else scan main rest (accumulate main i row st)
                     else scan main rest st) = scan main rest st).
    { destruct (selected "" row); [|reflexivity].
      destruct (missing_values row); [reflexivity|discriminate]. }
    rewrite Hskip. apply (IH st Hg).
Qed.

Lemma fold_take_row (main : string) (rows : list Row) : forall st,
  let st' := fold_left (take_row main) rows st in
  image_urls st' = image_urls st ++ map url_of rows
  /\ indexes st' = indexes st ++ map index_of rows
  /\ caption st' = last_caption rows (caption st)
  /\ location st' = last_location main rows (location st).
Proof.
  induction rows as [|row rows IH]; intro st; cbv zeta.
  - cbn. rewrite !app_nil_r. auto.
  - cbn [fold_left map last_caption last_location].
    destruct (IH (take_row main st row)) as (H1 & H2 & H3 & H4).
    rewrite H1, H2, H3, H4. unfold take_row, accumulate, deferred.
    destruct (String.eqb (group_id st) ""); cbn [image_urls indexes caption location];
      rewrite <- !app_assoc; cbn [app];
      destruct (String.eqb (r_caption row) "-"); cbn [negb]; auto.
Qed.

(** The scan is a fold over the records it takes: the eligible records of
    the first eligible record's group above the first empty index. The
    post carries their images and indexes in order, the caption of the
    last of them that does not defer it (none when all of them hold ["-"])
    and the location tag of the last of them. *)
Theorem scan_folds_the_taken_rows (main_location : string) (content : list Row) :
  let st := scan main_location content scan_init in
  let taken := taken_rows content in
  st = fold_left (take_row main_location) taken scan_init
  /\ image_urls st = map url_of taken
  /\ indexes st = map index_of taken
  /\ caption st = last_caption taken ""
  /\ location st = last_location main_location taken ""
  /\ (forallb deferred taken = true -> caption st = "").
Proof.
  cbv zeta. rewrite (scan_fold_unlocked main_location content scan_init eq_refl).
  destruct (fold_take_row main_location (taken_rows content) scan_init)
    as (H1 & H2 & H3 & H4).
  cbn [image_urls indexes caption location scan_init app] in H1, H2, H3, H4.
  split; [reflexivity|]. split; [exact H1|]. split; [exact H2|].
  split; [exact H3|]. split; [exact H4|].
  intros Hd. rewrite H3. clear -Hd.
  induction (taken_rows content) as [|row rows IH]; [reflexivity|].
  cbn [forallb] in Hd. apply andb_true_iff in Hd. destruct Hd as [Hr Hrest].
  cbn [last_caption]. rewrite Hr. now apply IH.
Qed.


Lemma scan_fold_witness :
  let content := [post_row 0 "g" "-"; post_row 1 "h" "Hi #a"; post_row 2 "g" "-"] in
  caption (scan "Paris" content scan_init) = ""
  /\ indexes (scan "Paris" content scan_init) = [0; 2]
  /\ location (scan "Paris" content scan_init) = "Louvre".
Proof.
  destruct (scan_folds_the_taken_rows "Paris"
              [post_row 0 "g" "-"; post_row 1 "h" "Hi #a"; post_row 2 "g" "-"])
    as (_ & _ & Hi & _ & Hl & Hd).
  cbv zeta. split; [apply Hd; reflexivity|]. split; [exact Hi|exact Hl].
Defined.

(** A run that finds no eligible record above the first empty index
    calls no Poster and writes nothing to the sheet: it only sends the
    notice that there is nothing to post. *)
Theorem nothing_eligible_only_notifies (env : Env) (w : World) :
  filter eligible (upto_blank (records (sheet w))) = [] ->
  main_posting env w
  = (Exec.Ret tt,
     mkWorld (sheet w) (location_txt w) (notifications w ++ [nothing_to_post])
             (poster_calls w)).
Proof.
  intros Hnone. rewrite main_posting_run. cbv zeta.
  rewrite (scan_fold_unlocked (get_location w) (records (sheet w)) scan_init eq_refl).
  destruct (fold_take_row (get_location w) (taken_rows (records (sheet w))) scan_init)
    as (Hurls & _).
  rewrite Hurls. cbn [image_urls scan_init app].
  unfold taken_rows, active_group. rewrite Hnone.
  assert (Hempty : filter (takes "") (upto_blank (records (sheet w))) = []).
  { clear -Hnone. induction (upto_blank (records (sheet w))) as [|row rows IH];
      [reflexivity|].
    cbn [filter] in *. unfold takes at 1.
    destruct (eligible row); [discriminate|]. cbn [andb]. now apply IH. }
  rewrite Hempty. reflexivity.
Qed.

Lemma nothing_eligible_witness :
  main_posting poster_ok (posting_world generated_sheet)
  = (Exec.Ret tt,
     mkWorld generated_sheet "Paris" [nothing_to_post] []).
Proof.
  apply (nothing_eligible_only_notifies poster_ok (posting_world generated_sheet)).
  reflexivity.
Defined.

End ScanFacts.

(** *** Round trips through the sheet cells *)

Module RoundTripFacts.

Import PyStr Gsheet TextSpec PostingFacts.
Local Open Scope list_scope.

Lemma lacks_app (c : ascii) (a b : string) :
  lacks c (a ++ b)%string = lacks c a && lacks c b.
Proof.
  induction a as [|x a IH]; [reflexivity|].
  cbn [String.append lacks]. rewrite IH. now rewrite andb_assoc.
Qed.

Lemma prefix_app (a r : string) : String.prefix a (a ++ r)%string = true.
Proof.
  induction a as [|c a IH]; cbn [String.append String.prefix];
    [destruct r; reflexivity|].
  destruct (ascii_dec c c) as [_|Hn]; [exact IH|contradiction].
Qed.

(** A text that lacks a character of [old] does not start with [old]. *)
Lemma prefix_lacks (c : ascii) (old : string) : forall s : string,
  lacks c s = true -> lacks c old = false -> String.prefix old s = false.
Proof.
  induction old as [|a old IH]; intros s Hs Ho; [discriminate|].
  destruct s as [|b s]; [reflexivity|].
  cbn [String.prefix]. destruct (ascii_dec a b) as [->|_]; [|reflexivity].
  cbn [lacks] in Hs, Ho. apply andb_true_iff in Hs. destruct Hs as [Hb Hs].
  rewrite Hb in Ho. cbn [andb] in Ho. now apply IH.
Qed.

Lemma replace_go_absent (c : ascii) (old new : string) : forall s : string,
  lacks c s = true -> lacks c old = false -> replace_go old new s 0 = s.
Proof.
  induction s as [|x s IH]; intros Hs Ho; [reflexivity|].
  cbn [replace_go]. rewrite (prefix_lacks c old _ Hs Ho).
  cbn [lacks] in Hs. apply andb_true_iff in Hs. destruct Hs as [_ Hs].
  now rewrite IH.
Qed.

Lemma prefix_first_char (q x : ascii) (t s : string) :
  Ascii.eqb x q = false -> String.prefix (String q t) (String x s) = false.
Proof.
  intros Hx. cbn [String.prefix]. destruct (ascii_dec q x) as [->|_]; [|reflexivity].
  now rewrite Ascii.eqb_refl in Hx.
Qed.

Lemma replace_go_past (q : ascii) (t new : string) (r : string) : forall u : string,
  lacks q u = true ->
  replace_go (String q t) new (u ++ r)%string 0
  = (u ++ replace_go (String q t) new r 0)%string.
Proof.
  induction u as [|x u IH]; intros Hu; [reflexivity|].
  cbn [lacks] in Hu. apply andb_true_iff in Hu. destruct Hu as [Hx Hu].
  apply negb_true_iff in Hx.
  cbn [String.append replace_go]. rewrite (prefix_first_char q x t _ Hx).
  now rewrite IH.
Qed.

Lemma find_from_past (q : ascii) (t r : string) : forall (u : string) (i : Z),
  lacks q u = true ->
  find_from (String q t) (u ++ String q t ++ r)%string i = i + len u.
Proof.
  induction u as [|x u IH]; intros i Hu.
  - cbn [String.append]. change (String q (t ++ r)%string) with (String q t ++ r)%string.
    unfold find_from.
    destruct (String q t ++ r)%string eqn:E; [discriminate|].
    rewrite <- E. rewrite prefix_app. unfold len. cbn. lia.
  - cbn [lacks] in Hu. apply andb_true_iff in Hu. destruct Hu as [Hx Hu].
    apply negb_true_iff in Hx.
    cbn [String.append find_from]. rewrite (prefix_first_char q x t _ Hx).
    rewrite IH by exact Hu. unfold len. cbn [String.length]. lia.
Qed.

Lemma take_app (u r : string) : take (String.length u) (u ++ r)%string = u.
Proof.
  induction u as [|x u IH]; cbn [String.length String.append take].
  - destruct r; reflexivity.
  - now rewrite IH.
Qed.

Lemma length_append (a b : string) :
  String.length (a ++ b)%string = (String.length a + String.length b)%nat.
Proof. induction a as [|x a IH]; cbn; [reflexivity|now rewrite IH]. Qed.

Lemma replace_go_skip (old new X : string) : forall t : string,
  replace_go old new (t ++ X)%string (String.length t) = replace_go old new X 0.
Proof.
  induction t as [|x t IH]; [reflexivity|]. cbn [String.append String.length replace_go].
  exact IH.
Qed.

Lemma replace_go_at_occurrence (a : ascii) (t new X : string) :
  replace_go (String a t) new (String a t ++ X)%string 0
  = (new ++ replace_go (String a t) new X 0)%string.
Proof.
  cbn [String.append replace_go].
  change (String a (t ++ X)%string) with (String a t ++ X)%string.
  rewrite prefix_app.
  replace (String.length (String a t) - 1)%nat with (String.length t)
    by (cbn [String.length]; lia).
  now rewrite replace_go_skip.
Qed.

Lemma append_empty (s : string) : (s ++ "")%string = s.
Proof. induction s as [|x s IH]; cbn; [reflexivity|now rewrite IH]. Qed.

(** The posting scan reads back the URL of an image formula. *)
Lemma image_url_of_formula (url : string) :
  lacks quote_char url = true -> lacks paren_char url = true ->
  Posting.image_url_of (App.image_formula url) = url.
Proof.
  intros Hq.
  intros Hp. unfold Posting.image_url_of, App.image_formula, replace.
  assert (Hinner : replace_go ("=IMAGE(" ++ dq) ""
                     ("=IMAGE(" ++ dq ++ url ++ dq ++ ", 4, 120, 120)") 0
                   = (url ++ dq ++ ", 4, 120, 120)")%string).
  { change ("=IMAGE(" ++ dq)%string with (String "=" ("IMAGE(" ++ dq)%string).
    change ("=IMAGE(" ++ dq ++ url ++ dq ++ ", 4, 120, 120)")%string
      with (String "=" ("IMAGE(" ++ dq)%string
            ++ (url ++ dq ++ ", 4, 120, 120)"))%string.
    rewrite replace_go_at_occurrence. cbn [String.append].
    apply (replace_go_absent paren_char).
    - rewrite lacks_app, Hp. reflexivity.
    - reflexivity. }
  rewrite Hinner.
  change (dq ++ ", 4, 120, 120)")%string with (String quote_char ", 4, 120, 120)").
  rewrite (replace_go_past quote_char) by exact Hq.
  change (replace_go (String quote_char ", 4, 120, 120)") ""
            (String quote_char ", 4, 120, 120)") 0) with "".
  apply append_empty.
Qed.

(** The repository's parser reads back the URL of an image formula. *)
Lemma parse_image_url_formula (url : string) :
  lacks quote_char url = true -> url <> "" ->
  App.parse_image_url (App.image_formula url) = Some url.
Proof.
  intros Hq.
  intros Hne. unfold App.parse_image_url, App.image_formula.
  set (rest := (dq ++ ", 4, 120, 120)")%string).
  change ("=IMAGE(" ++ dq ++ url ++ rest)%string
    with (String "=" (String "I" (String "M" (String "A" (String "G" (String "E"
           (String "(" (String quote_char (url ++ rest)%string)))))))).
  set (cell := String "=" _).
  assert (Hempty : is_empty cell = false) by reflexivity.
  assert (Hcontains : App.contains "IMAGE(" cell = true) by reflexivity.
  assert (Hfind : find dq cell = 7)
    by (apply (find_from_past quote_char "" (url ++ rest) "=IMAGE(" 0 eq_refl)).
  rewrite Hempty, Hcontains, Hfind. cbn [negb andb].
  assert (Hend : find_at dq cell (7 + 1) = 8 + len url).
  { unfold find_at. change (drop (Z.to_nat (7 + 1)) cell) with (url ++ rest)%string.
    unfold rest. change dq with (String quote_char "").
    change (7 + 1) with 8.
    apply (find_from_past quote_char "" ", 4, 120, 120)" url 8 Hq). }
  rewrite Hend.
  assert (Hlen : 0 < len url).
  { destruct url; [congruence|]. unfold len. cbn [String.length]. lia. }
  replace ((0 <? 7 + 1) && (7 + 1 <? 8 + len url)) with true
    by (symmetry; apply andb_true_iff; split; apply Z.ltb_lt; lia).
  f_equal. unfold slice.
  assert (Hcell : len cell = 8 + len url + 15).
  { unfold len, cell. cbn [String.length]. rewrite length_append.
    unfold rest. cbn [String.length String.append dq chr]. lia. }
  unfold norm_bound. rewrite Hcell.
  replace (7 + 1 <? 0) with false by (symmetry; apply Z.ltb_ge; lia).
  replace (8 + len url <? 0) with false by (symmetry; apply Z.ltb_ge; lia).
  replace (Z.to_nat (Z.min (7 + 1) (8 + len url + 15))) with 8%nat by lia.
  replace (Z.to_nat (Z.min (8 + len url) (8 + len url + 15)) - 8)%nat
    with (String.length url) by (unfold len; lia).
  change (drop 8 cell) with (url ++ rest)%string.
  apply take_app.
Qed.

Lemma is_empty_false (s : string) : s <> "" -> is_empty s = false.
Proof. intros H. destruct s; [congruence|reflexivity]. Qed.

(** The image formula round trip. For a record whose image cell holds the
    formula the repository writes for a URL (not empty, without a double
    quote): the posting scan reads the URL back (when it has no opening
    parenthesis either); [from_sheet_row] parses the URL out of the
    formula, then refuses the whole record when the URL does not start
    with [http://] or [https://] (the validator of the image data raises),
    and otherwise, when the other cells of the record are accepted,
    returns an item whose image is that URL. *)
Theorem image_formula_round_trip
    (env : App.Env) (row : Row) (i : Z) (url : string) :
  lacks quote_char url = true ->
  url <> "" ->
  r_image row = App.image_formula url ->
  (lacks paren_char url = true -> Posting.image_url_of (r_image row) = url)
  /\ (App.starts_with_http url = false -> App.from_sheet_row env row i = None)
  /\ (forall item, App.from_sheet_row env row i = Some item ->
        App.image item = Some url /\ App.starts_with_http url = true)
  /\ (App.starts_with_http url = true ->
      App.ContentType_of (r_type row) <> None ->
      App.ApprovalStatus_of (r_approved row) <> None ->
      App.is_uuid env (r_group_id row) = true ->
      is_empty (r_prompt row) || (10 <=? len (strip (r_prompt row))) = true ->
      is_empty (r_caption row) || (1 <=? len (strip (r_caption row))) = true ->
      exists item, App.from_sheet_row env row i = Some item
                   /\ App.image item = Some url).
Proof.
  intros Hq Hne Himg.
  pose proof (parse_image_url_formula url Hq Hne) as Hparse.
  pose proof (is_empty_false url Hne) as Hempty.
  split; [intros Hp; rewrite Himg; now apply image_url_of_formula|].
  unfold App.from_sheet_row. rewrite Himg, Hparse, Hempty. cbn [orb].
  split; [|split].
  - intros Hhttp. rewrite Hhttp.
    destruct (App.ContentType_of (r_type row)); [|reflexivity].
    destruct (App.ApprovalStatus_of (r_approved row)); [|reflexivity].
    now rewrite andb_false_r.
  - intros item.
    destruct (App.ContentType_of (r_type row)); [|discriminate].
    destruct (App.ApprovalStatus_of (r_approved row)); [|discriminate].
    destruct (App.starts_with_http url).
    + match goal with |- (if ?c then _ else _) = _ -> _ => destruct c end;
        [|discriminate].
      intros H. injection H as <-. split; reflexivity.
    + rewrite andb_false_r. discriminate.
  - intros Hhttp Hty Hap Hid Hprompt Hcaption.
    destruct (App.ContentType_of (r_type row)); [|congruence].
    destruct (App.ApprovalStatus_of (r_approved row)); [|congruence].
    rewrite Hhttp, Hid, Hprompt, Hcaption. cbn [andb].
    eexists. split; reflexivity.
Qed.

Lemma image_formula_witness :
  let url := "https://drive.google.com/uc?export=view&id=1aB" in
  let row := mkRow (Some 1) "posts" "a long enough prompt" "Paris, France" "group-p"
               None (App.image_formula url) "" "" "y" "" "" in
  Posting.image_url_of (r_image row) = url
  /\ (exists item, App.from_sheet_row Stores.sheets_up row 0 = Some item
                   /\ App.image item = Some url)
  /\ App.from_sheet_row Stores.sheets_up
       (mkRow (Some 1) "posts" "a long enough prompt" "Paris, France" "group-p"
          None (App.image_formula "ftp://host/x.png") "" "" "y" "" "") 0
     = None.
Proof.
  cbv zeta.
  assert (Hftp := proj1 (proj2 (image_formula_round_trip Stores.sheets_up
              (mkRow (Some 1) "posts" "a long enough prompt" "Paris, France" "group-p"
                 None (App.image_formula "ftp://host/x.png") "" "" "y" "" "")
              0 "ftp://host/x.png" eq_refl ltac:(discriminate) eq_refl)) eq_refl).
  destruct (image_formula_round_trip Stores.sheets_up
              (mkRow (Some 1) "posts" "a long enough prompt" "Paris, France" "group-p"
                 None
                 (App.image_formula "https://drive.google.com/uc?export=view&id=1aB")
                 "" "" "y" "" "")
              0 "https://drive.google.com/uc?export=view&id=1aB"
              eq_refl ltac:(discriminate) eq_refl)
    as (Hscan & _ & _ & Hread).
  split; [apply Hscan; reflexivity|]. split; [|exact Hftp].
  apply Hread; try reflexivity; cbn; discriminate.
Defined.


Lemma find_from_absent (q : ascii) (t : string) : forall (s : string) (i : Z),
  lacks q s = true -> find_from (String q t) s i = -1.
Proof.
  induction s as [|x s IH]; intros i Hs; [reflexivity|].
  cbn [lacks] in Hs. apply andb_true_iff in Hs. destruct Hs as [Hx Hs].
  apply negb_true_iff in Hx.
  cbn [find_from]. rewrite (prefix_first_char q x t _ Hx). now apply IH.
Qed.

Lemma drop_app (u r : string) (k : nat) :
  drop (String.length u + k) (u ++ r)%string = drop k r.
Proof. induction u as [|x u IH]; [reflexivity|exact IH]. Qed.

(** The location round trip: the location cell written for an item
    ([full_name]) is read back as the same place, with its country when
    one was written (a country that is not empty and not part of the
    name), for a name without a comma; writing the location read gives the
    same cell again. *)
Theorem location_cell_round_trip (l : App.LocationData) :
  lacks "," (App.name l) = true ->
  App.parse_location (App.full_name l)
  = App.mkLocation (App.name l)
      (match App.country l with
       | Some c => if negb (is_empty c) && negb (App.contains c (App.name l))
                   then Some c else None
       | None => None
       end)
  /\ App.full_name (App.parse_location (App.full_name l)) = App.full_name l.
Proof.
  intros Hn. destruct l as [n [c|]]; cbn [App.name App.country] in *.
  - unfold App.full_name. cbn [App.name App.country].
    destruct (negb (is_empty c) && negb (App.contains c n)) eqn:Hc.
    + assert (Hparse : App.parse_location (n ++ ", " ++ c)
                       = App.mkLocation n (Some c)).
      { unfold App.parse_location, split_once, find.
        rewrite (find_from_past "," " " c n 0 Hn).
        replace (0 + len n <? 0) with false
          by (symmetry; apply Z.ltb_ge; unfold len; lia).
        replace (Z.to_nat (0 + len n)) with (String.length n) by (unfold len; lia).
        rewrite take_app.
        change (n ++ ", " ++ c)%string with (n ++ (", " ++ c))%string.
        rewrite drop_app. reflexivity. }
      rewrite Hparse. split; [reflexivity|].
      cbn [App.name App.country]. now rewrite Hc.
    + assert (Hparse : App.parse_location n = App.mkLocation n None).
      { unfold App.parse_location, split_once, find.
        rewrite (find_from_absent "," " " n 0 Hn). reflexivity. }
      rewrite Hparse. split; reflexivity.
  - unfold App.full_name. cbn [App.name App.country].
    assert (Hparse : App.parse_location n = App.mkLocation n None).
    { unfold App.parse_location, split_once, find.
      rewrite (find_from_absent "," " " n 0 Hn). reflexivity. }
    rewrite Hparse. split; reflexivity.
Qed.

Lemma location_cell_witness :
  App.parse_location (App.full_name Runs.paris) = Runs.paris
  /\ App.full_name (App.parse_location (App.full_name Runs.paris)) = "Paris, France".
Proof.
  apply (location_cell_round_trip Runs.paris). reflexivity.
Defined.

End RoundTripFacts.

(** *** The location file *)

Module ConfigFacts.

Import PyStr App TextSpec Runs RoundTripFacts.
Local Open Scope list_scope.

Lemma contains_lacks (q : ascii) (t s : string) :
  lacks q s = true -> contains (String q t) s = false.
Proof.
  intros H. unfold contains, find. now rewrite (find_from_absent q t s 0 H).
Qed.

(** The current location: a missing location file is created with the
    default place, Paris in France, which is returned; a file that holds
    only blanks raises the file error and changes nothing; otherwise the
    place is the stripped text, split at its first comma into name and
    country when it has one. Nothing but the file error is raised. *)
Theorem current_location_by_file (w : World) :
  match location_file w with
  | None =>
      get_current_location w
      = (Exec.Ret paris, with_location (Some "Paris, France") w)
  | Some content =>
      if is_empty (strip content) then
        get_current_location w
        = (Exec.Raise (mkExn FileNotFoundError "Required file not found: location.txt"), w)
      else
        exists l, get_current_location w = (Exec.Ret l, w)
          /\ (lacks "," (strip content) = true -> l = mkLocation (strip content) None)
          /\ (forall n c, strip content = (n ++ "," ++ c)%string ->
                lacks "," n = true ->
                l = mkLocation (strip n) (Some (strip c)))
  end.
Proof.
  unfold get_current_location, Exec.try_except, Exec.bind, Exec.gets.
  destruct (location_file w) as [content|] eqn:Hfile; cbn [is_some].
  - cbn [Exec.ret]. rewrite Hfile. cbn [or_empty].
    destruct (is_empty (strip content)) eqn:He; [reflexivity|].
    destruct (contains "," (strip content)) eqn:Hc.
    + assert (Hsplit : exists n c, split_once "," (strip content) = [n; c]).
      { unfold split_once. unfold contains in Hc. apply Z.leb_le in Hc.
        replace (find "," (strip content) <? 0) with false
          by (symmetry; apply Z.ltb_ge; lia).
        eexists _, _. reflexivity. }
      destruct Hsplit as (n0 & c0 & Hsp). rewrite Hsp.
      eexists. split; [reflexivity|]. split.
      * intros Hl. rewrite (contains_lacks "," "" _ Hl) in Hc. discriminate.
      * intros n c Hnc Hn. rewrite Hnc in Hsp. unfold split_once, find in Hsp.
        change (n ++ "," ++ c)%string with (n ++ String "," "" ++ c)%string in Hsp.
        rewrite (find_from_past "," "" c n 0 Hn) in Hsp.
        replace (0 + len n <? 0) with false in Hsp
          by (symmetry; apply Z.ltb_ge; unfold len; lia).
        replace (Z.to_nat (0 + len n)) with (String.length n) in Hsp
          by (unfold len; lia).
        rewrite take_app, drop_app in Hsp.
        injection Hsp as <- <-. reflexivity.
    + eexists. split; [reflexivity|]. split; [reflexivity|].
      intros n c Hnc Hn. rewrite Hnc in Hc.
      unfold contains, find in Hc.
      change (n ++ "," ++ c)%string with (n ++ String "," "" ++ c)%string in Hc.
      rewrite (find_from_past "," "" c n 0 Hn) in Hc.
      apply Z.leb_gt in Hc. unfold len in Hc. lia.
  - reflexivity.
Qed.

Example current_location_example :
  fst (get_current_location (app_world None)) = Exec.Ret paris
  /\ fst (get_current_location
            (mkWorld stored_sheet 0 None None None (Some "  ") [] []))
     = Exec.Raise (mkExn FileNotFoundError "Required file not found: location.txt").
Proof. split; reflexivity. Qed.

End ConfigFacts.

(** *** More on the generator script *)

Module GeneratorFacts.

Import PyStr Gsheet Automation GeneratorSpec Inputs Runs.
Local Open Scope list_scope.

Lemma numbered_from_app (a b : list Row) : forall i,
  numbered_from i (a ++ b)
  = numbered_from i a && numbered_from (i + Z.of_nat (List.length a)) b.
Proof.
  induction a as [|row a IH]; intro i.
  - cbn [app numbered_from List.length andb]. now rewrite Z.add_0_r.
  - cbn [app numbered_from List.length]. destruct (r_index row) as [k|]; [|reflexivity].
    replace (i + Z.of_nat (S (List.length a)))
      with (i + 1 + Z.of_nat (List.length a)) by lia.
    now rewrite IH, andb_assoc.
Qed.

Lemma new_rows_numbered (location group_id : string) (prompts : list (string * string)) :
  forall (offset : Z) (caption : string),
  numbered_from offset (new_rows offset location group_id caption prompts) = true.
Proof.
  induction prompts as [|[place text] prompts IH]; intros offset caption; [reflexivity|].
  cbn [new_rows numbered_from r_index]. rewrite Z.eqb_refl. apply IH.
Qed.

Lemma story_rows_numbered (prompts : list string) : forall (offset : Z) (n : nat),
  numbered_from offset (firstn n (story_rows offset prompts)) = true.
Proof.
  induction prompts as [|prompt prompts IH]; intros offset n.
  - destruct n; reflexivity.
  - destruct n as [|n]; [reflexivity|].
    cbn [story_rows firstn numbered_from r_index]. rewrite Z.eqb_refl. apply IH.
Qed.

Lemma insert_at_end (values : list Row) (s : Sheet) :
  records (insert_rows values (get_last_index s + 2) s) = records s ++ values.
Proof.
  unfold insert_rows, get_last_index. cbn [records].
  replace (Z.to_nat (Z.of_nat (List.length (records s)) + 2 - 2))
    with (List.length (records s)) by lia.
  rewrite firstn_all, skipn_all, app_nil_r. reflexivity.
Qed.

Lemma new_rows_cells (location group_id : string) (prompts : list (string * string)) :
  forall (offset : Z) (caption : string),
  Forall (fun row => r_type row = "posts" /\ r_group_id row = group_id
                     /\ r_image row = "" /\ r_approved row = ""
                     /\ r_posted_on_instagram row = "")
         (new_rows offset location group_id caption prompts)
  /\ map r_caption (new_rows offset location group_id caption prompts)
     = match prompts with
       | [] => []
       | _ :: rest => caption :: map (fun _ => "-") rest
       end.
Proof.
  induction prompts as [|[place text] prompts IH]; intros offset caption.
  - split; [constructor|reflexivity].
  - cbn [new_rows map r_caption]. destruct (IH (offset + 1) "-") as [Hall Hcap].
    split.
    + constructor; [cbn; auto|exact Hall].
    + f_equal. rewrite Hcap. destruct prompts; reflexivity.
Qed.

(** New rows go below the records of the sheet and continue their
    numbering: on a sheet whose records are numbered from 0, the rows of
    new posts and of new story ideas are appended, the old records are
    kept, and the records are still numbered from 0. The rows of new
    posts form one group of unapproved posts without image, the first with
    an empty caption cell and the others with ["-"]; at most two story
    rows are added. *)
Theorem new_rows_continue_the_numbering
    (location group_id : string) (prompts : list (string * string))
    (ideas : list string) (s : Sheet) :
  numbered_from 0 (records s) = true ->
  let posts := new_rows (get_last_index s) location group_id "" prompts in
  let stories := firstn 2 (story_rows (get_last_index s) ideas) in
  records (v1_generate_prompts location group_id prompts s) = records s ++ posts
  /\ numbered_from 0 (records (v1_generate_prompts location group_id prompts s)) = true
  /\ map r_caption posts
     = match prompts with [] => [] | _ :: rest => "" :: map (fun _ => "-") rest end
  /\ Forall (fun row => r_type row = "posts" /\ r_group_id row = group_id
                        /\ r_image row = "" /\ r_approved row = ""
                        /\ r_posted_on_instagram row = "") posts
  /\ records (v1_generate_story_idea ideas s) = records s ++ stories
  /\ numbered_from 0 (records (v1_generate_story_idea ideas s)) = true
  /\ (List.length stories <= 2)%nat.
Proof.
  intros Hs. cbv zeta.
  assert (Hp : records (v1_generate_prompts location group_id prompts s)
               = records s ++ new_rows (get_last_index s) location group_id "" prompts)
    by apply insert_at_end.
  assert (Hi : records (v1_generate_story_idea ideas s)
               = records s ++ firstn 2 (story_rows (get_last_index s) ideas))
    by apply insert_at_end.
  destruct (new_rows_cells location group_id prompts (get_last_index s) "")
    as [Hall Hcap].
  split; [exact Hp|]. split; [|split; [exact Hcap|split; [exact Hall|]]].
  - rewrite Hp, numbered_from_app, Hs. cbn [andb Z.add].
    apply new_rows_numbered.
  - split; [exact Hi|]. split.
    + rewrite Hi, numbered_from_app, Hs. cbn [andb Z.add].
      apply story_rows_numbered.
    + rewrite length_firstn. lia.
Qed.

Lemma new_rows_witness :
  records generated_sheet
  = new_rows 0 "Paris" "group-1" ""
      [("Louvre", "prompt one"); ("Montmartre", "prompt two");
       ("Le Marais", "prompt three"); ("Versailles", "prompt four")]
  /\ numbered_from 0 (records generated_sheet) = true
  /\ map r_caption (records generated_sheet) = [""; "-"; "-"; "-"].
Proof.
  destruct (new_rows_continue_the_numbering "Paris" "group-1"
              [("Louvre", "prompt one"); ("Montmartre", "prompt two");
               ("Le Marais", "prompt three"); ("Versailles", "prompt four")]
              [] (mkSheet header_cells []) eq_refl)
    as (H1 & H2 & H3 & _).
  split; [exact H1|]. split; [exact H2|exact H3].
Defined.


Lemma generate_row_complete (env : Env) (row : Row) (w : World) :
  complete row = true -> generate_row env row w = (Exec.Ret tt, w).
Proof.
  unfold complete, generate_row, Exec.try_except. intros Hc.
  destruct (String.eqb (r_prompt row) ""); [reflexivity|].
  cbn [orb negb] in Hc. apply andb_true_iff in Hc. destruct Hc as [Hi Hcap].
  apply negb_true_iff in Hi, Hcap. cbn [negb]. rewrite Hi.
  unfold Exec.bind, Exec.ret, generate_row_caption. rewrite Hcap. reflexivity.
Qed.

Lemma for_each_complete (env : Env) (rows : list Row) : forall w,
  forallb complete rows = true ->
  Exec.for_each rows (generate_row env) w = (Exec.Ret tt, w).
Proof.
  induction rows as [|row rows IH]; intros w Hc; [reflexivity|].
  cbn [forallb] in Hc. apply andb_true_iff in Hc. destruct Hc as [Hrow Hrest].
  cbn [Exec.for_each]. unfold Exec.bind.
  rewrite (generate_row_complete env row w Hrow). now apply IH.
Qed.

(** On a sheet whose records are all complete (no prompt, or an image
    and, for a post, a caption cell that is not empty) the generation loop
    calls no service and writes nothing, and a whole run only sends its two
    notices and leaves the flag at ["nope"]. *)
Theorem complete_sheet_generates_nothing (env : Env) (w : World) :
  sheet_read_error env = None ->
  forallb complete (records (sheet w)) = true ->
  generate_posts_and_caption env w = (Exec.Ret tt, w)
  /\ (strip (is_running_txt w) <> "yep" ->
      main env w
      = (Exec.Ret tt,
         mkWorld (sheet w) "nope" (location_txt w)
                 (notifications w ++ ["Running image and caption generation...";
                                      "Stopping image and caption generation"])
                 (ai_calls w) (uploads w))).
Proof.
  intros Hread Hc.
  assert (Hgen : forall w0, sheet w0 = sheet w ->
                   generate_posts_and_caption env w0 = (Exec.Ret tt, w0)).
  { intros w0 Hs. unfold generate_posts_and_caption. rewrite Hread.
    unfold Exec.bind, Exec.ret, Exec.gets. rewrite Hs. now apply for_each_complete. }
  split; [now apply Hgen|].
  intros Hfree. unfold main. unfold Exec.bind at 1. unfold Exec.gets.
  apply String.eqb_neq in Hfree. rewrite Hfree.
  unfold Exec.bind at 1. cbn [Exec.ret].
  unfold Exec.bind at 1. cbn [send_messages Exec.modify].
  unfold Exec.bind at 1. cbn [write_is_running Exec.modify].
  unfold Exec.bind at 1. rewrite Hgen by reflexivity.
  unfold Exec.bind. cbn. rewrite <- app_assoc. reflexivity.
Qed.

Lemma complete_sheet_witness :
  generate_posts_and_caption image_service_500
    (mkWorld ready_sheet "nope" "Paris" [] [] [])
  = (Exec.Ret tt, mkWorld ready_sheet "nope" "Paris" [] [] []).
Proof.
  apply (complete_sheet_generates_nothing image_service_500
           (mkWorld ready_sheet "nope" "Paris" [] [] []));
    reflexivity.
Defined.


Lemma group_folds_nested (f g : Row -> bool) :
  (forall row, f row = true -> g row = true) ->
  forall (values : list Row) (a b : list string),
  NoDup a -> NoDup b -> incl a b ->
  let a' := fold_left (fun ids row =>
              if f row then set_add string_dec (r_group_id row) ids else ids) values a in
  let b' := fold_left (fun ids row =>
              if g row then set_add string_dec (r_group_id row) ids else ids) values b in
  NoDup a' /\ NoDup b' /\ incl a' b'.
Proof.
  intros Hfg. induction values as [|row values IH]; intros a b Ha Hb Hi; cbv zeta.
  - cbn [fold_left]. auto.
  - cbn [fold_left]. apply IH.
    + destruct (f row); [now apply set_add_nodup|exact Ha].
    + destruct (g row); [now apply set_add_nodup|exact Hb].
    + destruct (f row) eqn:Hf.
      * rewrite (Hfg row Hf). intros x Hx. apply set_add_elim in Hx.
        apply set_add_intro. destruct Hx as [->|Hx]; [now left|right; now apply Hi].
      * destruct (g row); [|exact Hi].
        intros x Hx. apply set_add_intro. right. now apply Hi.
Qed.

Lemma counter_folds_nested (f g : Row -> bool) :
  (forall row, f row = true -> g row = true) ->
  forall (values : list Row) (a b : Z),
  0 <= a <= b ->
  0 <= fold_left (fun total row => if f row then total + 1 else total) values a
    <= fold_left (fun total row => if g row then total + 1 else total) values b.
Proof.
  intros Hfg. induction values as [|row values IH]; intros a b Hab.
  - exact Hab.
  - cbn [fold_left]. apply IH. destruct (f row) eqn:Hf.
    + rewrite (Hfg row Hf). lia.
    + destruct (g row); lia.
Qed.

(** The reminder script reads the sheet and sends at most two messages,
    one for each count that reaches 2; it counts the rows that have their
    image and an empty [approved] cell, so each count is at most the
    matching count of unposted stories or groups of posts. *)
Theorem reminders_follow_the_counts (w : World) :
  let values := records (sheet w) in
  let story := approved_non_posted_story values in
  let posts := approved_non_posted_instagram_posts values in
  approve_process w
  = (Exec.Ret tt,
     mkWorld (sheet w) (is_running_txt w) (location_txt w)
             (notifications w ++ reminders story posts) (ai_calls w) (uploads w))
  /\ 0 <= story <= non_posted_story values
  /\ 0 <= posts <= non_posted_instagram_posts values.
Proof.
  cbv zeta. split; [|split].
  - unfold approve_process, reminders, Exec.bind, Exec.gets.
    generalize (approved_non_posted_story (records (sheet w))) as story.
    generalize (approved_non_posted_instagram_posts (records (sheet w))) as posts.
    intros posts story. destruct w as [s running loc notes calls ups].
    destruct (2 <=? story); destruct (2 <=? posts);
      unfold send_messages, Exec.modify, Exec.ret;
      cbn [sheet is_running_txt location_txt notifications ai_calls uploads app];
      rewrite ?app_nil_r, <- ?app_assoc; reflexivity.
  - unfold approved_non_posted_story, non_posted_story.
    apply counter_folds_nested; [|lia].
    intros row H. apply andb_true_iff in H. destruct H as [H _].
    apply andb_true_iff in H. destruct H as [H _]. exact H.
  - unfold approved_non_posted_instagram_posts, non_posted_instagram_posts.
    destruct (group_folds_nested
                (fun row => String.eqb (r_type row) "posts"
                            && String.eqb (r_posted_on_instagram row) ""
                            && String.eqb (r_approved row) ""
                            && negb (String.eqb (r_image row) ""))
                (fun row => String.eqb (r_type row) "posts"
                            && String.eqb (r_posted_on_instagram row) "")
                ltac:(intros row H; apply andb_true_iff in H; destruct H as [H _];
                      apply andb_true_iff in H; destruct H as [H _]; exact H)
                (records (sheet w)) [] [] (NoDup_nil _) (NoDup_nil _) (incl_refl _))
      as (Ha & Hb & Hi).
    pose proof (NoDup_incl_length Ha Hi). lia.
Qed.

End GeneratorFacts.

(** *** The parsers of the answers of the model *)

Module ParserFacts.

Import PyStr App TextSpec ParserSpec RoundTripFacts.
Local Open Scope list_scope.

Lemma story_lines_numbered (lines : list string) :
  forallb blank_or_numbered lines = true -> story_lines lines = [].
Proof.
  induction lines as [|line lines IH]; intros H; [reflexivity|].
  cbn [forallb] in H. apply andb_true_iff in H. destruct H as [Hl Hrest].
  cbn [story_lines]. unfold blank_or_numbered in Hl. cbv zeta in *.
  destruct (is_empty (strip line)); cbn [negb andb orb] in *; [now apply IH|].
  rewrite Hl. cbn [negb]. now apply IH.
Qed.

Lemma legacy_story_lines_length (lines : list string) :
  List.length (Automation.story_prompts_of_lines lines)
  = List.length (filter (fun line => negb (String.eqb line "")) lines).
Proof.
  induction lines as [|line lines IH]; [reflexivity|].
  cbn [Automation.story_prompts_of_lines filter].
  destruct (String.eqb line ""); cbn [negb List.length]; now rewrite IH.
Qed.

(** The story prompts read off an answer are at most two, and an answer
    whose lines are all blank or numbered [1.] to [4.] yields none: a
    numbered line is left out, not stripped of its numbering. The
    generator script keeps one prompt for every line that is not empty. *)
Theorem numbered_story_lines_are_dropped (response_text : string) :
  (List.length (parse_story_prompts response_text) <= 2)%nat
  /\ (forallb blank_or_numbered (split nl response_text) = true ->
      parse_story_prompts response_text = [])
  /\ List.length (Automation.parse_story_prompts response_text)
     = List.length (filter (fun line => negb (String.eqb line ""))
                           (split nl response_text)).
Proof.
  unfold parse_story_prompts. split; [|split].
  - rewrite length_firstn. lia.
  - intros H. now rewrite story_lines_numbered.
  - apply legacy_story_lines_length.
Qed.

Lemma numbered_story_lines_witness :
  parse_story_prompts
    ("1. A walk along the Seine at dusk" ++ nl ++ "2. Coffee in Montmartre") = []
  /\ Automation.parse_story_prompts
       ("1. A walk along the Seine at dusk" ++ nl ++ "2. Coffee in Montmartre")
     = ["A walk along the Seine at dusk"; "Coffee in Montmartre"].
Proof.
  split; [|reflexivity].
  apply (numbered_story_lines_are_dropped
           ("1. A walk along the Seine at dusk" ++ nl ++ "2. Coffee in Montmartre")).
  reflexivity.
Defined.

Lemma prefix_empty (s : string) : String.prefix "" s = true.
Proof. destruct s; reflexivity. Qed.

Lemma prefix_char (q x : ascii) (s : string) :
  String.prefix (String q "") (String x s) = Ascii.eqb x q.
Proof.
  cbn [String.prefix]. destruct (ascii_dec q x) as [->|Hn].
  - now rewrite prefix_empty, Ascii.eqb_refl.
  - symmetry. apply Ascii.eqb_neq. congruence.
Qed.

(** The first occurrence of a character splits the text. *)
Lemma find_char_spec (q : ascii) : forall (s : string) (i : Z),
  (find_from (String q "") s i = -1 /\ lacks q s = true)
  \/ (exists a b, s = (a ++ String q b)%string /\ lacks q a = true
                  /\ find_from (String q "") s i = i + len a)
  \/ i < 0.
Proof.
  induction s as [|x s IH]; intro i.
  - left. split; reflexivity.
  - destruct (Z.ltb_spec i 0) as [Hneg|Hi]; [right; right; exact Hneg|].
    cbn [find_from]. rewrite prefix_char. destruct (Ascii.eqb x q) eqn:Hx.
    + right. left. exists "", s. apply Ascii.eqb_eq in Hx. subst x.
      split; [reflexivity|]. split; [reflexivity|]. unfold len. cbn. lia.
    + destruct (IH (i + 1)) as [[Hf Hl]|[(a & b & -> & Hl & Hf)|Hneg]]; [| |lia].
      * left. split; [exact Hf|]. cbn [lacks]. now rewrite Hx, Hl.
      * right. left. exists (String x a), b. split; [reflexivity|].
        split; [cbn [lacks]; now rewrite Hx, Hl|].
        rewrite Hf. unfold len. cbn [String.length]. lia.
Qed.

Lemma lacks_lstrip (q : ascii) (s : string) :
  lacks q s = true -> lacks q (lstrip s) = true.
Proof.
  induction s as [|x s IH]; intros H; [reflexivity|].
  cbn [lstrip]. destruct (is_space x); [|exact H].
  cbn [lacks] in H. apply andb_true_iff in H. now apply IH.
Qed.

Lemma lacks_rstrip (q : ascii) (s : string) :
  lacks q s = true -> lacks q (rstrip s) = true.
Proof.
  induction s as [|x s IH]; intros H; [reflexivity|].
  cbn [lacks] in H. apply andb_true_iff in H. destruct H as [Hx Hs].
  cbn [rstrip]. specialize (IH Hs). destruct (rstrip s) as [|y r].
  - destruct (is_space x); [reflexivity|]. cbn [lacks]. now rewrite Hx.
  - cbn [lacks] in *. now rewrite Hx, IH.
Qed.

Lemma lacks_strip (q : ascii) (s : string) :
  lacks q s = true -> lacks q (strip s) = true.
Proof. intros H. unfold strip. now apply lacks_rstrip, lacks_lstrip. Qed.

Lemma with_prefix_starts (q : ascii) (tag : string) :
  lower_char q = q ->
  String.prefix (String q "") (with_prefix (String q "") tag) = true.
Proof.
  intros Hq. unfold with_prefix.
  destruct (String.prefix (String q "") tag) eqn:Hp.
  - destruct tag as [|x tag]; [discriminate|].
    rewrite prefix_char in Hp. apply Ascii.eqb_eq in Hp. subst x.
    cbn [lower]. rewrite Hq, prefix_char. apply Ascii.eqb_refl.
  - cbn [String.append lower]. rewrite Hq, prefix_char. apply Ascii.eqb_refl.
Qed.

(** The caption built from the answer of the model: its text is not empty
    and holds no hashtag (it is the answer up to its first [#], without
    double quotes), every hashtag starts with [#], and the mentions are the
    default ones. No caption is built (the validator of the text raises)
    exactly when nothing but blanks comes before the first [#]. *)
Theorem post_caption_shape (response : string) :
  let answer := strip (replace dq "" response) in
  let before := if contains "#" answer
                then strip (slice_to answer (find "#" answer)) else answer in
  match post_caption_of_response response with
  | Some c =>
      text c = strip before /\ text c <> ""
      /\ lacks "#" (text c) = true
      /\ Forall (fun tag => String.prefix "#" tag = true) (hashtags c)
      /\ mentions c = default_mentions
  | None => strip before = ""
  end.
Proof.
  cbv zeta. unfold post_caption_of_response.
  set (answer := strip (replace dq "" response)).
  set (before := if contains "#" answer
                 then strip (slice_to answer (find "#" answer)) else answer).
  assert (Hlacks : lacks "#" before = true).
  { unfold before, contains, find.
    destruct (find_char_spec "#" answer 0) as [[Hf Hl]|[(a & b & Hs & Hl & Hf)|Hneg]];
      [| |lia].
    - rewrite Hf. exact Hl.
    - rewrite Hf. replace (0 <=? 0 + len a) with true
        by (symmetry; apply Z.leb_le; unfold len; lia).
      apply lacks_strip. unfold slice_to, norm_bound.
      replace (0 + len a <? 0) with false
        by (symmetry; apply Z.ltb_ge; unfold len; lia).
      assert (Hlen : len answer = len a + 1 + len b).
      { rewrite Hs. unfold len. rewrite length_append. cbn [String.length]. lia. }
      replace (Z.to_nat (Z.min (0 + len a) (len answer))) with (String.length a)
        by (rewrite Hlen; unfold len; lia).
      rewrite Hs, take_app. exact Hl. }
  destruct (len (strip before) <? 1) eqn:Hempty.
  - apply Z.ltb_lt in Hempty. unfold len in Hempty.
    destruct (strip before); [reflexivity|cbn [String.length] in Hempty; lia].
  - cbn [text hashtags mentions]. split; [reflexivity|]. split; [|split; [|split]].
    + intros H. rewrite H in Hempty. discriminate.
    + now apply lacks_strip.
    + apply Forall_forall. intros tag Hin. apply in_map_iff in Hin.
      destruct Hin as (t & <- & _). now apply (with_prefix_starts "#").
    + reflexivity.
Qed.

Example post_caption_example :
  post_caption_of_response
    (dq ++ "Lost in Paris " ++ dq ++ " #Paris Vibes #TravelGram")
  = Some (mkCaption "Lost in Paris" ["#paris"; "#travelgram"]
                    ["@thevarunmayya"; "@acknowledge.ai"; "@eluna.ai"])
  /\ post_caption_of_response "#paris is calling" = None.
Proof. split; reflexivity. Qed.


Lemma split_once_contains (sep s : string) :
  split_once sep s
  = if contains sep s
    then [take (Z.to_nat (find sep s)) s;
          drop (Z.to_nat (find sep s) + String.length sep) s]
    else [s].
Proof.
  unfold split_once, contains.
  destruct (Z.ltb_spec (find sep s) 0) as [Hneg|Hpos].
  - replace (0 <=? find sep s) with false by (symmetry; apply Z.leb_gt; lia).
    reflexivity.
  - replace (0 <=? find sep s) with true by (symmetry; apply Z.leb_le; lia).
    reflexivity.
Qed.

Lemma post_lines_result (lines : list string) : forall current_location : string,
  match post_lines current_location lines with
  | None => existsb unparsable lines = true
  | Some prompts =>
      existsb unparsable lines = false
      /\ List.length prompts
         = List.length (filter (fun line => is_description (strip line)) lines)
      /\ Forall (fun p => String.prefix starting_prompt p = true) prompts
  end.
Proof.
  induction lines as [|line lines IH]; intro loc.
  - cbn. auto.
  - cbn [post_lines existsb filter]. cbv zeta.
    unfold unparsable at 1 3, marked, is_description.
    rewrite split_once_contains.
    destruct (is_empty (strip line)) eqn:He.
    + unfold is_empty in He. apply String.eqb_eq in He. rewrite He.
      change (contains "Place Name" "") with false.
      change (contains "Description" "") with false.
      cbn [orb andb negb]. apply IH.
    + destruct (contains "Place Name" (strip line)); cbn [orb andb negb].
      * destruct (contains ":" (strip line)); cbn [negb orb]; [apply IH|reflexivity].
      * destruct (contains "Description" (strip line)); cbn [orb andb negb];
          [|apply IH].
        destruct (contains ":" (strip line)); cbn [negb orb]; [|reflexivity].
        specialize (IH loc). destruct (post_lines loc lines) as [l|]; [|exact IH].
        destruct IH as (H1 & H2 & H3). split; [exact H1|]. split.
        -- cbn [List.length]. now rewrite H2.
        -- constructor; [|exact H3]. apply prefix_app.
Qed.

(** The post prompts read off an answer: the parse fails exactly when a
    line that names a place or gives a description has no colon; otherwise
    there is one prompt for each description line, and each starts with
    the fixed opening. *)
Theorem post_prompts_need_a_colon_on_marked_lines (response_text : string) :
  let lines := split nl response_text in
  match parse_post_prompts response_text with
  | None => existsb unparsable lines = true
  | Some prompts =>
      existsb unparsable lines = false
      /\ List.length prompts
         = List.length (filter (fun line => is_description (strip line)) lines)
      /\ Forall (fun p => String.prefix starting_prompt p = true) prompts
  end.
Proof. cbv zeta. unfold parse_post_prompts. apply post_lines_result. Qed.

Example post_prompts_example :
  parse_post_prompts
    ("Place Name: Louvre" ++ nl ++ "Description: by the pyramid, at 9:30")
  = Some [(starting_prompt ++ " at Louvre, by the pyramid, at 9:30, "
           ++ ending_prompt)%string]
  /\ parse_post_prompts ("Place Name - Louvre" ++ nl ++ "Description: x") = None.
Proof. split; reflexivity. Qed.


(** *** The prompts of the generator script *)

Lemma split_go_count (sep : string) : forall (s : string) (k : nat) (cur : string),
  List.length (split_go sep s k cur) = S (count_go sep s k).
Proof.
  induction s as [|c s IH]; intros k cur; [reflexivity|].
  cbn [split_go count_go]. destruct k as [|k]; [|apply IH].
  destruct (String.prefix sep (String c s)); [cbn [List.length]; now rewrite IH|apply IH].
Qed.

Lemma parse_prompt_line_keeps (st : Automation.ParseState) (line : string) :
  Forall (fun pair => prompt_for (fst pair) (snd pair)) (Automation.final_prompts st) ->
  Forall (fun pair => prompt_for (fst pair) (snd pair))
         (Automation.final_prompts (Automation.parse_prompt_line st line))
  /\ (List.length (Automation.final_prompts (Automation.parse_prompt_line st line))
      <= List.length (Automation.final_prompts st)
         + (if Automation.contains "Description" line then 1 else 0))%nat.
Proof.
  intros Hst. unfold Automation.parse_prompt_line.
  destruct (String.eqb line ""); [split; [exact Hst|lia]|].
  destruct (Automation.contains "Place Name" line) eqn:Hp;
    destruct (Automation.contains "Description" line) eqn:Hd; cbn [orb negb];
    try (split; [exact Hst|lia]);
    destruct (split ":" line) as [|a [|value [|c r]]];
    cbn [Automation.final_prompts];
    try (split; [exact Hst|lia]).
  split.
  - apply Forall_app. split; [exact Hst|].
    constructor; [|constructor]. cbn [fst snd]. exists value. reflexivity.
  - rewrite length_app. cbn [List.length]. lia.
Qed.

(** The generator script reads a prompt off a line only if the line has
    exactly one colon: a marked line with none or with several is skipped
    (its unpacking raises and the exception is printed). Every prompt
    returned is the fixed opening, the place of its pair, a description and
    the fixed ending, and there is at most one prompt for each line that
    holds the word Description. *)
Theorem legacy_prompt_lines_need_exactly_one_colon
    (text : string) (st : Automation.ParseState) (line : string) :
  (count ":" line <> 1 -> Automation.parse_prompt_line st line = st)
  /\ Forall (fun pair => prompt_for (fst pair) (snd pair))
            (Automation.parse_multiple_prompts text)
  /\ (List.length (Automation.parse_multiple_prompts text)
      <= List.length (filter (Automation.contains "Description") (split nl text)))%nat.
Proof.
  split.
  - intros Hc. unfold Automation.parse_prompt_line.
    destruct (String.eqb line ""); [reflexivity|].
    destruct (negb _); [reflexivity|].
    assert (Hlen : List.length (split ":" line) <> 2%nat).
    { unfold split. rewrite split_go_count. unfold count in Hc. lia. }
    destruct (split ":" line) as [|a [|value [|c r]]]; try reflexivity.
    now elim Hlen.
  - unfold Automation.parse_multiple_prompts.
    assert (Hfold : forall lines st0,
              Forall (fun pair => prompt_for (fst pair) (snd pair))
                     (Automation.final_prompts st0) ->
              Forall (fun pair => prompt_for (fst pair) (snd pair))
                     (Automation.final_prompts
                        (fold_left Automation.parse_prompt_line lines st0))
              /\ (List.length (Automation.final_prompts
                                 (fold_left Automation.parse_prompt_line lines st0))
                  <= List.length (Automation.final_prompts st0)
                     + List.length (filter (Automation.contains "Description") lines))%nat).
    { induction lines as [|l lines IH]; intros st0 H0.
      - cbn. split; [exact H0|lia].
      - cbn [fold_left filter].
        destruct (parse_prompt_line_keeps st0 l H0) as [H1 H2].
        destruct (IH _ H1) as [H3 H4]. split; [exact H3|].
        destruct (Automation.contains "Description" l); cbn [List.length]; lia. }
    destruct (Hfold (split nl text) (Automation.mkParse "" []) (Forall_nil _))
      as [H1 H2].
    split; [exact H1|]. cbn [Automation.final_prompts List.length Nat.add] in H2.
    exact H2.
Qed.

Lemma legacy_prompt_lines_witness :
  Automation.parse_prompt_line (Automation.mkParse " Louvre" [])
    "Description: by the pyramid, at 9:30"
  = Automation.mkParse " Louvre" [].
Proof.
  apply (legacy_prompt_lines_need_exactly_one_colon ""
           (Automation.mkParse " Louvre" []) "Description: by the pyramid, at 9:30").
  vm_compute. discriminate.
Defined.

End ParserFacts.
